(** * Price dashboard: reconciliation, derived pricing and batch propagation

    A shallow embedding of the reconciliation core of the dashboard:

    - the sheet parsers and [combineData] of the edge worker,
    - the pricing functions of the browser script
      ([roundToNearest], [gbpToEur], [calculateIdentityPrice],
      [getIdentityPrice], [updateIdentityFromInput]),
    - the [/api/zoho/batch-update] handler with its three remote calls.

    JavaScript numbers are IEEE-754 binary64 values; they are modelled by
    the Standard Library's [spec_float] at precision 53 and maximal
    exponent 1024, so every arithmetic step below rounds as the engine
    does.  Strings are byte strings holding UTF-8.  An object literal
    that the code uses as a map is modelled by its own properties together
    with what it inherits from [Object.prototype]; what an endpoint serves
    is modelled after [JSON.stringify]. *)

From Stdlib Require Import ZArith Bool Ascii String List Lia.
From Stdlib Require Import Floats.SpecFloat.
From stdpp Require Import base option list gmap strings sorting.

Local Open Scope string_scope.
Local Open Scope list_scope.
Local Open Scope Z_scope.

(* ===================================================================== *)
(** ** JavaScript numbers *)
(* ===================================================================== *)

Module JsNum.

Definition prec : Z := 53.
Definition emax : Z := 1024.

Definition number : Type := spec_float.

Definition NaN : number := S754_nan.
Definition Infinity : number := S754_infinity false.

(** The integer [n] as a number (rounded to nearest-even beyond 2^53). *)
Definition ofZ (n : Z) : number := binary_normalize prec emax n 0 false.

Definition add (x y : number) : number := SFadd prec emax x y.
Definition mul (x y : number) : number := SFmul prec emax x y.
Definition div (x y : number) : number := SFdiv prec emax x y.

(** [x === y], [x < y], [x <= y] on numbers; [x > y] is [ltb y x]. *)
Definition eqb (x y : number) : bool := SFeqb x y.
Definition ltb (x y : number) : bool := SFltb x y.
Definition leb (x y : number) : bool := SFleb x y.

Definition isNaN (x : number) : bool :=
  match x with S754_nan => true | _ => false end.

Definition isZero (x : number) : bool :=
  match x with S754_zero _ => true | _ => false end.

(** ToBoolean on a number: false exactly for [+0], [-0] and [NaN]. *)
Definition truthy (x : number) : bool := negb (isNaN x || isZero x).

(** [x || null] where [x] is a number. *)
Definition orNull (x : number) : option number :=
  if truthy x then Some x else None.

(** [Math.round]: the integral number closest to [x]; a tie goes to the
    one closer to +Infinity.  Results in (-1, 0] keep the sign of [x]
    ([Math.round(-0.2)] is [-0]). *)
Definition Math_round (x : number) : number :=
  match x with
  | S754_finite s m e =>
      if 0 <=? e then x
      else
        let k := Z.opp e in
        let q := Z.shiftr (Zpos m) k in
        let r := Z.land (Zpos m) (Z.ones k) in
        let half := Z.shiftl 1 (k - 1) in
        let n := if s
                 then (if half <? r then q + 1 else q)
                 else (if half <=? r then q + 1 else q) in
        binary_normalize prec emax (if s then Z.opp n else n) 0 s
  | _ => x
  end.

(** Round half away from zero, the rule the written specification names;
    kept beside [Math_round] so that the two can be compared. *)
Definition round_half_away (x : number) : number :=
  match x with
  | S754_finite s m e =>
      if 0 <=? e then x
      else
        let k := Z.opp e in
        let q := Z.shiftr (Zpos m) k in
        let r := Z.land (Zpos m) (Z.ones k) in
        let half := Z.shiftl 1 (k - 1) in
        let n := if half <=? r then q + 1 else q in
        binary_normalize prec emax (if s then Z.opp n else n) 0 s
  | _ => x
  end.

(** *** Reading numbers from strings *)

Definition digit_of (c : ascii) : option Z :=
  let n := Z.of_N (N_of_ascii c) in
  if (48 <=? n) && (n <=? 57) then Some (n - 48) else None.

Definition hex_digit_of (c : ascii) : option Z :=
  let n := Z.of_N (N_of_ascii c) in
  if (48 <=? n) && (n <=? 57) then Some (n - 48)
  else if (97 <=? n) && (n <=? 102) then Some (n - 87)
  else if (65 <=? n) && (n <=? 70) then Some (n - 55)
  else None.

Definition byte (c : ascii) : Z := Z.of_N (N_of_ascii c).

(** White space and line terminators of one byte. *)
Definition ws1 (c : ascii) : bool :=
  let n := byte c in ((9 <=? n) && (n <=? 13)) || (n =? 32).

(** U+00A0. *)
Definition ws2 (a b : ascii) : bool := (byte a =? 194) && (byte b =? 160).

(** U+1680, U+2000..U+200A, U+2028, U+2029, U+202F, U+205F, U+3000,
    U+FEFF. *)
Definition ws3 (a b c : ascii) : bool :=
  let '(x, y, z) := (byte a, byte b, byte c) in
  ((x =? 225) && (y =? 154) && (z =? 128))
  || ((x =? 226) && (y =? 128)
      && (((128 <=? z) && (z <=? 138)) || (z =? 168) || (z =? 169) || (z =? 175)))
  || ((x =? 226) && (y =? 129) && (z =? 159))
  || ((x =? 227) && (y =? 128) && (z =? 128))
  || ((x =? 239) && (y =? 187) && (z =? 191)).

Fixpoint trimStart (s : string) : string :=
  match s with
  | EmptyString => s
  | String a s1 =>
      if ws1 a then trimStart s1
      else match s1 with
           | EmptyString => s
           | String b s2 =>
               if ws2 a b then trimStart s2
               else match s2 with
                    | EmptyString => s
                    | String c s3 => if ws3 a b c then trimStart s3 else s
                    end
           end
  end.

Definition isBlank (s : string) : bool :=
  match trimStart s with EmptyString => true | _ => false end.

Fixpoint trimEnd (s : string) : string :=
  match s with
  | EmptyString => EmptyString
  | String a s1 => if isBlank s then EmptyString else String a (trimEnd s1)
  end.

(** [String.prototype.trim]. *)
Definition trim (s : string) : string := trimEnd (trimStart s).

(** The longest run of decimal digits at the head of [s]: its value when
    read after the digits accumulated in [acc], how many digits there
    were, and the rest of the string. *)
Fixpoint digits (s : string) (acc : Z) (cnt : Z) : Z * Z * string :=
  match s with
  | EmptyString => (acc, cnt, s)
  | String c s1 =>
      match digit_of c with
      | Some d => digits s1 (10 * acc + d) (cnt + 1)
      | None => (acc, cnt, s)
      end
  end.

Fixpoint hex_digits (s : string) (acc : Z) (cnt : Z) : Z * Z * string :=
  match s with
  | EmptyString => (acc, cnt, s)
  | String c s1 =>
      match hex_digit_of c with
      | Some d => hex_digits s1 (16 * acc + d) (cnt + 1)
      | None => (acc, cnt, s)
      end
  end.

(** Optional sign: [true] for a leading minus. *)
Definition sign (s : string) : bool * string :=
  match s with
  | String "-" s1 => (true, s1)
  | String "+" s1 => (false, s1)
  | _ => (false, s)
  end.

(** The number nearest to [m * 10^e10] with [m >= 0], ties to even,
    carrying the sign [sg]. *)
Definition ofDecimal (sg : bool) (m : Z) (e10 : Z) : number :=
  if m =? 0 then S754_zero sg
  else if 0 <=? e10 then
    binary_normalize prec emax (cond_Zopp sg (m * 10 ^ e10)) 0 sg
  else
    let d := 10 ^ (Z.opp e10) in
    let s := Z.max 0 (prec + 3 + Z.log2 d - Z.log2 m) in
    let '(q, r) := Z.div_eucl (Z.shiftl m s) d in
    let l := if r =? 0 then loc_Exact else loc_Inexact (Z.compare (2 * r) d) in
    binary_round_aux prec emax sg q (Z.opp s) l.

(** The exponent part [e[+-]digits] when it is complete, else nothing
    is consumed. *)
Definition exponent (s : string) : Z :=
  match s with
  | String c s1 =>
      if (byte c =? 101) || (byte c =? 69) then
        let '(sg, s2) := sign s1 in
        let '(v, n, _) := digits s2 0 0 in
        if n =? 0 then 0 else cond_Zopp sg v
      else 0
  | EmptyString => 0
  end.

(** [parseFloat]: the longest prefix of the trimmed string that is a
    decimal literal, [NaN] when there is none. *)
Definition parseFloat (str : string) : number :=
  let '(sg, s1) := sign (trimStart str) in
  if String.prefix "Infinity" s1 then S754_infinity sg
  else
    let '(ip, ni, s2) := digits s1 0 0 in
    match s2 with
    | String "." s3 =>
        let '(m, nf, s4) := digits s3 ip 0 in
        if (ni + nf =? 0) then NaN
        else ofDecimal sg m (exponent s4 - nf)
    | _ =>
        if ni =? 0 then NaN else ofDecimal sg ip (exponent s2)
    end.

(** [parseInt] without a radix argument: decimal, or hexadecimal after a
    [0x] prefix. *)
Definition parseInt (str : string) : number :=
  let '(sg, s1) := sign (trimStart str) in
  match s1 with
  | String "0" (String x s2) =>
      if (byte x =? 120) || (byte x =? 88) then
        let '(v, n, _) := hex_digits s2 0 0 in
        if n =? 0 then NaN
        else binary_normalize prec emax (cond_Zopp sg v) 0 sg
      else
        let '(v, n, _) := digits s1 0 0 in
        binary_normalize prec emax (cond_Zopp sg v) 0 sg
  | _ =>
      let '(v, n, _) := digits s1 0 0 in
      if n =? 0 then NaN
      else binary_normalize prec emax (cond_Zopp sg v) 0 sg
  end.

(** A number as [JSON.stringify] writes it and [JSON.parse] reads it back:
    [null] for NaN and the infinities, 0 for -0. *)
Definition jsonNumber (x : number) : option number :=
  match x with
  | S754_nan => None
  | S754_infinity _ => None
  | S754_zero _ => Some (S754_zero false)
  | S754_finite _ _ _ => Some x
  end.

End JsNum.

(* ===================================================================== *)
(** ** Strings and rows *)
(* ===================================================================== *)

Module JsStr.
Import JsNum.

(** [String.prototype.toLowerCase], as far as a comparison with an ASCII
    word can tell: the letters A-Z, and the Kelvin sign U+212A, the one
    code point outside ASCII whose lower case is an ASCII letter. *)
Fixpoint toLowerCase (s : string) : string :=
  match s with
  | EmptyString => EmptyString
  | String a s1 =>
      let n := byte a in
      if (65 <=? n) && (n <=? 90)
      then String (ascii_of_N (Z.to_N (n + 32))) (toLowerCase s1)
      else match s1 with
           | String b (String c s3) =>
               if (n =? 226) && (byte b =? 132) && (byte c =? 170)
               then String "k" (toLowerCase s3)
               else String a (toLowerCase s1)
           | _ => String a (toLowerCase s1)
           end
  end.

(** [s.includes(w)]. *)
Fixpoint includes (w s : string) : bool :=
  String.prefix w s
  || match s with
     | EmptyString => false
     | String _ s1 => includes w s1
     end.

(** [s.replace(/[£$€,]/g, '')]: the pound and euro signs are the UTF-8
    sequences C2 A3 and E2 82 AC. *)
Fixpoint stripCurrency (s : string) : string :=
  match s with
  | EmptyString => EmptyString
  | String a s1 =>
      let n := byte a in
      if (n =? 36) || (n =? 44) then stripCurrency s1
      else match s1 with
           | EmptyString => s
           | String b s2 =>
               if (n =? 194) && (byte b =? 163) then stripCurrency s2
               else match s2 with
                    | EmptyString => String a (stripCurrency s1)
                    | String c s3 =>
                        if (n =? 226) && (byte b =? 130) && (byte c =? 172)
                        then stripCurrency s3
                        else String a (stripCurrency s1)
                    end
           end
  end.

Definition isEmpty (s : string) : bool :=
  match s with EmptyString => true | _ => false end.

(** [arr.findIndex(p)]: the first index whose element satisfies [p],
    [-1] when there is none. *)
Fixpoint findIndexFrom {A} (p : A -> bool) (l : list A) (i : Z) : Z :=
  match l with
  | [] => -1
  | x :: l' => if p x then i else findIndexFrom p l' (i + 1)
  end.

Definition findIndex {A} (p : A -> bool) (l : list A) : Z :=
  findIndexFrom p l 0.

(** [row[idx]]: [None] stands for [undefined] (index -1 or past the
    end of the row). *)
Definition cell (row : list string) (idx : Z) : option string :=
  if idx <? 0 then None else row !! Z.to_nat idx.

(** [row[idx] || '']. *)
Definition cellOrEmpty (row : list string) (idx : Z) : string :=
  default "" (cell row idx).

(** A string argument as the number readers see it: [undefined] is
    converted to the string "undefined". *)
Definition toStringArg (v : option string) : string :=
  default "undefined" v.

End JsStr.

(* ===================================================================== *)
(** ** The sheet parsers and the reconciler (edge worker) *)
(* ===================================================================== *)

Module Sheets.
Import JsNum JsStr.

(** A record of the trade-id sheet (the primary source). *)
Record TradeItem := {
  ti_productId : string;
  ti_name : string;
  ti_price : option number;
  ti_sku : string;
  ti_stock : option number
}.

(** A record of the Digital Id sheet (the secondary source); [name] and
    [description] are present only with [includeDescription]. *)
Record DigitalItem := {
  di_sku : string;
  di_price : option number;
  di_name : option string;
  di_description : option string
}.

Record Set1 := { s1_name : string; s1_cost : option number; s1_stock : option number }.
Record Set2 := { s2_cost : option number }.

(** A merged record, as [combineData] builds it. *)
Record Product := {
  sku : string;
  productId : string;
  set1 : Set1;
  set2 : Set2
}.

Definition minusOne : number := ofZ (-1).

(** [price !== -1] for a price that is a number or [null]. *)
Definition notSentinel (p : option number) : bool :=
  match p with
  | None => true
  | Some x => negb (eqb x minusOne)
  end.

Definition headerIs (w : string) (h : string) : bool :=
  String.eqb (toLowerCase h) w.

Definition headerHas (w : string) (h : string) : bool :=
  includes w (toLowerCase h).

Definition tradeRecord (headers row : list string) : TradeItem :=
  let idIdx := findIndex (headerHas "product id") headers in
  let nameIdx := findIndex (headerHas "product name") headers in
  let priceIdx := findIndex (headerIs "price") headers in
  let skuIdx := findIndex (headerIs "sku") headers in
  let stockIdx := findIndex (headerIs "stock") headers in
  {| ti_productId := cellOrEmpty row idIdx;
     ti_name := cellOrEmpty row nameIdx;
     ti_price := orNull (parseFloat (toStringArg (cell row priceIdx)));
     ti_sku := cellOrEmpty row skuIdx;
     ti_stock := orNull (parseInt (toStringArg (cell row stockIdx))) |}.

Definition tradeKept (item : TradeItem) : bool :=
  negb (isEmpty (ti_sku item)) && notSentinel (ti_price item).

Definition parseTradeIdSheet (rows : list (list string)) : list TradeItem :=
  match rows with
  | headers :: ((_ :: _) as dataRows) =>
      List.filter tradeKept (List.map (tradeRecord headers) dataRows)
  | _ => []
  end.

Definition digitalRecord (includeDescription : bool)
    (headers row : list string) : DigitalItem :=
  let priceIdx := findIndex (headerIs "price") headers in
  let skuIdx := findIndex (headerIs "sku") headers in
  let descIdx := findIndex (headerIs "description") headers in
  let nameIdx := findIndex (headerIs "name") headers in
  let priceStr := trim (stripCurrency (cellOrEmpty row priceIdx)) in
  {| di_sku := cellOrEmpty row skuIdx;
     di_price := orNull (parseFloat priceStr);
     di_name := if includeDescription then Some (cellOrEmpty row nameIdx) else None;
     di_description :=
       if includeDescription then Some (cellOrEmpty row descIdx) else None |}.

Definition digitalKept (item : DigitalItem) : bool :=
  negb (isEmpty (di_sku item)) && notSentinel (di_price item).

Definition parseDigitalIdSheet (rows : list (list string))
    (includeDescription : bool) : list DigitalItem :=
  match rows with
  | headers :: ((_ :: _) as dataRows) =>
      List.filter digitalKept
        (List.map (digitalRecord includeDescription headers) dataRows)
  | _ => []
  end.

(** *** combineData *)

(** The [forEach] that fills [digitalIdMap]: a key already in the map is
    left alone. *)
Definition setIfAbsent (digitalIdMap : gmap string (option number))
    (item : DigitalItem) : gmap string (option number) :=
  match digitalIdMap !! di_sku item with
  | Some _ => digitalIdMap
  | None => <[di_sku item := di_price item]> digitalIdMap
  end.

Definition digitalIdMapOf (digitalIdData : list DigitalItem)
    : gmap string (option number) :=
  foldl setIfAbsent ∅ digitalIdData.

(** The [filter] over the trade-id data with its [seenSkus] set. *)
Fixpoint dedupFrom (seenSkus : gset string) (l : list TradeItem)
    : list TradeItem :=
  match l with
  | [] => []
  | item :: l' =>
      if decide (ti_sku item ∈ seenSkus) then dedupFrom seenSkus l'
      else item :: dedupFrom ({[ti_sku item]} ∪ seenSkus) l'
  end.

(** [digitalIdMap.get(sku) || null]. *)
Definition getOrNull (m : gmap string (option number)) (k : string)
    : option number :=
  match m !! k with
  | Some (Some x) => orNull x
  | _ => None
  end.

Definition toProduct (m : gmap string (option number)) (item : TradeItem)
    : Product :=
  {| sku := ti_sku item;
     productId := ti_productId item;
     set1 := {| s1_name := ti_name item;
                s1_cost := ti_price item;
                s1_stock := ti_stock item |};
     set2 := {| s2_cost := getOrNull m (ti_sku item) |} |}.

(** [x !== null]. *)
Definition notNull {A} (x : option A) : bool :=
  match x with Some _ => true | None => false end.

Definition bothCosts (p : Product) : bool :=
  notNull (s1_cost (set1 p)) && notNull (s2_cost (set2 p)).

Definition combineData (tradeIdData : list TradeItem)
    (digitalIdData : list DigitalItem) : list Product :=
  let digitalIdMap := digitalIdMapOf digitalIdData in
  let dedupedTradeId := dedupFrom ∅ tradeIdData in
  List.filter bothCosts (List.map (toProduct digitalIdMap) dedupedTradeId).

End Sheets.

(* ===================================================================== *)
(** ** Object literals used as maps *)
(* ===================================================================== *)

Module JsObj.

(** The property names of [Object.prototype] (ECMAScript, with the
    accessors of its annex B that every browser has).  An object written
    [{}] inherits them: read under one of these names it yields the
    inherited member unless it has a property of its own under the name. *)
Definition objectPrototypeNames : list string :=
  [ "constructor"; "hasOwnProperty"; "isPrototypeOf"; "propertyIsEnumerable";
    "toLocaleString"; "toString"; "valueOf";
    "__defineGetter__"; "__defineSetter__";
    "__lookupGetter__"; "__lookupSetter__"; "__proto__" ].

Definition inherits (k : string) : bool :=
  existsb (String.eqb k) objectPrototypeNames.

(** What [obj[k]] yields: the object's own property, a member of
    [Object.prototype] (a function; for [__proto__] the prototype object
    itself), or [undefined]. *)
Inductive Read (V : Type) :=
| Own (v : V)
| Inherited (name : string)
| Undefined.
Arguments Own {V} _.
Arguments Inherited {V} _.
Arguments Undefined {V}.

(** [obj[k]], for an object [{}] with the own properties [own]. *)
Definition objGet {V} (own : gmap string V) (k : string) : Read V :=
  match own !! k with
  | Some v => Own v
  | None => if inherits k then Inherited k else Undefined
  end.

(** [obj[k] = v] for a number or a string [v]: the setter behind
    [__proto__] ignores such a value, so nothing is stored under that name;
    under every other name the object gets, or updates, a property of its
    own. *)
Definition objSet {V} (own : gmap string V) (k : string) (v : V)
    : gmap string V :=
  if String.eqb k "__proto__" then own else <[k := v]> own.

(** [delete obj[k]]: only a property of the object's own goes away. *)
Definition objDelete {V} (own : gmap string V) (k : string) : gmap string V :=
  delete k own.

End JsObj.

(* ===================================================================== *)
(** ** The pricing functions (browser script) *)
(* ===================================================================== *)

Module Pricing.
Import JsNum JsStr Sheets JsObj.

(** The page state the pricing functions read and write.  The two maps
    are object literals; the fields hold their own properties. *)
Record State := {
  exchangeRate : option number;
  identitySelections : gmap string string;
  identityOverrides : gmap string number;
  roundingValue : number
}.

Definition initialState : State :=
  {| exchangeRate := None;
     identitySelections := ∅;
     identityOverrides := ∅;
     roundingValue := ofZ 0 |}.

(** [nearest] is [None] when the argument is absent. *)
Definition roundToNearest (value : number) (nearest : option number) : number :=
  match nearest with
  | None => value
  | Some n =>
      if negb (truthy n) || eqb n (ofZ 0) then value
      else mul (Math_round (div value n)) n
  end.

Definition gbpToEur (st : State) (gbpAmount : option number) : option number :=
  match gbpAmount, exchangeRate st with
  | Some a, Some r => if truthy r then Some (div a r) else None
  | _, _ => None
  end.

Fixpoint allDigits (s : string) : bool :=
  match s with
  | EmptyString => true
  | String c s1 => match digit_of c with Some _ => allDigits s1 | None => false end
  end.

(** [selection.match(/^\+(\d+)$/)]: the captured digits. *)
Definition markupMatch (selection : string) : option string :=
  match selection with
  | String "+" ds => if negb (isEmpty ds) && allDigits ds then Some ds else None
  | _ => None
  end.

(** The closing step of [calculateIdentityPrice]:
    [if (price !== null && roundingValue > 0) price = roundToNearest(...)]. *)
Definition applyRounding (st : State) (price : option number) : option number :=
  match price with
  | Some p =>
      if ltb (ofZ 0) (roundingValue st)
      then Some (roundToNearest p (Some (roundingValue st)))
      else Some p
  | None => None
  end.

Definition calculateIdentityPrice (st : State) (product : Product)
    (selection : string) : option number :=
  if isEmpty selection then None
  else
    match s2_cost (set2 product) with
    | None => None
    | Some digitalIdGbp =>
        if String.eqb selection "digitalId"
        then applyRounding st (gbpToEur st (Some digitalIdGbp))
        else
          match markupMatch selection with
          | Some ds =>
              let markupPercent := parseInt ds in
              match gbpToEur st (Some digitalIdGbp) with
              | None => None
              | Some eurPrice =>
                  applyRounding st
                    (Some (mul eurPrice
                             (add (ofZ 1) (div markupPercent (ofZ 100)))))
              end
          | None => applyRounding st None
          end
    end.

(** What [getIdentityPrice] returns: a price or [null]; or, for a key that
    names a member of [Object.prototype] and has no override of its own,
    that member; [Throws] is the TypeError of [selection.match] on a value
    that is no string. *)
Inductive Reported :=
| Price (p : option number)
| Member (name : string)
| Throws (msg : string).

Definition getIdentityPrice (st : State) (sku : string) (product : Product)
    : Reported :=
  match objGet (identityOverrides st) sku with
  | Own v => Price (Some v)
  | Inherited name => Member name
  | Undefined =>
      match objGet (identitySelections st) sku with
      | Own selection => Price (calculateIdentityPrice st product selection)
      | Undefined => Price (calculateIdentityPrice st product "")
      | Inherited name =>
          match s2_cost (set2 product) with
          | None => Price None
          | Some _ => Throws "selection.match is not a function"
          end
      end
  end.

Definition updateIdentityFromInput (st : State) (sku value : string) : State :=
  let numValue := parseFloat value in
  if negb (isNaN numValue) && leb (ofZ 0) numValue then
    {| exchangeRate := exchangeRate st;
       identitySelections := identitySelections st;
       identityOverrides := objSet (identityOverrides st) sku numValue;
       roundingValue := roundingValue st |}
  else if isEmpty value then
    {| exchangeRate := exchangeRate st;
       identitySelections := identitySelections st;
       identityOverrides := objDelete (identityOverrides st) sku;
       roundingValue := roundingValue st |}
  else st.

(** The state part of [updateIdentityFromDropdown]. *)
Definition updateIdentityFromDropdown (st : State) (sku selection : string)
    : State :=
  {| exchangeRate := exchangeRate st;
     identitySelections := objSet (identitySelections st) sku selection;
     identityOverrides := objDelete (identityOverrides st) sku;
     roundingValue := roundingValue st |}.

End Pricing.

(* ===================================================================== *)
(** ** The batch update handler (edge worker) *)
(* ===================================================================== *)

Module Zoho.
Import JsNum JsStr.

Record ZohoItem := { item_id : string; name : string }.

(** One entry of the request's [items] array. *)
Record Item := {
  it_sku : string;
  costPrice : option number;
  sellingPrice : option number
}.

(** A request sent to the remote system; the access token is [None] when
    the token reply carried none. *)
Inductive Call :=
| TokenCall
| SearchCall (accessToken : option string) (sku : string)
| UpdateCall (accessToken : option string) (itemId : string)
    (costPrice sellingPrice : option number).

(** The fields the code reads from a JSON reply. *)
Record Data := {
  error : option string;
  access_token : option string;
  code : option Z;
  message : option string;
  items : option (list ZohoItem);
  item : option ZohoItem
}.

(** A reply: the awaited [fetch] or [response.json()] rejects with a
    message, or yields a JSON object. *)
Inductive Reply :=
| Rejected (msg : string)
| Json (data : Data).

Record BatchResult := {
  br_sku : string;
  success : bool;
  br_error : option string
}.

Inductive Response :=
| Ok200 (results : list BatchResult)
| BadRequest400 (err : string)
| ServerError500 (err : string).

(** The parsed request: [request.json()] rejects, or gives a body whose
    [items] is an array ([Some]) or anything else ([None]). *)
Inductive Body :=
| BodyRejected (msg : string)
| BodyJson (items : option (list Item)).

(** Computations that may throw a message and that record every remote
    call they make. *)
Definition M (A : Type) : Type := list Call -> (string + A) * list Call.

Definition ret {A} (x : A) : M A := fun h => (inr x, h).
Definition throw {A} (msg : string) : M A := fun h => (inl msg, h).
Definition bind {A B} (m : M A) (k : A -> M B) : M B :=
  fun h => match m h with
           | (inr x, h') => k x h'
           | (inl msg, h') => (inl msg, h')
           end.
Definition tryCatch {A} (m : M A) (handler : string -> M A) : M A :=
  fun h => match m h with
           | (inr x, h') => (inr x, h')
           | (inl msg, h') => handler msg h'
           end.

Notation "'await' x := m 'in' k" := (bind m (fun x => k))
  (at level 10, x name, m at level 100, k at level 200,
   format "'[v' 'await'  x  :=  m  'in' '/' k ']'").

(** [a || b] on strings that may be missing. *)
Definition strOr (a : option string) (b : string) : string :=
  match a with
  | Some s => if isEmpty s then b else s
  | None => b
  end.

Definition truthyStr (a : option string) : bool :=
  match a with
  | Some s => negb (isEmpty s)
  | None => false
  end.

Section Remote.
(** The remote system: its reply to a call, given the calls made so
    far. *)
Variable respond : list Call -> Call -> Reply.

Definition fetchJson (c : Call) : M Data :=
  fun h => match respond h c with
           | Rejected msg => (inl msg, (h ++ [c]))
           | Json d => (inr d, (h ++ [c]))
           end.

Definition getZohoAccessToken : M (option string) :=
  await data := fetchJson TokenCall in
  if truthyStr (error data) then throw (default "" (error data))
  else ret (access_token data).

Definition zohoSearchItemBySku (accessToken : option string) (sku : string)
    : M (option ZohoItem) :=
  await data := fetchJson (SearchCall accessToken sku) in
  if negb (bool_decide (code data = Some 0))
  then throw (strOr (message data) "Failed to search item")
  else ret (match items data with
            | Some (z :: _) => Some z
            | _ => None
            end).

Definition zohoUpdateItemPrices (accessToken : option string)
    (itemId : string) (costPrice sellingPrice : option number)
    : M (option ZohoItem) :=
  await data := fetchJson (UpdateCall accessToken itemId costPrice sellingPrice) in
  if negb (bool_decide (code data = Some 0))
  then throw (strOr (message data) "Failed to update item")
  else ret (item data).

Definition push (results : list BatchResult) (r : BatchResult)
    : list BatchResult := (results ++ [r]).

(** The [for (const item of items)] loop with its [results] array. *)
Fixpoint forOf (accessToken : option string) (items : list Item)
    (results : list BatchResult) : M (list BatchResult) :=
  match items with
  | [] => ret results
  | item :: rest =>
      await results' :=
        tryCatch
          (await zohoItem := zohoSearchItemBySku accessToken (it_sku item) in
           match zohoItem with
           | None =>
               ret (push results
                      {| br_sku := it_sku item; success := false;
                         br_error := Some "Item not found" |})
           | Some z =>
               await updated := zohoUpdateItemPrices accessToken (item_id z)
                      (costPrice item) (sellingPrice item) in
               ret (push results
                      {| br_sku := it_sku item; success := true;
                         br_error := None |})
           end)
          (fun msg =>
             ret (push results
                    {| br_sku := it_sku item; success := false;
                       br_error := Some msg |})) in
      forOf accessToken rest results'
  end.

(** The handler of [POST /api/zoho/batch-update]. *)
Definition batchUpdate (body : Body) : M Response :=
  tryCatch
    (match body with
     | BodyRejected msg => throw msg
     | BodyJson None => ret (BadRequest400 "Items array is required")
     | BodyJson (Some []) => ret (BadRequest400 "Items array is required")
     | BodyJson (Some items) =>
         await accessToken := getZohoAccessToken in
         await results := forOf accessToken items [] in
         ret (Ok200 results)
     end)
    (fun msg => ret (ServerError500 msg)).

End Remote.

End Zoho.

(* ===================================================================== *)
(** ** Notions used to state the properties *)
(* ===================================================================== *)

Module Notions.
Import JsNum JsStr Sheets Pricing Zoho.

(** Numbers written as the script writes them. *)
Definition lit (s : string) : number := parseFloat s.

(** A merged record with the given costs. *)
Definition productOf (k : string) (c1 c2 : option number) : Product :=
  {| sku := k; productId := "";
     set1 := {| s1_name := ""; s1_cost := c1; s1_stock := None |};
     set2 := {| s2_cost := c2 |} |}.

(** A page state with the given rate and rounding and no selection or
    override. *)
Definition stateOf (rate : option number) (rounding : number) : State :=
  {| exchangeRate := rate; identitySelections := ∅;
     identityOverrides := ∅; roundingValue := rounding |}.

(** A rate that is missing or exactly zero. *)
Definition noRate (st : State) : Prop :=
  exchangeRate st = None
  \/ exists r, exchangeRate st = Some r /\ isZero r = true.

(** *** Rows and their keep policy *)

(** The key cell of a row, as either parser reads it. *)
Definition rowKey (headers row : list string) : string :=
  cellOrEmpty row (findIndex (headerIs "sku") headers).

(** The cost a trade-id row parses to, before it is stored. *)
Definition tradeCost (headers row : list string) : number :=
  parseFloat (toStringArg (cell row (findIndex (headerIs "price") headers))).

(** The cost a Digital Id row parses to, before it is stored. *)
Definition digitalCost (headers row : list string) : number :=
  parseFloat
    (trim (stripCurrency
             (cellOrEmpty row (findIndex (headerIs "price") headers)))).

(** The written policy: [keep(row) = key != "" AND cost != -1]. *)
Definition keep (key : string) (cost : number) : bool :=
  negb (String.eqb key "") && negb (eqb cost (ofZ (-1))).

(** *** First occurrences *)

(** The first secondary record that carries the key [k]. *)
Definition firstDigital (k : string) (l : list DigitalItem)
    : option DigitalItem :=
  List.find (fun d => String.eqb (di_sku d) k) l.

(** [t] stands at index [i] of [l] and no earlier record has its key. *)
Definition firstAt (l : list TradeItem) (i : nat) (t : TradeItem) : Prop :=
  l !! i = Some t
  /\ forall j t', (j < i)%nat -> l !! j = Some t' -> ti_sku t' <> ti_sku t.

(** Secondary records as the parser yields them: a cost is null or a
    number other than zero (and not NaN). *)
Definition sourceCosts (l : list DigitalItem) : Prop :=
  forall d x, In d l -> di_price d = Some x -> truthy x = true.

(** The merged record of a primary record and a secondary record. *)
Definition mergedOf (t : TradeItem) (d : DigitalItem) : Product :=
  {| sku := ti_sku t;
     productId := ti_productId t;
     set1 := {| s1_name := ti_name t; s1_cost := ti_price t;
                s1_stock := ti_stock t |};
     set2 := {| s2_cost := di_price d |} |}.

(** Sample records. *)
Definition tradeOf (k : string) (c : option number) : TradeItem :=
  {| ti_productId := ""; ti_name := ""; ti_price := c; ti_sku := k;
     ti_stock := None |}.

Definition digitalOf (k : string) (c : option number) : DigitalItem :=
  {| di_sku := k; di_price := c; di_name := None; di_description := None |}.

(** *** Batches *)

Definition succeeded (k : string) : BatchResult :=
  {| br_sku := k; success := true; br_error := None |}.

Definition failed (k msg : string) : BatchResult :=
  {| br_sku := k; success := false; br_error := Some msg |}.

(** One item applied against the remote system when the calls [h] have
    been made: the lookup, then the update of the item found; a failure of
    either is the item's own result.  Returns the result and the calls made
    by then. *)
Definition applyOne (respond : list Call -> Call -> Reply)
    (accessToken : option string) (item : Item) (h : list Call)
    : BatchResult * list Call :=
  match zohoSearchItemBySku respond accessToken (it_sku item) h with
  | (inl msg, h1) => (failed (it_sku item) msg, h1)
  | (inr None, h1) => (failed (it_sku item) "Item not found", h1)
  | (inr (Some z), h1) =>
      match zohoUpdateItemPrices respond accessToken (item_id z)
              (costPrice item) (sellingPrice item) h1 with
      | (inl msg, h2) => (failed (it_sku item) msg, h2)
      | (inr _, h2) => (succeeded (it_sku item), h2)
      end
  end.

(** The items applied one at a time in input order, each starting from
    the calls its predecessor left, whatever its predecessor's result. *)
Fixpoint propagate (respond : list Call -> Call -> Reply)
    (accessToken : option string) (items : list Item) (h : list Call)
    : list BatchResult * list Call :=
  match items with
  | [] => ([], h)
  | item :: rest =>
      let '(r, h1) := applyOne respond accessToken item h in
      let '(rs, h2) := propagate respond accessToken rest h1 in
      (r :: rs, h2)
  end.

(** The keys looked up by the calls [h], in the order of the calls. *)
Definition lookups (h : list Call) : list string :=
  omap (fun c => match c with SearchCall _ k => Some k | _ => None end) h.

(** The updates made by the calls [h]: item id, cost and selling price. *)
Definition updates (h : list Call)
    : list (string * option number * option number) :=
  omap (fun c => match c with
                 | UpdateCall _ i c s => Some (i, c, s)
                 | _ => None
                 end) h.

(** A remote system that grants the token "tok", knows every key but "B",
    whose lookup it answers with an error, and accepts every update. *)
Definition respondButB (h : list Call) (c : Call) : Reply :=
  match c with
  | TokenCall =>
      Json {| error := None; access_token := Some "tok"; code := None;
              message := None; items := None; item := None |}
  | SearchCall _ k =>
      if String.eqb k "B"
      then Json {| error := None; access_token := None; code := Some 57;
                   message := Some "You are not authorized";
                   items := None; item := None |}
      else Json {| error := None; access_token := None; code := Some 0;
                   message := Some "success";
                   items := Some [ {| item_id := "id-" +:+ k; name := k |} ];
                   item := None |}
  | UpdateCall _ i _ _ =>
      Json {| error := None; access_token := None; code := Some 0;
              message := Some "updated"; items := None;
              item := Some {| item_id := i; name := i |} |}
  end.

(** A remote system that refuses the token. *)
Definition respondNoToken (h : list Call) (c : Call) : Reply :=
  match c with
  | TokenCall =>
      Json {| error := Some "invalid_client"; access_token := None;
              code := None; message := None; items := None; item := None |}
  | _ => respondButB h c
  end.

(** A remote system whose token reply carries neither an error nor a
    token. *)
Definition respondEmptyToken (h : list Call) (c : Call) : Reply :=
  match c with
  | TokenCall =>
      Json {| error := None; access_token := None; code := None;
              message := None; items := None; item := None |}
  | _ => respondButB h c
  end.

Definition batchABC : list Item :=
  [ {| it_sku := "A"; costPrice := Some (ofZ 10); sellingPrice := Some (ofZ 12) |};
    {| it_sku := "B"; costPrice := Some (ofZ 20); sellingPrice := Some (ofZ 25) |};
    {| it_sku := "C"; costPrice := Some (ofZ 30); sellingPrice := Some (ofZ 36) |} ].

(** Sample grids: a priced row, a row whose cost is not a number, an
    intentionally unpriced row, a row without key, a row costing zero. *)
Definition tradeHeaders : list string :=
  ["Product ID"; "Product Name"; "Price"; "SKU"; "Stock"].

Definition tradeGrid : list (list string) :=
  [ tradeHeaders;
    ["101"; "Card"; "10"; "A"; "5"];
    ["102"; "Badge"; "n/a"; "B"; "7"];
    ["103"; "Strap"; "-1"; "C"; "9"];
    ["104"; "Clip"; "3.5"; ""; "2"];
    ["105"; "Reel"; "0"; "E"; "1"] ].

Definition digitalHeaders : list string :=
  ["_timestamp"; "image"; "name"; "price"; "sku"; "description"; "url"].

Definition digitalGrid : list (list string) :=
  [ digitalHeaders;
    ["t"; "i"; "Card"; "£12.00"; "A"; "d"; "u"];
    ["t"; "i"; "Badge"; "call us"; "B"; "d"; "u"];
    ["t"; "i"; "Strap"; "-1"; "C"; "d"; "u"];
    ["t"; "i"; "Reel"; "€0.00"; "E"; "d"; "u"] ].

End Notions.

(* ===================================================================== *)
(** ** Properties of the pricing functions *)
(* ===================================================================== *)

Module PricingFacts.
Import JsNum JsStr Sheets JsObj Pricing Notions.

Lemma positive_is_truthy (x : number) :
  ltb (ofZ 0) x = true -> truthy x = true /\ eqb x (ofZ 0) = false.
Proof.
  destruct x as [s | s | | s m e]; cbn; try discriminate.
  - destruct s; cbn; try discriminate. auto.
  - destruct s; cbn; try discriminate. auto.
Qed.

Lemma zero_is_falsy (x : number) : isZero x = true -> truthy x = false.
Proof. destruct x; cbn; congruence. Qed.

Lemma roundToNearest_positive (value inc : number) :
  ltb (ofZ 0) inc = true ->
  roundToNearest value (Some inc) = mul (Math_round (div value inc)) inc.
Proof.
  intros Hpos. destruct (positive_is_truthy inc Hpos) as [Ht He].
  unfold roundToNearest. rewrite Ht, He. reflexivity.
Qed.

Lemma roundToNearest_zero (value inc : number) :
  isZero inc = true -> roundToNearest value (Some inc) = value.
Proof.
  intros Hz. unfold roundToNearest. rewrite (zero_is_falsy inc Hz). reflexivity.
Qed.

Lemma Math_round_nonneg (x : number) :
  ltb x (ofZ 0) = false -> Math_round x = round_half_away x.
Proof.
  destruct x as [s | s | | s m e]; try reflexivity.
  destruct s; cbn; [discriminate | reflexivity].
Qed.

(** C3, as the code has it: for an increment above zero the result is
    [Math.round(value / increment) * increment], where [Math.round] sends a
    tie to the integer closer to +Infinity (the same as rounding half away
    from zero on every quotient that is not negative); an increment that is
    zero or absent leaves the value unchanged; with increment 0.50, 10.23
    becomes 10 and 10.26 becomes 10.5. *)
Theorem roundToNearest_spec (value inc : number) :
  (ltb (ofZ 0) inc = true ->
     roundToNearest value (Some inc) = mul (Math_round (div value inc)) inc)
  /\ (ltb (ofZ 0) inc = true -> ltb (div value inc) (ofZ 0) = false ->
        roundToNearest value (Some inc)
        = mul (round_half_away (div value inc)) inc)
  /\ (isZero inc = true -> roundToNearest value (Some inc) = value)
  /\ roundToNearest value None = value
  /\ roundToNearest (lit "10.23") (Some (lit "0.50")) = lit "10.00"
  /\ roundToNearest (lit "10.26") (Some (lit "0.50")) = lit "10.50".
Proof.
  split; [apply roundToNearest_positive |].
  split.
  { intros Hpos Hq. rewrite roundToNearest_positive by exact Hpos.
    now rewrite Math_round_nonneg. }
  split; [apply roundToNearest_zero |].
  repeat split; vm_compute; reflexivity.
Qed.

Lemma roundToNearest_spec_witness :
  ltb (ofZ 0) (lit "0.05") = true
  /\ ltb (div (lit "7.32") (lit "0.05")) (ofZ 0) = false
  /\ roundToNearest (lit "7.32") (Some (lit "0.05"))
     = mul (round_half_away (div (lit "7.32") (lit "0.05"))) (lit "0.05").
Proof.
  split; [vm_compute; reflexivity |].
  split; [vm_compute; reflexivity |].
  apply (proj1 (proj2 (roundToNearest_spec (lit "7.32") (lit "0.05"))));
    vm_compute; reflexivity.
Defined.

(** C3 as written fails on a negative tie: the script rounds -2.5 to the
    nearest unit as -2, rounding half away from zero gives -3. *)
Lemma roundToNearest_not_half_away :
  ltb (ofZ 0) (ofZ 1) = true
  /\ roundToNearest (lit "-2.5") (Some (ofZ 1)) = ofZ (-2)
  /\ mul (round_half_away (div (lit "-2.5") (ofZ 1))) (ofZ 1) = ofZ (-3)
  /\ roundToNearest (lit "-2.5") (Some (ofZ 1))
     <> mul (round_half_away (div (lit "-2.5") (ofZ 1))) (ofZ 1).
Proof. repeat split; vm_compute; congruence. Qed.


Lemma markupMatch_digits (ds : string) :
  isEmpty ds = false -> allDigits ds = true ->
  markupMatch (String "+" ds) = Some ds.
Proof. intros He Hd. cbn. rewrite He, Hd. reflexivity. Qed.

Lemma plus_is_not_digitalId (ds : string) :
  String.eqb (String "+" ds) "digitalId" = false.
Proof. reflexivity. Qed.

Lemma gbpToEur_truthy (st : State) (cost rate : number) :
  exchangeRate st = Some rate -> truthy rate = true ->
  gbpToEur st (Some cost) = Some (div cost rate).
Proof. intros Hr Ht. unfold gbpToEur. rewrite Hr, Ht. reflexivity. Qed.

Lemma applyRounding_none_when_off (st : State) (p : number) :
  ltb (ofZ 0) (roundingValue st) = false -> applyRounding st (Some p) = Some p.
Proof. intros H. unfold applyRounding. rewrite H. reflexivity. Qed.

(** C2: with a secondary cost and a rate that is a number other than zero,
    the price under the rule "digitalId" is [cost / rate] and under the
    rule "+n" is [(cost / rate) * (1 + n / 100)], each then handed to the
    rounding step, which returns it untouched when rounding is off; cost 12
    at rate 1.2 without rounding gives 10 under "digitalId" and 12 under
    "+20". *)
Theorem calculateIdentityPrice_rules
    (st : State) (product : Product) (cost rate : number) :
  s2_cost (set2 product) = Some cost ->
  exchangeRate st = Some rate ->
  truthy rate = true ->
  calculateIdentityPrice st product "digitalId"
    = applyRounding st (Some (div cost rate))
  /\ (forall ds, isEmpty ds = false -> allDigits ds = true ->
        calculateIdentityPrice st product (String "+" ds)
        = applyRounding st
            (Some (mul (div cost rate)
                     (add (ofZ 1) (div (parseInt ds) (ofZ 100))))))
  /\ (ltb (ofZ 0) (roundingValue st) = false ->
        calculateIdentityPrice st product "digitalId" = Some (div cost rate)
        /\ forall ds, isEmpty ds = false -> allDigits ds = true ->
             calculateIdentityPrice st product (String "+" ds)
             = Some (mul (div cost rate)
                       (add (ofZ 1) (div (parseInt ds) (ofZ 100)))))
  /\ calculateIdentityPrice (stateOf (Some (lit "1.2")) (ofZ 0))
       (productOf "A" (Some (ofZ 10)) (Some (ofZ 12))) "digitalId"
     = Some (lit "10.00")
  /\ calculateIdentityPrice (stateOf (Some (lit "1.2")) (ofZ 0))
       (productOf "A" (Some (ofZ 10)) (Some (ofZ 12))) "+20"
     = Some (lit "12.00")
  /\ parseInt "20" = ofZ 20.
Proof.
  intros Hcost Hrate Htruthy.
  assert (Hd : calculateIdentityPrice st product "digitalId"
               = applyRounding st (Some (div cost rate))).
  { unfold calculateIdentityPrice. cbn [isEmpty]. rewrite Hcost.
    cbn [String.eqb Ascii.eqb Bool.eqb].
    now rewrite (gbpToEur_truthy st cost rate Hrate Htruthy). }
  assert (Hm : forall ds, isEmpty ds = false -> allDigits ds = true ->
             calculateIdentityPrice st product (String "+" ds)
             = applyRounding st
                 (Some (mul (div cost rate)
                          (add (ofZ 1) (div (parseInt ds) (ofZ 100)))))).
  { intros ds He Hds. unfold calculateIdentityPrice. cbn [isEmpty].
    rewrite Hcost, plus_is_not_digitalId, (markupMatch_digits ds He Hds).
    now rewrite (gbpToEur_truthy st cost rate Hrate Htruthy). }
  split; [exact Hd |]. split; [exact Hm |].
  split.
  { intros Hoff. split.
    - rewrite Hd. now apply applyRounding_none_when_off.
    - intros ds He Hds. rewrite (Hm ds He Hds).
      now apply applyRounding_none_when_off. }
  repeat split; vm_compute; reflexivity.
Qed.

Lemma calculateIdentityPrice_rules_witness :
  calculateIdentityPrice (stateOf (Some (lit "0.85")) (lit "0.05"))
    (productOf "SKU-1" (Some (lit "4.10")) (Some (lit "6.99"))) "+30"
  = applyRounding (stateOf (Some (lit "0.85")) (lit "0.05"))
      (Some (mul (div (lit "6.99") (lit "0.85"))
               (add (ofZ 1) (div (parseInt "30") (ofZ 100))))).
Proof.
  refine (proj1 (proj2 (calculateIdentityPrice_rules
            (stateOf (Some (lit "0.85")) (lit "0.05"))
            (productOf "SKU-1" (Some (lit "4.10")) (Some (lit "6.99")))
            (lit "6.99") (lit "0.85") _ _ _)) "30" _ _);
    vm_compute; reflexivity.
Defined.

Lemma gbpToEur_noRate (st : State) (amount : option number) :
  noRate st -> gbpToEur st amount = None.
Proof.
  intros [Hn | (r & Hr & Hz)]; unfold gbpToEur.
  - rewrite Hn. now destruct amount.
  - rewrite Hr, (zero_is_falsy r Hz). now destruct amount.
Qed.

(** C5: when the rate is missing or exactly zero, the conversion returns
    null for every amount and the derived price is null for every record
    and every rule; no division is made, so the result is not Infinity, and
    neither function has a path that throws. *)
Theorem calculateIdentityPrice_noRate
    (st : State) (product : Product) (selection : string) :
  noRate st ->
  calculateIdentityPrice st product selection = None
  /\ (forall amount, gbpToEur st amount = None)
  /\ (forall amount, gbpToEur st amount <> Some Infinity)
  /\ calculateIdentityPrice st product selection <> Some Infinity.
Proof.
  intros Hno.
  assert (Hg : forall amount, gbpToEur st amount = None)
    by (intros; now apply gbpToEur_noRate).
  assert (Hc : calculateIdentityPrice st product selection = None).
  { unfold calculateIdentityPrice.
    destruct (isEmpty selection); [reflexivity |].
    destruct (s2_cost (set2 product)) as [c |]; [| reflexivity].
    rewrite (Hg (Some c)). cbn [applyRounding].
    destruct (String.eqb selection "digitalId"); [reflexivity |].
    destruct (markupMatch selection); reflexivity. }
  split; [exact Hc |]. split; [exact Hg |]. split.
  - intros amount. now rewrite (Hg amount).
  - now rewrite Hc.
Qed.

Lemma calculateIdentityPrice_noRate_witness :
  calculateIdentityPrice (stateOf (Some (ofZ 0)) (lit "0.50"))
    (productOf "A" (Some (ofZ 10)) (Some (ofZ 12))) "+20" = None
  /\ calculateIdentityPrice (stateOf None (lit "0.50"))
       (productOf "A" (Some (ofZ 10)) (Some (ofZ 12))) "digitalId" = None.
Proof.
  split.
  - apply (calculateIdentityPrice_noRate
             (stateOf (Some (ofZ 0)) (lit "0.50"))
             (productOf "A" (Some (ofZ 10)) (Some (ofZ 12))) "+20").
    right. exists (ofZ 0). split; reflexivity.
  - apply (calculateIdentityPrice_noRate
             (stateOf None (lit "0.50"))
             (productOf "A" (Some (ofZ 10)) (Some (ofZ 12))) "digitalId").
    left. reflexivity.
Defined.

(** **** Reading and writing an object literal *)

Lemma objGet_own {V} (own : gmap string V) (k : string) (v : V) :
  own !! k = Some v -> objGet own k = Own v.
Proof. intros H. unfold objGet. now rewrite H. Qed.

Lemma objGet_unset {V} (own : gmap string V) (k : string) :
  own !! k = None ->
  objGet own k = if inherits k then Inherited k else Undefined.
Proof. intros H. unfold objGet. now rewrite H. Qed.

Lemma objSet_lookup {V} (own : gmap string V) (k : string) (v : V) :
  k <> "__proto__" -> objSet own k v !! k = Some v.
Proof.
  intros Hk. unfold objSet. apply String.eqb_neq in Hk. rewrite Hk.
  apply lookup_insert_eq.
Qed.

Lemma objSet_lookup_ne {V} (own : gmap string V) (k k' : string) (v : V) :
  k' <> k -> objSet own k v !! k' = own !! k'.
Proof.
  intros Hk. unfold objSet. destruct (String.eqb k "__proto__"); [reflexivity |].
  apply lookup_insert_ne. congruence.
Qed.

Lemma objSet_proto {V} (own : gmap string V) (v : V) :
  objSet own "__proto__" v = own.
Proof. reflexivity. Qed.

Lemma objSet_keeps_proto {V} (own : gmap string V) (k : string) (v : V) :
  own !! "__proto__" = None -> objSet own k v !! "__proto__" = None.
Proof.
  intros H. unfold objSet. destruct (String.eqb k "__proto__") eqn:E; [exact H |].
  apply String.eqb_neq in E. rewrite lookup_insert_ne by exact E. exact H.
Qed.

Lemma getIdentityPrice_override
    (st : State) (k : string) (product : Product) (v : number) :
  identityOverrides st !! k = Some v ->
  getIdentityPrice st k product = Price (Some v).
Proof. intros H. unfold getIdentityPrice. now rewrite (objGet_own _ _ _ H). Qed.

(** A key that names a member of [Object.prototype] and has no override of
    its own reports that member. *)
Lemma getIdentityPrice_inherited
    (st : State) (k : string) (product : Product) :
  identityOverrides st !! k = None -> inherits k = true ->
  getIdentityPrice st k product = Member k.
Proof.
  intros H Hi. unfold getIdentityPrice. now rewrite (objGet_unset _ _ H), Hi.
Qed.

(** Any other key without override reports the price computed under its
    selection. *)
Lemma getIdentityPrice_computed
    (st : State) (k : string) (product : Product) :
  identityOverrides st !! k = None -> inherits k = false ->
  getIdentityPrice st k product
  = Price (calculateIdentityPrice st product
             (default "" (identitySelections st !! k))).
Proof.
  intros H Hi. unfold getIdentityPrice. rewrite (objGet_unset _ _ H), Hi.
  unfold objGet. rewrite Hi. now destruct (identitySelections st !! k).
Qed.

(** [getIdentityPrice] never throws: the selection is read only for a key
    that names no member of [Object.prototype]. *)
Lemma getIdentityPrice_no_throw
    (st : State) (k : string) (product : Product) (msg : string) :
  getIdentityPrice st k product <> Throws msg.
Proof.
  unfold getIdentityPrice, objGet.
  destruct (identityOverrides st !! k); [discriminate |].
  destruct (inherits k); [discriminate |].
  now destruct (identitySelections st !! k).
Qed.

Lemma updateIdentityFromInput_sets (st : State) (k value : string) :
  k <> "__proto__" ->
  isNaN (parseFloat value) = false -> leb (ofZ 0) (parseFloat value) = true ->
  identityOverrides (updateIdentityFromInput st k value) !! k
  = Some (parseFloat value).
Proof.
  intros Hk Hn Hl. unfold updateIdentityFromInput. rewrite Hn, Hl. cbn.
  now apply objSet_lookup.
Qed.

(** Under the key [__proto__] no override can be stored. *)
Lemma updateIdentityFromInput_proto (st : State) (value : string) :
  identityOverrides st !! "__proto__" = None ->
  identityOverrides (updateIdentityFromInput st "__proto__" value) !! "__proto__"
  = None.
Proof.
  intros H. unfold updateIdentityFromInput.
  destruct (_ && _); [exact H |].
  destruct (isEmpty value); [apply lookup_delete_eq | exact H].
Qed.

(** C9: an override held for a key is the price reported for that key,
    whatever the computed price would be, and this includes the override 0;
    typing a number that is not negative (also "0") into the price field of
    a key other than [__proto__] sets such an override; a key without
    override that names no member of [Object.prototype] reports the
    computed price, and an emptied input leaves the key without override.
    The two departures: under the key [__proto__] typing a number stores
    nothing and the report is the prototype object, not the number typed;
    and a key that names a member of [Object.prototype] (as "constructor")
    and has no override reports that member, not the computed price. *)
Theorem getIdentityPrice_override_precedence
    (st : State) (k : string) (product : Product) :
  (forall v, identityOverrides st !! k = Some v ->
     getIdentityPrice st k product = Price (Some v))
  /\ (identityOverrides st !! k = Some (ofZ 0) ->
       getIdentityPrice st k product = Price (Some (ofZ 0)))
  /\ (forall value,
        k <> "__proto__" ->
        isNaN (parseFloat value) = false ->
        leb (ofZ 0) (parseFloat value) = true ->
        getIdentityPrice (updateIdentityFromInput st k value) k product
        = Price (Some (parseFloat value)))
  /\ (k <> "__proto__" ->
       getIdentityPrice (updateIdentityFromInput st k "0") k product
       = Price (Some (ofZ 0)))
  /\ (identityOverrides st !! k = None -> inherits k = false ->
       getIdentityPrice st k product
       = Price (calculateIdentityPrice st product
                  (default "" (identitySelections st !! k))))
  /\ identityOverrides (updateIdentityFromInput st k "") !! k = None
  /\ (forall value,
        identityOverrides st !! "__proto__" = None ->
        identityOverrides (updateIdentityFromInput st "__proto__" value)
          !! "__proto__" = None
        /\ getIdentityPrice (updateIdentityFromInput st "__proto__" value)
             "__proto__" product = Member "__proto__")
  /\ (identityOverrides st !! k = None -> inherits k = true ->
       getIdentityPrice st k product = Member k).
Proof.
  split; [intros v; apply getIdentityPrice_override |].
  split; [apply getIdentityPrice_override |].
  assert (Hset : forall value,
             k <> "__proto__" ->
             isNaN (parseFloat value) = false ->
             leb (ofZ 0) (parseFloat value) = true ->
             getIdentityPrice (updateIdentityFromInput st k value) k product
             = Price (Some (parseFloat value))).
  { intros value Hk Hn Hl. apply getIdentityPrice_override.
    now apply updateIdentityFromInput_sets. }
  split; [exact Hset |].
  split; [intros Hk; apply (Hset "0" Hk); reflexivity |].
  split; [apply getIdentityPrice_computed |].
  split; [cbn; apply lookup_delete_eq |].
  split; [| apply getIdentityPrice_inherited].
  intros value Hnone.
  pose proof (updateIdentityFromInput_proto st value Hnone) as Hp.
  split; [exact Hp |]. now apply getIdentityPrice_inherited.
Qed.

Lemma getIdentityPrice_override_precedence_witness :
  getIdentityPrice
    (updateIdentityFromInput
       (updateIdentityFromDropdown (stateOf (Some (lit "1.2")) (ofZ 0)) "A" "+20")
       "A" "0")
    "A" (productOf "A" (Some (ofZ 10)) (Some (ofZ 12)))
  = Price (Some (ofZ 0))
  /\ getIdentityPrice
       (updateIdentityFromInput (stateOf (Some (lit "1.2")) (ofZ 0))
          "__proto__" "5")
       "__proto__" (productOf "__proto__" (Some (ofZ 10)) (Some (ofZ 12)))
     = Member "__proto__"
  /\ getIdentityPrice (stateOf (Some (lit "1.2")) (ofZ 0))
       "constructor" (productOf "constructor" (Some (ofZ 10)) (Some (ofZ 12)))
     = Member "constructor".
Proof.
  split; [| split].
  - apply (proj1 (proj2 (proj2 (proj2 (getIdentityPrice_override_precedence
             (updateIdentityFromDropdown
                (stateOf (Some (lit "1.2")) (ofZ 0)) "A" "+20")
             "A" (productOf "A" (Some (ofZ 10)) (Some (ofZ 12)))))))).
    discriminate.
  - apply (proj1 (proj2 (proj2 (proj2 (proj2 (proj2 (proj2
             (getIdentityPrice_override_precedence
                (stateOf (Some (lit "1.2")) (ofZ 0)) "__proto__"
                (productOf "__proto__" (Some (ofZ 10)) (Some (ofZ 12)))))))))) "5").
    reflexivity.
  - apply (proj2 (proj2 (proj2 (proj2 (proj2 (proj2 (proj2
             (getIdentityPrice_override_precedence
                (stateOf (Some (lit "1.2")) (ofZ 0)) "constructor"
                (productOf "constructor" (Some (ofZ 10)) (Some (ofZ 12)))))))))));
      reflexivity.
Defined.

End PricingFacts.

(* ===================================================================== *)
(** ** Properties of the parsers *)
(* ===================================================================== *)

Module ParserFacts.
Import JsNum JsStr Sheets Notions.

Lemma isEmpty_eqb (s : string) : isEmpty s = String.eqb s "".
Proof. now destruct s. Qed.

(** Storing a parsed cost with [|| null] and testing it against the
    sentinel is the same as testing the parsed cost itself. *)
Lemma notSentinel_orNull (x : number) :
  notSentinel (orNull x) = negb (eqb x (ofZ (-1))).
Proof.
  destruct x as [s | s | | s m e]; reflexivity.
Qed.

Lemma orNull_NaN (x : number) : isNaN x = true -> orNull x = None.
Proof. destruct x; cbn; congruence. Qed.

Lemma orNull_zero (x : number) : isZero x = true -> orNull x = None.
Proof. destruct x; cbn; congruence. Qed.

Lemma orNull_Some (x y : number) :
  orNull x = Some y -> x = y /\ truthy y = true.
Proof.
  unfold orNull. destruct (truthy x) eqn:E; [| discriminate].
  intros [= <-]. auto.
Qed.

Lemma NaN_is_not_sentinel (x : number) :
  isNaN x = true -> eqb x (ofZ (-1)) = false.
Proof. destruct x; cbn; congruence. Qed.

Lemma tradeKept_keep (headers row : list string) :
  tradeKept (tradeRecord headers row)
  = keep (rowKey headers row) (tradeCost headers row).
Proof.
  unfold tradeKept, keep, rowKey, tradeCost. cbn [ti_sku ti_price tradeRecord].
  now rewrite isEmpty_eqb, notSentinel_orNull.
Qed.

Lemma digitalKept_keep (incl : bool) (headers row : list string) :
  digitalKept (digitalRecord incl headers row)
  = keep (rowKey headers row) (digitalCost headers row).
Proof.
  unfold digitalKept, keep, rowKey, digitalCost.
  cbn [di_sku di_price digitalRecord].
  now rewrite isEmpty_eqb, notSentinel_orNull.
Qed.

Lemma parseTradeIdSheet_rows (rows : list (list string)) :
  parseTradeIdSheet rows
  = List.map (tradeRecord (hd [] rows))
      (List.filter
         (fun row => keep (rowKey (hd [] rows) row) (tradeCost (hd [] rows) row))
         (tl rows)).
Proof.
  destruct rows as [| headers [| row1 dataRows]]; try reflexivity.
  unfold parseTradeIdSheet. cbn [hd tl].
  rewrite filter_map_swap. f_equal.
  apply filter_ext. intros row. apply tradeKept_keep.
Qed.

Lemma parseDigitalIdSheet_rows (rows : list (list string)) (incl : bool) :
  parseDigitalIdSheet rows incl
  = List.map (digitalRecord incl (hd [] rows))
      (List.filter
         (fun row => keep (rowKey (hd [] rows) row) (digitalCost (hd [] rows) row))
         (tl rows)).
Proof.
  destruct rows as [| headers [| row1 dataRows]]; try reflexivity.
  unfold parseDigitalIdSheet. cbn [hd tl].
  rewrite filter_map_swap. f_equal.
  apply filter_ext. intros row. apply digitalKept_keep.
Qed.

(** C4: both parsers are total on grids of strings; the output is, in row
    order, the record of each data row (each row after the header) that
    satisfies [keep(row) = key != "" AND cost != -1], and nothing else; a
    row whose cost does not parse to a number passes the cost test and its
    record carries the cost null. *)
Theorem parse_keep_policy (rows : list (list string)) (incl : bool) :
  parseTradeIdSheet rows
  = List.map (tradeRecord (hd [] rows))
      (List.filter
         (fun row => keep (rowKey (hd [] rows) row) (tradeCost (hd [] rows) row))
         (tl rows))
  /\ parseDigitalIdSheet rows incl
     = List.map (digitalRecord incl (hd [] rows))
         (List.filter
            (fun row =>
               keep (rowKey (hd [] rows) row) (digitalCost (hd [] rows) row))
            (tl rows))
  /\ (forall headers row,
        isNaN (tradeCost headers row) = true ->
        ti_price (tradeRecord headers row) = None
        /\ keep (rowKey headers row) (tradeCost headers row)
           = negb (String.eqb (rowKey headers row) ""))
  /\ (forall headers row,
        isNaN (digitalCost headers row) = true ->
        di_price (digitalRecord incl headers row) = None
        /\ keep (rowKey headers row) (digitalCost headers row)
           = negb (String.eqb (rowKey headers row) "")).
Proof.
  split; [apply parseTradeIdSheet_rows |].
  split; [apply parseDigitalIdSheet_rows |].
  split; intros headers row Hnan; (split;
    [ cbn; now apply orNull_NaN
    | unfold keep; rewrite (NaN_is_not_sentinel _ Hnan);
      now rewrite andb_true_r ]).
Qed.

Lemma parse_keep_policy_witness :
  isNaN (tradeCost tradeHeaders ["102"; "Badge"; "n/a"; "B"; "7"]) = true
  /\ ti_price (tradeRecord tradeHeaders ["102"; "Badge"; "n/a"; "B"; "7"]) = None
  /\ keep (rowKey tradeHeaders ["102"; "Badge"; "n/a"; "B"; "7"])
        (tradeCost tradeHeaders ["102"; "Badge"; "n/a"; "B"; "7"]) = true
  /\ List.map ti_sku (parseTradeIdSheet tradeGrid) = ["A"; "B"; "E"]
  /\ List.map ti_price (parseTradeIdSheet tradeGrid) = [Some (ofZ 10); None; None].
Proof.
  split; [vm_compute; reflexivity |].
  destruct (proj1 (proj2 (proj2 (parse_keep_policy tradeGrid false)))
              tradeHeaders ["102"; "Badge"; "n/a"; "B"; "7"]) as [Hp Hk];
    [vm_compute; reflexivity |].
  split; [exact Hp |].
  split; [rewrite Hk; vm_compute; reflexivity |].
  split; vm_compute; reflexivity.
Defined.

End ParserFacts.

(* ===================================================================== *)
(** ** Properties of the reconciler *)
(* ===================================================================== *)

Module CombineFacts.
Import JsNum JsStr Sheets Notions ParserFacts.

Lemma setIfAbsent_fold_lookup (l : list DigitalItem)
    (m : gmap string (option number)) (k : string) :
  foldl setIfAbsent m l !! k
  = match m !! k with
    | Some v => Some v
    | None => di_price <$> firstDigital k l
    end.
Proof.
  revert m. induction l as [| a l IH]; intros m; cbn [foldl].
  - cbn. now destruct (m !! k).
  - rewrite IH. unfold setIfAbsent, firstDigital. cbn [List.find].
    destruct (String.eqb_spec (di_sku a) k) as [-> | Hne].
    + destruct (m !! k) eqn:Hk; [now rewrite Hk |].
      now rewrite lookup_insert_eq.
    + destruct (m !! di_sku a) eqn:Ha; [reflexivity |].
      now rewrite lookup_insert_ne.
Qed.

(** The map holds, for each key, the cost of its first secondary record. *)
Lemma digitalIdMapOf_lookup (l : list DigitalItem) (k : string) :
  digitalIdMapOf l !! k = di_price <$> firstDigital k l.
Proof.
  unfold digitalIdMapOf. rewrite setIfAbsent_fold_lookup.
  now rewrite lookup_empty.
Qed.

Lemma not_seen_add (k k' : string) (seen : gset string) :
  k ∉ {[k']} ∪ seen <-> k' <> k /\ k ∉ seen.
Proof.
  rewrite elem_of_union, elem_of_singleton. split.
  - intros H. split; [intros -> | intros Hk]; apply H; auto.
  - intros [Hne Hns] [-> | Hk]; auto.
Qed.

Section Pick.
Variable m : gmap string (option number).

Let out (seen : gset string) (l : list TradeItem) : list Product :=
  List.filter bothCosts (List.map (toProduct m) (dedupFrom seen l)).

Lemma combine_from (l : list TradeItem) : forall seen : gset string,
  exists idxs : list nat,
    StronglySorted lt idxs
    /\ (forall i, i ∈ idxs <->
          exists t, l !! i = Some t /\ (ti_sku t ∉ seen)
                    /\ (forall j t', (j < i)%nat -> l !! j = Some t' ->
                          ti_sku t' <> ti_sku t)
                    /\ bothCosts (toProduct m t) = true)
    /\ Forall2 (fun i p => exists t, l !! i = Some t
                           /\ bothCosts (toProduct m t) = true
                           /\ p = toProduct m t)
         idxs (out seen l)
    /\ NoDup (List.map sku (out seen l))
    /\ (forall p, In p (out seen l) -> sku p ∉ seen).
Proof.
  induction l as [| t l IH]; intros seen.
  - exists []. split; [constructor |]. split.
    { intros i. split; [intros H; inversion H |].
      intros (t & Ht & _). discriminate. }
    split; [constructor |]. split; [constructor |]. intros p [].
  - unfold out. cbn [dedupFrom].
    destruct (decide (ti_sku t ∈ seen)) as [Hin | Hnin].
    + destruct (IH seen) as (idxs & Hs & Hiff & Hf & Hnd & Hseen).
      exists (S <$> idxs).
      split. { apply StronglySorted_fmap with lt; [intros; lia | exact Hs]. }
      split.
      { intros i. rewrite list_elem_of_fmap. split.
        - intros (i' & -> & Hi').
          apply Hiff in Hi' as (ti & Hl & Hns & Hfirst & Hk).
          exists ti. split; [exact Hl |]. split; [exact Hns |].
          split; [| exact Hk].
          intros [| j] t' Hlt Hj; cbn in Hj.
          + injection Hj as <-. intros Heq. apply Hns. now rewrite <- Heq.
          + apply (Hfirst j); [lia | exact Hj].
        - intros (ti & Hl & Hns & Hfirst & Hk).
          destruct i as [| i']; cbn in Hl.
          + injection Hl as <-. contradiction.
          + exists i'. split; [reflexivity |]. apply Hiff.
            exists ti. split; [exact Hl |]. split; [exact Hns |].
            split; [| exact Hk].
            intros j t' Hlt Hj. apply (Hfirst (S j)); [lia | exact Hj]. }
      split.
      { apply Forall2_fmap_l. eapply Forall2_impl; [exact Hf |].
        cbn. intros i p (ti & Hl & Hk & ->). now exists ti. }
      split; [exact Hnd | exact Hseen].
    + destruct (IH ({[ti_sku t]} ∪ seen)) as (idxs & Hs & Hiff & Hf & Hnd & Hseen).
      assert (Hshift : forall i', i' ∈ idxs ->
                exists ti, (t :: l) !! S i' = Some ti /\ (ti_sku ti ∉ seen)
                  /\ (forall j t', (j < S i')%nat -> (t :: l) !! j = Some t' ->
                        ti_sku t' <> ti_sku ti)
                  /\ bothCosts (toProduct m ti) = true).
      { intros i' Hi'. apply Hiff in Hi' as (ti & Hl & Hns & Hfirst & Hk).
        apply not_seen_add in Hns as [Hne Hns].
        exists ti. split; [exact Hl |]. split; [exact Hns |].
        split; [| exact Hk].
        intros [| j] t' Hlt Hj; cbn in Hj.
        - now injection Hj as <-.
        - apply (Hfirst j); [lia | exact Hj]. }
      assert (Hback : forall i' ti, (t :: l) !! S i' = Some ti ->
                ti_sku ti ∉ seen ->
                (forall j t', (j < S i')%nat -> (t :: l) !! j = Some t' ->
                   ti_sku t' <> ti_sku ti) ->
                bothCosts (toProduct m ti) = true -> i' ∈ idxs).
      { intros i' ti Hl Hns Hfirst Hk. apply Hiff. exists ti.
        split; [exact Hl |]. split.
        - apply not_seen_add. split; [| exact Hns].
          apply (Hfirst 0%nat); [lia | reflexivity].
        - split; [| exact Hk]. intros j t' Hlt Hj.
          apply (Hfirst (S j)); [lia | exact Hj]. }
      assert (Hf' : Forall2 (fun i p => exists t0, (t :: l) !! i = Some t0
                           /\ bothCosts (toProduct m t0) = true
                           /\ p = toProduct m t0)
                      (S <$> idxs) (out ({[ti_sku t]} ∪ seen) l)).
      { apply Forall2_fmap_l. eapply Forall2_impl; [exact Hf |].
        cbn. intros i p (ti & Hl & Hk & ->). now exists ti. }
      assert (Hseen' : forall p, In p (out ({[ti_sku t]} ∪ seen) l) ->
                sku p ∉ seen)
        by (intros p Hp; apply Hseen, not_seen_add in Hp; tauto).
      cbn [List.map List.filter].
      destruct (bothCosts (toProduct m t)) eqn:Hkt.
      * exists (0%nat :: (S <$> idxs)).
        split.
        { apply StronglySorted_cons. split.
          - apply Forall_fmap, Forall_forall. intros; cbn; lia.
          - apply StronglySorted_fmap with lt; [intros; lia | exact Hs]. }
        split.
        { intros i. rewrite elem_of_cons, list_elem_of_fmap. split.
          - intros [-> | (i' & -> & Hi')]; [| now apply Hshift].
            exists t. split; [reflexivity |]. split; [exact Hnin |].
            split; [intros j t' Hlt; lia | exact Hkt].
          - intros (ti & Hl & Hns & Hfirst & Hk).
            destruct i as [| i']; [now left | right].
            exists i'. split; [reflexivity |]. now apply (Hback i' ti). }
        split.
        { constructor; [| exact Hf']. now exists t. }
        split.
        { cbn [List.map]. constructor; [| exact Hnd].
          intros Hin. apply list_elem_of_In, in_map_iff in Hin as (p & Hp & Hpin).
          apply Hseen, not_seen_add, proj1 in Hpin. cbn in Hp. congruence. }
        intros p [<- | Hp]; [exact Hnin | now apply Hseen'].
      * exists (S <$> idxs).
        split. { apply StronglySorted_fmap with lt; [intros; lia | exact Hs]. }
        split.
        { intros i. rewrite list_elem_of_fmap. split.
          - intros (i' & -> & Hi'). now apply Hshift.
          - intros (ti & Hl & Hns & Hfirst & Hk).
            destruct i as [| i'].
            + cbn in Hl. injection Hl as <-. congruence.
            + exists i'. split; [reflexivity |]. now apply (Hback i' ti). }
        split; [exact Hf' |]. split; [exact Hnd | exact Hseen'].
Qed.

End Pick.

(** A primary record passes the final filter exactly when its own cost is
    present and the first secondary record of its key has a cost that is a
    number other than zero; its merged record then pairs the two. *)
Lemma bothCosts_toProduct (digital : list DigitalItem) (t : TradeItem) :
  bothCosts (toProduct (digitalIdMapOf digital) t) = true
  <-> exists d c x, firstDigital (ti_sku t) digital = Some d
                    /\ ti_price t = Some c /\ di_price d = Some x
                    /\ truthy x = true.
Proof.
  unfold bothCosts, toProduct, getOrNull, orNull. cbn.
  rewrite digitalIdMapOf_lookup.
  destruct (firstDigital (ti_sku t) digital) as [d |]; cbn.
  - destruct (ti_price t) as [c |]; cbn.
    + destruct (di_price d) as [x |] eqn:Hp; cbn.
      * destruct (truthy x) eqn:Hx; cbn.
        -- split; [intros _; exists d, c, x; auto | reflexivity].
        -- split; [discriminate |].
           intros (d' & c' & x' & [= <-] & _ & Hx' & Ht). congruence.
      * split; [discriminate |].
        intros (d' & c' & x' & [= <-] & _ & Hx' & _). congruence.
    + split; [discriminate |]. intros (d' & c' & x' & _ & Hc & _). discriminate.
  - rewrite andb_false_r. split; [discriminate |].
    intros (? & ? & ? & ? & _). discriminate.
Qed.

Lemma toProduct_mergedOf (digital : list DigitalItem) (t : TradeItem)
    (d : DigitalItem) :
  firstDigital (ti_sku t) digital = Some d ->
  bothCosts (toProduct (digitalIdMapOf digital) t) = true ->
  toProduct (digitalIdMapOf digital) t = mergedOf t d.
Proof.
  intros Hd Hk. apply bothCosts_toProduct in Hk as (d' & c & x & Hd' & _ & Hx & Ht).
  rewrite Hd in Hd'. injection Hd' as <-.
  unfold toProduct, mergedOf, getOrNull, orNull.
  rewrite digitalIdMapOf_lookup, Hd. cbn. rewrite Hx, Ht. reflexivity.
Qed.

(** On secondary records as the parser yields them (a cost is null or a
    number other than zero) the filter is: both costs present. *)
Lemma bothCosts_on_parsed (digital : list DigitalItem) (t : TradeItem) :
  (forall d x, In d digital -> di_price d = Some x -> truthy x = true) ->
  bothCosts (toProduct (digitalIdMapOf digital) t) = true
  <-> exists d, firstDigital (ti_sku t) digital = Some d
                /\ ti_price t <> None /\ di_price d <> None.
Proof.
  intros Hparsed. rewrite bothCosts_toProduct. split.
  - intros (d & c & x & Hd & Hc & Hx & _). exists d.
    rewrite Hc, Hx. repeat split; auto; discriminate.
  - intros (d & Hd & Hc & Hx).
    destruct (ti_price t) as [c |]; [| congruence].
    destruct (di_price d) as [x |] eqn:Hp; [| congruence].
    exists d, c, x. repeat split; auto.
    apply (Hparsed d x); [| exact Hp]. now apply find_some in Hd.
Qed.

Lemma dedupFrom_A_A (c c' : option number) :
  dedupFrom ∅ [tradeOf "A" c; tradeOf "A" c'] = [tradeOf "A" c].
Proof.
  cbn. rewrite decide_False by apply not_elem_of_empty.
  rewrite decide_True; [reflexivity |].
  apply elem_of_union. left. now apply elem_of_singleton.
Qed.

Lemma parseTradeIdSheet_price (rows : list (list string)) (t : TradeItem)
    (c : number) :
  In t (parseTradeIdSheet rows) -> ti_price t = Some c -> truthy c = true.
Proof.
  rewrite parseTradeIdSheet_rows, in_map_iff. intros (row & <- & _).
  cbn. intros H. now apply orNull_Some in H.
Qed.

Lemma parseDigitalIdSheet_price (rows : list (list string)) (incl : bool)
    (d : DigitalItem) (c : number) :
  In d (parseDigitalIdSheet rows incl) -> di_price d = Some c -> truthy c = true.
Proof.
  rewrite parseDigitalIdSheet_rows, in_map_iff. intros (row & <- & _).
  cbn. intros H. now apply orNull_Some in H.
Qed.

(** C1: the secondary side is reduced to the first record of each key and
    the primary side to the first record of each key, in input order; on
    secondary records as the parser yields them (a cost is null or a number
    other than zero, which holds of every list [parseDigitalIdSheet]
    returns, the only lists [combineData] is called with) a merged record
    is emitted for a first primary record exactly when its cost and the
    cost of the first secondary record with its key are both not null; the
    emitted records follow the primary input order and no two share a key;
    for the primary list [A:10, A:99] and a secondary side whose record of
    A has a cost, the output is exactly one record, that of A with primary
    cost 10. *)
Theorem combineData_first_occurrence_join
    (trade : list TradeItem) (digital : list DigitalItem) :
  sourceCosts digital ->
  (exists idxs : list nat,
     StronglySorted lt idxs
     /\ (forall i, i ∈ idxs <->
           exists t d,
             firstAt trade i t
             /\ firstDigital (ti_sku t) digital = Some d
             /\ ti_price t <> None /\ di_price d <> None)
     /\ Forall2 (fun i p =>
                   exists t d, trade !! i = Some t
                               /\ firstDigital (ti_sku t) digital = Some d
                               /\ p = mergedOf t d)
          idxs (combineData trade digital))
  /\ NoDup (List.map sku (combineData trade digital))
  /\ (forall d,
        firstDigital "A" digital = Some d -> di_price d <> None ->
        combineData [tradeOf "A" (Some (ofZ 10)); tradeOf "A" (Some (ofZ 99))]
          digital
        = [mergedOf (tradeOf "A" (Some (ofZ 10))) d])
  /\ (forall p,
        In p (combineData
                [tradeOf "A" (Some (ofZ 10)); tradeOf "A" (Some (ofZ 99))]
                digital) ->
        combineData [tradeOf "A" (Some (ofZ 10)); tradeOf "A" (Some (ofZ 99))]
          digital = [p]
        /\ sku p = "A" /\ s1_cost (set1 p) = Some (ofZ 10))
  /\ (forall rows incl, sourceCosts (parseDigitalIdSheet rows incl)).
Proof.
  intros Hsrc.
  destruct (combine_from (digitalIdMapOf digital) trade ∅)
    as (idxs & Hs & Hiff & Hf & Hnd & _).
  split; [| split; [exact Hnd | split; [| split]]].
  - exists idxs. split; [exact Hs |]. split.
    + intros i. rewrite Hiff. split.
      * intros (t & Hl & _ & Hfirst & Hk).
        apply (bothCosts_on_parsed digital t Hsrc) in Hk as (d & Hd & Hc & Hx).
        exists t, d. repeat split; assumption.
      * intros (t & d & [Hl Hfirst] & Hd & Hc & Hx).
        exists t. split; [exact Hl |]. split; [apply not_elem_of_empty |].
        split; [exact Hfirst |].
        apply (bothCosts_on_parsed digital t Hsrc). now exists d.
    + eapply Forall2_impl; [exact Hf |]. cbn.
      intros i p (t & Hl & Hk & ->).
      destruct (proj1 (bothCosts_toProduct digital t) Hk)
        as (d & _ & _ & Hd & _).
      exists t, d. split; [exact Hl |]. split; [exact Hd |].
      now apply toProduct_mergedOf.
  - intros d Hd Hx. unfold combineData. rewrite dedupFrom_A_A.
    cbn [List.map List.filter].
    assert (Hk : bothCosts (toProduct (digitalIdMapOf digital)
                              (tradeOf "A" (Some (ofZ 10)))) = true).
    { apply (bothCosts_on_parsed digital _ Hsrc). exists d.
      split; [exact Hd |]. split; [discriminate | exact Hx]. }
    rewrite Hk. f_equal. now apply toProduct_mergedOf.
  - unfold combineData. rewrite dedupFrom_A_A. cbn [List.map List.filter].
    destruct (bothCosts _); intros p Hp; [| destruct Hp].
    destruct Hp as [<- | []]. repeat split.
  - intros rows incl d x. apply parseDigitalIdSheet_price.
Qed.

(** The condition on the secondary costs is needed: a secondary cost that
    is the number zero, which no parsed record carries, is read as null by
    [combineData], and the record is not emitted. *)
Lemma combineData_drops_zero_secondary :
  ti_price (tradeOf "A" (Some (ofZ 10))) <> None
  /\ di_price (digitalOf "A" (Some (ofZ 0))) <> None
  /\ combineData [tradeOf "A" (Some (ofZ 10))] [digitalOf "A" (Some (ofZ 0))]
     = [].
Proof. repeat split; try discriminate. Qed.

Lemma combineData_first_occurrence_join_witness :
  combineData [tradeOf "A" (Some (ofZ 10)); tradeOf "A" (Some (ofZ 99))]
    (parseDigitalIdSheet digitalGrid false)
  = [mergedOf (tradeOf "A" (Some (ofZ 10))) (digitalOf "A" (Some (ofZ 12)))]
  /\ List.map sku
       (combineData (parseTradeIdSheet tradeGrid)
          (parseDigitalIdSheet digitalGrid false)) = ["A"].
Proof.
  split.
  - apply (proj1 (proj2 (proj2 (combineData_first_occurrence_join
             [tradeOf "A" (Some (ofZ 10)); tradeOf "A" (Some (ofZ 99))]
             (parseDigitalIdSheet digitalGrid false)
             ltac:(intros d x Hin Hp; vm_compute in Hin;
                   destruct Hin as [<- | [<- | [<- | []]]];
                   vm_compute in Hp; try discriminate Hp;
                   injection Hp as <-; reflexivity))))
             (digitalOf "A" (Some (ofZ 12)))).
    + vm_compute. reflexivity.
    + discriminate.
  - vm_compute. reflexivity.
Defined.

Lemma dedupFrom_In (l : list TradeItem) (seen : gset string) (t : TradeItem) :
  In t (dedupFrom seen l) -> In t l.
Proof.
  revert seen. induction l as [| a l IH]; intros seen; cbn; [tauto |].
  destruct (decide (ti_sku a ∈ seen)).
  - intros H. right. now apply (IH seen).
  - intros [-> | H]; [now left | right; now apply (IH _ H)].
Qed.

Lemma truthy_not_zero (x : number) : truthy x = true -> isZero x = false.
Proof. destruct x; cbn; congruence. Qed.

(** Every emitted record pairs a primary record and a secondary record of
    the inputs whose costs are both present. *)
Lemma combineData_origin (trade : list TradeItem) (digital : list DigitalItem)
    (p : Product) :
  In p (combineData trade digital) ->
  exists t d c x, In t trade /\ In d digital
                  /\ ti_price t = Some c /\ di_price d = Some x
                  /\ truthy x = true /\ p = mergedOf t d.
Proof.
  unfold combineData. rewrite filter_In, in_map_iff.
  intros [(t & <- & Ht) Hk].
  destruct (proj1 (bothCosts_toProduct digital t) Hk)
    as (d & c & x & Hd & Hc & Hx & Htr).
  exists t, d, c, x.
  split; [now apply dedupFrom_In in Ht |].
  split; [now apply find_some in Hd |].
  repeat (split; [assumption |]).
  now apply toProduct_mergedOf.
Qed.

(** C10: a row whose cost cell parses to the number zero is recorded with
    the cost null, by either parser; hence no parsed record carries the
    cost zero, every merged record stems from a primary and a secondary
    record whose costs are present, and the merged output of two parsed
    sheets holds no zero cost on either side. *)
Theorem zero_cost_is_null
    (tradeRows digitalRows : list (list string)) (incl : bool) :
  (forall headers row,
     isZero (tradeCost headers row) = true ->
     ti_price (tradeRecord headers row) = None)
  /\ (forall headers row,
        isZero (digitalCost headers row) = true ->
        di_price (digitalRecord incl headers row) = None)
  /\ (forall t c, In t (parseTradeIdSheet tradeRows) ->
        ti_price t = Some c -> isZero c = false)
  /\ (forall d c, In d (parseDigitalIdSheet digitalRows incl) ->
        di_price d = Some c -> isZero c = false)
  /\ (forall trade digital p, In p (combineData trade digital) ->
        exists t d, In t trade /\ In d digital
                    /\ ti_price t <> None /\ di_price d <> None
                    /\ p = mergedOf t d)
  /\ (forall p,
        In p (combineData (parseTradeIdSheet tradeRows)
                (parseDigitalIdSheet digitalRows incl)) ->
        exists c x, s1_cost (set1 p) = Some c /\ s2_cost (set2 p) = Some x
                    /\ isZero c = false /\ isZero x = false).
Proof.
  split; [intros headers row Hz; cbn; now apply orNull_zero |].
  split; [intros headers row Hz; cbn; now apply orNull_zero |].
  split.
  { intros t c Hin Hc. apply truthy_not_zero.
    now apply (parseTradeIdSheet_price tradeRows t c). }
  split.
  { intros d c Hin Hc. apply truthy_not_zero.
    now apply (parseDigitalIdSheet_price digitalRows incl d c). }
  split.
  { intros trade digital p Hp.
    apply combineData_origin in Hp as (t & d & c & x & Ht & Hd & Hc & Hx & _ & ->).
    exists t, d. rewrite Hc, Hx. repeat split; auto; discriminate. }
  intros p Hp.
  apply combineData_origin in Hp as (t & d & c & x & Ht & Hd & Hc & Hx & Htr & ->).
  exists c, x. cbn. repeat split; auto.
  - apply truthy_not_zero. now apply (parseTradeIdSheet_price tradeRows t c).
  - now apply truthy_not_zero.
Qed.

Lemma zero_cost_is_null_witness :
  isZero (tradeCost tradeHeaders ["105"; "Reel"; "0"; "E"; "1"]) = true
  /\ ti_price (tradeRecord tradeHeaders ["105"; "Reel"; "0"; "E"; "1"]) = None
  /\ isZero (digitalCost digitalHeaders
               ["t"; "i"; "Reel"; "€0.00"; "E"; "d"; "u"]) = true
  /\ di_price (digitalRecord false digitalHeaders
                 ["t"; "i"; "Reel"; "€0.00"; "E"; "d"; "u"]) = None.
Proof.
  split; [vm_compute; reflexivity |].
  split.
  { apply (proj1 (zero_cost_is_null tradeGrid digitalGrid false)).
    vm_compute. reflexivity. }
  split; [vm_compute; reflexivity |].
  apply (proj1 (proj2 (zero_cost_is_null tradeGrid digitalGrid false))).
  vm_compute. reflexivity.
Defined.

End CombineFacts.

(* ===================================================================== *)
(** ** Properties of the batch update handler *)
(* ===================================================================== *)

Module BatchFacts.
Import JsNum JsStr Zoho Notions.

Section Remote.
Variable respond : list Call -> Call -> Reply.

Lemma fetchJson_calls (c : Call) (h : list Call) :
  snd (fetchJson respond c h) = (h ++ [c]).
Proof. unfold fetchJson. now destruct (respond h c). Qed.

Lemma getZohoAccessToken_calls (h : list Call) :
  snd (getZohoAccessToken respond h) = (h ++ [TokenCall]).
Proof.
  unfold getZohoAccessToken, bind, fetchJson.
  destruct (respond h TokenCall) as [msg | d]; [reflexivity |].
  now destruct (truthyStr (error d)).
Qed.

Lemma zohoSearchItemBySku_calls (tok : option string) (k : string)
    (h : list Call) :
  snd (zohoSearchItemBySku respond tok k h) = (h ++ [SearchCall tok k]).
Proof.
  unfold zohoSearchItemBySku, bind, fetchJson.
  destruct (respond h (SearchCall tok k)) as [msg | d]; [reflexivity |].
  now destruct (negb (bool_decide (code d = Some 0))).
Qed.

Lemma zohoUpdateItemPrices_calls (tok : option string) (i : string)
    (c s : option number) (h : list Call) :
  snd (zohoUpdateItemPrices respond tok i c s h)
  = (h ++ [UpdateCall tok i c s]).
Proof.
  unfold zohoUpdateItemPrices, bind, fetchJson.
  destruct (respond h (UpdateCall tok i c s)) as [msg | d]; [reflexivity |].
  now destruct (negb (bool_decide (code d = Some 0))).
Qed.

(** The loop appends to [results] what [propagate] yields. *)
Lemma forOf_propagate (tok : option string) (items : list Item) :
  forall (results : list BatchResult) (h : list Call),
    forOf respond tok items results h
    = (inr (results ++ fst (propagate respond tok items h)),
       snd (propagate respond tok items h)).
Proof.
  induction items as [| item rest IH]; intros results h.
  - cbn. now rewrite app_nil_r.
  - cbn [forOf propagate]. unfold bind at 1. unfold tryCatch, bind at 1, applyOne.
    destruct (zohoSearchItemBySku respond tok (it_sku item) h)
      as [[msg | [z |]] h1].
    + cbn. rewrite IH.
      destruct (propagate respond tok rest h1) as [rs h2]. cbn.
      unfold push. now rewrite <- app_assoc.
    + unfold bind.
      destruct (zohoUpdateItemPrices respond tok (item_id z) (costPrice item)
                  (sellingPrice item) h1) as [[msg | u] h2].
      * cbn. rewrite IH.
        destruct (propagate respond tok rest h2) as [rs h3]. cbn.
        unfold push. now rewrite <- app_assoc.
      * cbn. rewrite IH.
        destruct (propagate respond tok rest h2) as [rs h3]. cbn.
        unfold push. now rewrite <- app_assoc.
    + cbn. rewrite IH.
      destruct (propagate respond tok rest h1) as [rs h2]. cbn.
      unfold push. now rewrite <- app_assoc.
Qed.

Lemma applyOne_key (tok : option string) (item : Item) (h : list Call) :
  br_sku (fst (applyOne respond tok item h)) = it_sku item.
Proof.
  unfold applyOne.
  destruct (zohoSearchItemBySku respond tok (it_sku item) h)
    as [[msg | [z |]] h1]; try reflexivity.
  now destruct (zohoUpdateItemPrices respond tok (item_id z) (costPrice item)
                  (sellingPrice item) h1) as [[msg | u] h2].
Qed.


(** The calls of one item: its lookup, and its update when the lookup found
    the item. *)
Lemma applyOne_calls (tok : option string) (item : Item) (h : list Call) :
  snd (applyOne respond tok item h)
  = (h ++ [SearchCall tok (it_sku item)])
  \/ exists z, snd (applyOne respond tok item h)
               = (h ++ [SearchCall tok (it_sku item);
                        UpdateCall tok (item_id z) (costPrice item)
                          (sellingPrice item)]).
Proof.
  unfold applyOne.
  pose proof (zohoSearchItemBySku_calls tok (it_sku item) h) as Hs.
  destruct (zohoSearchItemBySku respond tok (it_sku item) h)
    as [[msg | [z |]] h1]; cbn in Hs; subst h1; try (now left).
  right. exists z.
  pose proof (zohoUpdateItemPrices_calls tok (item_id z) (costPrice item)
                (sellingPrice item) (h ++ [SearchCall tok (it_sku item)])) as Hu.
  destruct (zohoUpdateItemPrices respond tok (item_id z) (costPrice item)
              (sellingPrice item) (h ++ [SearchCall tok (it_sku item)]))
    as [[msg | u] h2]; cbn in Hu; subst h2; cbn; now rewrite <- app_assoc.
Qed.

Lemma applyOne_lookups (tok : option string) (item : Item) (h : list Call) :
  lookups (snd (applyOne respond tok item h))
  = (lookups h ++ [it_sku item]).
Proof.
  unfold lookups.
  destruct (applyOne_calls tok item h) as [-> | [z ->]];
    now rewrite omap_app.
Qed.




Lemma propagate_cons (tok : option string) (item : Item) (rest : list Item)
    (h : list Call) :
  propagate respond tok (item :: rest) h
  = (fst (applyOne respond tok item h)
       :: fst (propagate respond tok rest (snd (applyOne respond tok item h))),
     snd (propagate respond tok rest (snd (applyOne respond tok item h)))).
Proof.
  cbn [propagate]. destruct (applyOne respond tok item h) as [r h1]. cbn.
  now destruct (propagate respond tok rest h1).
Qed.

Lemma propagate_length (tok : option string) (items : list Item) :
  forall h, length (fst (propagate respond tok items h)) = length items.
Proof.
  induction items as [| item rest IH]; intros h; [reflexivity |].
  rewrite propagate_cons. cbn. now rewrite IH.
Qed.

Lemma propagate_keys (tok : option string) (items : list Item) :
  forall h, List.map br_sku (fst (propagate respond tok items h))
            = List.map it_sku items.
Proof.
  induction items as [| item rest IH]; intros h; [reflexivity |].
  rewrite propagate_cons. cbn. now rewrite IH, applyOne_key.
Qed.

Lemma propagate_lookups (tok : option string) (items : list Item) :
  forall h, lookups (snd (propagate respond tok items h))
            = (lookups h ++ List.map it_sku items).
Proof.
  induction items as [| item rest IH]; intros h.
  - cbn. now rewrite app_nil_r.
  - rewrite propagate_cons. cbn [snd]. rewrite IH, applyOne_lookups.
    now rewrite <- app_assoc.
Qed.




(** C7: the token helper runs before the loop.  When its request is
    rejected or answered with an error, it throws: a non-empty batch is then
    answered with that single top-level error (status 500) and no result
    list, and the token request is the only call made, so no item is looked
    up or updated.  When the reply carries neither an error nor a token, the
    helper returns [undefined] and the batch is not aborted: the answer is
    a result list with one result per item, and every item is looked up,
    with no token. *)
Theorem batchUpdate_token_failure (items : list Item) (h0 : list Call) :
  items <> [] ->
  (forall msg h1,
     getZohoAccessToken respond h0 = (inl msg, h1) ->
     batchUpdate respond (BodyJson (Some items)) h0
     = (inr (ServerError500 msg), h1)
     /\ h1 = h0 ++ [TokenCall]
     /\ lookups h1 = lookups h0
     /\ updates h1 = updates h0)
  /\ (forall msg,
        respond h0 TokenCall = Rejected msg ->
        getZohoAccessToken respond h0 = (inl msg, h0 ++ [TokenCall]))
  /\ (forall d,
        respond h0 TokenCall = Json d -> truthyStr (error d) = true ->
        getZohoAccessToken respond h0
        = (inl (default "" (error d)), h0 ++ [TokenCall]))
  /\ (forall d,
        respond h0 TokenCall = Json d -> truthyStr (error d) = false ->
        access_token d = None ->
        getZohoAccessToken respond h0 = (inr None, h0 ++ [TokenCall])
        /\ batchUpdate respond (BodyJson (Some items)) h0
           = (inr (Ok200 (fst (propagate respond None items
                                 (h0 ++ [TokenCall])))),
              snd (propagate respond None items (h0 ++ [TokenCall])))
        /\ length (fst (propagate respond None items (h0 ++ [TokenCall])))
           = length items
        /\ lookups (snd (propagate respond None items (h0 ++ [TokenCall])))
           = (lookups h0 ++ List.map it_sku items)).
Proof.
  intros Hne.
  split; [| split; [| split]].
  - intros msg h1 Htok.
    assert (Hh : h1 = h0 ++ [TokenCall]).
    { pose proof (getZohoAccessToken_calls h0) as Hc. now rewrite Htok in Hc. }
    split.
    { unfold batchUpdate, tryCatch. destruct items as [| item rest]; [congruence |].
      unfold bind at 1. now rewrite Htok. }
    split; [exact Hh |].
    subst h1. unfold lookups, updates. rewrite !omap_app. cbn.
    now rewrite !app_nil_r.
  - intros msg Hr. unfold getZohoAccessToken, bind, fetchJson. now rewrite Hr.
  - intros d Hr He. unfold getZohoAccessToken, bind, fetchJson.
    now rewrite Hr, He.
  - intros d Hr He Ht.
    assert (Htok : getZohoAccessToken respond h0 = (inr None, h0 ++ [TokenCall])).
    { unfold getZohoAccessToken, bind, fetchJson. rewrite Hr, He, Ht.
      reflexivity. }
    split; [exact Htok |]. split.
    { unfold batchUpdate, tryCatch. destruct items as [| item rest]; [congruence |].
      unfold bind at 1. rewrite Htok.
      unfold bind. rewrite forOf_propagate. reflexivity. }
    split; [apply propagate_length |].
    rewrite propagate_lookups. unfold lookups. rewrite omap_app. cbn.
    now rewrite app_nil_r.
Qed.

(** C8, as the code has it: an empty item list is refused with the error
    "Items array is required" (status 400) and no result list, before any
    call to the remote system. *)
Theorem batchUpdate_empty (h0 : list Call) :
  batchUpdate respond (BodyJson (Some [])) h0
  = (inr (BadRequest400 "Items array is required"), h0).
Proof. reflexivity. Qed.

End Remote.


Lemma batchUpdate_token_failure_witness :
  batchUpdate respondNoToken (BodyJson (Some batchABC)) []
  = (inr (ServerError500 "invalid_client"), [TokenCall])
  /\ batchUpdate respondEmptyToken (BodyJson (Some batchABC)) []
     = (inr (Ok200 [succeeded "A"; failed "B" "You are not authorized";
                    succeeded "C"]),
        [TokenCall;
         SearchCall None "A";
         UpdateCall None "id-A" (Some (ofZ 10)) (Some (ofZ 12));
         SearchCall None "B";
         SearchCall None "C";
         UpdateCall None "id-C" (Some (ofZ 30)) (Some (ofZ 36))]).
Proof.
  split.
  - exact (proj1 (proj1 (batchUpdate_token_failure respondNoToken batchABC []
                           ltac:(discriminate))
                    "invalid_client" [TokenCall] eq_refl)).
  - rewrite (proj1 (proj2 (proj2 (proj2 (proj2
               (batchUpdate_token_failure respondEmptyToken batchABC []
                  ltac:(discriminate))))
               {| error := None; access_token := None; code := None;
                  message := None; items := None; item := None |}
               eq_refl eq_refl eq_refl))).
    vm_compute. reflexivity.
Defined.

(** C8 as written fails: the answer to an empty list is an error, not an
    empty result list. *)
Lemma batchUpdate_empty_is_refused :
  fst (batchUpdate respondButB (BodyJson (Some [])) [])
  = inr (BadRequest400 "Items array is required")
  /\ fst (batchUpdate respondButB (BodyJson (Some [])) []) <> inr (Ok200 []).
Proof. split; [reflexivity | discriminate]. Qed.

End BatchFacts.

(* ===================================================================== *)
(** ** More of the edge worker: the other sheet, the payloads of the read
       endpoints, basic authentication *)
(* ===================================================================== *)

Module Worker.
Import JsNum JsStr Sheets.

(** *** parseDescriptionSheet *)

Record DescriptionItem := { ds_sku : string; ds_productUses : string }.

Definition descriptionRecord (headers row : list string) : DescriptionItem :=
  let skuIdx := findIndex (headerIs "sku") headers in
  let descIdx := findIndex (headerIs "description") headers in
  {| ds_sku := cellOrEmpty row skuIdx;
     ds_productUses := cellOrEmpty row descIdx |}.

Definition parseDescriptionSheet (rows : list (list string))
    : list DescriptionItem :=
  match rows with
  | headers :: ((_ :: _) as dataRows) =>
      List.filter (fun item => negb (isEmpty (ds_sku item)))
        (List.map (descriptionRecord headers) dataRows)
  | _ => []
  end.

(** *** The payload of [/api/products] *)

(** [JSON.stringify] of a merged record, as the page reads it back with
    [JSON.parse]: texts are kept, and a number that is not finite is
    written [null]. *)
Definition jsonProduct (p : Product) : Product :=
  {| sku := sku p;
     productId := productId p;
     set1 := {| s1_name := s1_name (set1 p);
                s1_cost := s1_cost (set1 p) ≫= jsonNumber;
                s1_stock := s1_stock (set1 p) ≫= jsonNumber |};
     set2 := {| s2_cost := s2_cost (set2 p) ≫= jsonNumber |} |}.

(** What the endpoint serves once both sheets have been fetched:
    [JSON.stringify(combinedData)]. *)
Definition productsPayload (tradeIdRows digitalIdRows : list (list string))
    : list Product :=
  let tradeIdData := parseTradeIdSheet tradeIdRows in
  let digitalIdData := parseDigitalIdSheet digitalIdRows false in
  let combinedData := combineData tradeIdData digitalIdData in
  List.map jsonProduct combinedData.

(** *** The payload of [/api/descriptions] *)

Record CombinedDescription := {
  cd_sku : string;
  cd_name : option string;
  cd_description : option string;
  cd_productUses : string
}.

Definition setUsesIfAbsent (productUsesMap : gmap string string)
    (item : DescriptionItem) : gmap string string :=
  match productUsesMap !! ds_sku item with
  | Some _ => productUsesMap
  | None => <[ds_sku item := ds_productUses item]> productUsesMap
  end.

Definition descriptionsPayload (digitalIdRows descriptionRows : list (list string))
    : list CombinedDescription :=
  let digitalIdData := parseDigitalIdSheet digitalIdRows true in
  let descriptionData := parseDescriptionSheet descriptionRows in
  let productUsesMap := foldl setUsesIfAbsent ∅ descriptionData in
  List.map (fun item =>
              {| cd_sku := di_sku item;
                 cd_name := di_name item;
                 cd_description := di_description item;
                 cd_productUses := default "" (productUsesMap !! di_sku item) |})
    digitalIdData.

(** *** The payload of [/api/debug/sku-diff] *)

(** A [Set] of strings: its elements in insertion order. *)
Definition setAdd (s : list string) (k : string) : list string :=
  if bool_decide (k ∈ s) then s else s ++ [k].

Definition setHas (s : list string) (k : string) : bool := bool_decide (k ∈ s).

(** The order of [Array.prototype.sort] without comparator: strings by
    UTF-16 code units.  On UTF-8 bytes this is the byte order, except that
    the lead bytes EE and EF (U+E000..U+FFFF) come after the lead bytes
    F0..F4 (the code points written with surrogate pairs). *)
Definition unitRank (c : ascii) : Z :=
  let n := byte c in
  if (238 <=? n) && (n <=? 239) then n + 256 else n.

Fixpoint codeUnitLe (a b : string) : bool :=
  match a, b with
  | EmptyString, _ => true
  | String _ _, EmptyString => false
  | String x a', String y b' =>
      if byte x =? byte y then codeUnitLe a' b'
      else unitRank x <? unitRank y
  end.

Definition CodeUnitLe (a b : string) : Prop := Is_true (codeUnitLe a b).

Definition sort (l : list string) : list string := merge_sort CodeUnitLe l.

Record Unmatched := { count : nat; skus : list string }.

Record SkuDiff := {
  tradeIdCount : nat;
  digitalIdCount : nat;
  matchedCount : nat;
  inDigitalNotTrade : Unmatched;
  inTradeNotDigital : Unmatched
}.

Definition skuDiffOf (tradeIdData : list TradeItem)
    (digitalIdData : list DigitalItem) : SkuDiff :=
  let tradeIdSkus := foldl (fun s item => setAdd s (ti_sku item)) [] tradeIdData in
  let digitalIdSkus :=
    foldl (fun s item => setAdd s (di_sku item)) [] digitalIdData in
  let inDigitalNotTrade_ :=
    List.filter (fun k => negb (setHas tradeIdSkus k)) digitalIdSkus in
  let inTradeNotDigital_ :=
    List.filter (fun k => negb (setHas digitalIdSkus k)) tradeIdSkus in
  {| tradeIdCount := length tradeIdSkus;
     digitalIdCount := length digitalIdSkus;
     matchedCount :=
       length (List.filter (fun k => setHas digitalIdSkus k) tradeIdSkus);
     inDigitalNotTrade := {| count := length inDigitalNotTrade_;
                             skus := sort inDigitalNotTrade_ |};
     inTradeNotDigital := {| count := length inTradeNotDigital_;
                             skus := sort inTradeNotDigital_ |} |}.

Definition skuDiffPayload (tradeIdRows digitalIdRows : list (list string))
    : SkuDiff :=
  skuDiffOf (parseTradeIdSheet tradeIdRows)
    (parseDigitalIdSheet digitalIdRows false).

(** *** checkBasicAuth *)

Definition BASIC_AUTH_USER : string := "admin".
Definition BASIC_AUTH_PASS : string := "1q2w3e4r".

Definition base64Value (c : ascii) : option Z :=
  let n := byte c in
  if (65 <=? n) && (n <=? 90) then Some (n - 65)
  else if (97 <=? n) && (n <=? 122) then Some (n - 71)
  else if (48 <=? n) && (n <=? 57) then Some (n + 4)
  else if n =? 43 then Some 62
  else if n =? 47 then Some 63
  else None.

(** TAB, LF, FF, CR and SPACE. *)
Definition asciiWhitespace (c : ascii) : bool :=
  let n := byte c in
  (n =? 9) || (n =? 10) || (n =? 12) || (n =? 13) || (n =? 32).

Definition isPad (c : ascii) : bool := byte c =? 61.

(** One or two padding characters at the end of a reversed input. *)
Definition dropPadding (rev : list ascii) : list ascii :=
  match rev with
  | a :: b :: r => if isPad a then (if isPad b then r else b :: r) else rev
  | [a] => if isPad a then [] else rev
  | [] => []
  end.

Definition byteChar (n : Z) : ascii := ascii_of_N (Z.to_N (n mod 256)).

(** Groups of four sextets give three bytes; a last group of three gives
    two bytes, of two gives one byte. *)
Fixpoint decodeSextets (v : list Z) : string :=
  match v with
  | a :: b :: c :: d :: r =>
      let n := ((a * 64 + b) * 64 + c) * 64 + d in
      String (byteChar (n / 65536))
        (String (byteChar (n / 256)) (String (byteChar n) (decodeSextets r)))
  | [a; b; c] =>
      let n := ((a * 64 + b) * 64 + c) / 4 in
      String (byteChar (n / 256)) (String (byteChar n) EmptyString)
  | [a; b] => String (byteChar ((a * 64 + b) / 16)) EmptyString
  | _ => EmptyString
  end.

(** [atob]: [None] when it throws. *)
Definition atob (data : string) : option string :=
  let chars :=
    List.filter (fun c => negb (asciiWhitespace c)) (list_ascii_of_string data) in
  let chars :=
    if (Z.of_nat (length chars) mod 4 =? 0)
    then List.rev (dropPadding (List.rev chars)) else chars in
  if Z.of_nat (length chars) mod 4 =? 1 then None
  else
    match mapM base64Value chars with
    | Some v => Some (decodeSextets v)
    | None => None
    end.

Fixpoint startsWith (p s : string) : bool :=
  match p, s with
  | EmptyString, _ => true
  | String a p', String b s' => Ascii.eqb a b && startsWith p' s'
  | String _ _, EmptyString => false
  end.

(** [s.slice(n)] for [n] within the string. *)
Fixpoint slice (n : nat) (s : string) : string :=
  match n, s with
  | O, _ => s
  | S n', String _ s' => slice n' s'
  | S _, EmptyString => EmptyString
  end.

(** [s.split(':')]. *)
Fixpoint splitColon (s : string) : list string :=
  match s with
  | EmptyString => [EmptyString]
  | String c s' =>
      if Ascii.eqb c ":" then EmptyString :: splitColon s'
      else match splitColon s' with
           | p :: ps => String c p :: ps
           | [] => [String c EmptyString]
           end
  end.

(** The header is [None] when the request carries none; the result is
    [None] when [atob] throws. *)
Definition checkBasicAuth (authHeader : option string) : option bool :=
  match authHeader with
  | None => Some false
  | Some h =>
      if isEmpty h || negb (startsWith "Basic " h) then Some false
      else
        match atob (slice 6 h) with
        | None => None
        | Some credentials =>
            let parts := splitColon credentials in
            let username := parts !! 0%nat in
            let password := parts !! 1%nat in
            Some (bool_decide (username = Some BASIC_AUTH_USER)
                  && bool_decide (password = Some BASIC_AUTH_PASS))
        end
  end.

End Worker.

(* ===================================================================== *)
(** ** More endpoints of the edge worker: single update, stock levels,
       exchange rate *)
(* ===================================================================== *)

Module Endpoints.
Import JsNum JsStr Zoho.

(** *** POST /api/zoho/update *)

Record UpdateBody := {
  ub_sku : option string;
  ub_costPrice : option number;
  ub_sellingPrice : option number
}.

(** [request.json()] rejects (or yields no object), or gives the body. *)
Inductive UpdateRequest :=
| UpdateRejected (msg : string)
| UpdateJson (body : UpdateBody).

Record Updated := {
  up_sku : string;
  up_itemId : string;
  up_itemName : string;
  up_costPrice : option number;
  up_sellingPrice : option number
}.

Inductive UpdateResponse :=
| Updated200 (r : Updated)
| UpdateBad400 (err : string)
| UpdateNotFound404 (err : string)
| UpdateError500 (err : string).

(** The message of the TypeError raised by [updatedItem.name] when the
    update reply carried no [item] (the wording is the engine's). *)
Definition nameOfUndefined : string :=
  "Cannot read properties of undefined (reading 'name')".

Section Remote.
Variable respond : list Call -> Call -> Reply.

Definition zohoUpdate (request : UpdateRequest) : M UpdateResponse :=
  tryCatch
    (match request with
     | UpdateRejected msg => throw msg
     | UpdateJson body =>
         if negb (truthyStr (ub_sku body))
         then ret (UpdateBad400 "SKU is required")
         else
           let sku := default "" (ub_sku body) in
           await accessToken := getZohoAccessToken respond in
           await found := zohoSearchItemBySku respond accessToken sku in
           match found with
           | None => ret (UpdateNotFound404 ("Item not found with SKU: " +:+ sku))
           | Some z =>
               await updatedItem :=
                 zohoUpdateItemPrices respond accessToken (item_id z)
                   (ub_costPrice body) (ub_sellingPrice body) in
               match updatedItem with
               | None => throw nameOfUndefined
               | Some u =>
                   ret (Updated200
                          {| up_sku := sku;
                             up_itemId := item_id z;
                             up_itemName := name u;
                             up_costPrice := ub_costPrice body;
                             up_sellingPrice := ub_sellingPrice body |})
               end
           end
     end)
    (fun msg => ret (UpdateError500 msg)).

End Remote.

(** *** GET /api/zoho/stock *)

(** An item of the stock listing: [stock_on_hand] is [None] when the field
    is missing, [Some None] when it is [null]. *)
Record StockItem := {
  sk_sku : option string;
  stock_on_hand : option (option number)
}.

Record ItemsData := {
  id_code : option Z;
  id_message : option string;
  id_items : option (list StockItem)
}.

Inductive ItemsReply :=
| ItemsRejected (msg : string)
| ItemsJson (data : ItemsData).

(** [obj[k] = v] for a number or a string [v], on an object literal seen
    through its own properties: the key [__proto__] names the prototype
    accessor, and assigning such a value to it adds no property. *)
Definition assignable (k : string) : bool := negb (String.eqb k "__proto__").

(** The object [stock]: its own properties, and whether its prototype is
    [null] (it starts as [Object.prototype]). *)
Record StockObject := {
  ownProps : gmap string (option number);
  prototypeIsNull : bool
}.

(** [{}]. *)
Definition emptyObject : StockObject :=
  {| ownProps := ∅; prototypeIsNull := false |}.

(** [stock[k] = v] for a number or [null]: a property of the object's own
    is updated; otherwise, while the prototype is [Object.prototype], the
    key [__proto__] reaches the prototype setter, which ignores a number
    and, given [null], sets the prototype to [null]; in every other case
    the object gets the property. *)
Definition assignStock (stock : StockObject) (k : string) (v : option number)
    : StockObject :=
  match ownProps stock !! k with
  | Some _ =>
      {| ownProps := <[k := v]> (ownProps stock);
         prototypeIsNull := prototypeIsNull stock |}
  | None =>
      if String.eqb k "__proto__" && negb (prototypeIsNull stock) then
        match v with
        | None => {| ownProps := ownProps stock; prototypeIsNull := true |}
        | Some _ => stock
        end
      else
        {| ownProps := <[k := v]> (ownProps stock);
           prototypeIsNull := prototypeIsNull stock |}
  end.

Definition setStock (stock : StockObject) (i : StockItem) : StockObject :=
  match sk_sku i, stock_on_hand i with
  | Some k, Some v => if isEmpty k then stock else assignStock stock k v
  | _, _ => stock
  end.

(** The [for (const item of items)] loop that fills [stock]. *)
Definition stockOf (l : list StockItem) : StockObject :=
  foldl setStock emptyObject l.

(** [JSON.stringify] of [stock], as the page reads it back: the own
    properties, a number that is not finite written [null]. *)
Definition stockJson (stock : StockObject) : gmap string (option number) :=
  (fun v => v ≫= jsonNumber) <$> ownProps stock.

Inductive StockResponse :=
| Stock200 (stock : gmap string (option number))
| StockError500 (err : string).

(** The handler, given the outcome of [getZohoAccessToken] and the reply to
    the listing request made with the token. *)
Definition zohoStock (token : string + option string)
    (listing : option string -> ItemsReply) : StockResponse :=
  match token with
  | inl msg => StockError500 msg
  | inr accessToken =>
      match listing accessToken with
      | ItemsRejected msg => StockError500 msg
      | ItemsJson data =>
          if negb (bool_decide (id_code data = Some 0))
          then StockError500 (strOr (id_message data) "Failed to fetch items")
          else Stock200 (stockJson (stockOf (default [] (id_items data))))
      end
  end.

(** *** GET /api/exchange-rate *)

(** The [OBS] field of an observation of the feed. *)
Inductive Obs :=
| ObsMissing
| ObsNull
| ObsText (s : string)
| ObsNumber (x : number).

Record Observation := { OBS : Obs; PERIOD : option string }.

(** The feed: the request fails or its body is no array ([FeedThrows]),
    the status is not ok, or the observations arrive. *)
Inductive FeedReply :=
| FeedThrows (msg : string)
| FeedNotOk
| FeedJson (data : list Observation).

(** [parseFloat(v)] for a value of the feed. *)
Definition parseObs (v : Obs) : number :=
  match v with
  | ObsMissing => parseFloat "undefined"
  | ObsNull => parseFloat "null"
  | ObsText s => parseFloat s
  | ObsNumber x => match x with S754_zero _ => S754_zero false | _ => x end
  end.

Record RateBody := {
  rate : option number;
  date : option string;
  pair : string
}.

Inductive RateResponse :=
| Rate200 (body : RateBody)
| RateError500 (err : string).

Definition obsOfUndefined : string :=
  "Cannot read properties of undefined (reading 'OBS')".

Definition notNullObs (d : Observation) : bool :=
  match OBS d with ObsNull => false | _ => true end.

Definition exchangeRateEndpoint (feed : FeedReply) : RateResponse :=
  match feed with
  | FeedThrows msg => RateError500 msg
  | FeedNotOk => RateError500 "Failed to fetch exchange rate"
  | FeedJson data =>
      match List.find notNullObs data with
      | None => RateError500 obsOfUndefined
      | Some latest =>
          Rate200 {| rate := jsonNumber (parseObs (OBS latest));
                     date := PERIOD latest;
                     pair := "EUR/GBP" |}
      end
  end.

End Endpoints.

(* ===================================================================== *)
(** ** More of the browser script: diagnostics, state updates, the log,
       input cleaning, escaping *)
(* ===================================================================== *)

Module Script.
Import JsNum JsStr Sheets Pricing Zoho Endpoints.

(** *** Diagnostics *)

Definition sub (x y : number) : number := SFsub prec emax x y.

Definition calculateDiff (product : Product) : option number :=
  match s1_cost (set1 product), s2_cost (set2 product) with
  | Some tradeId, Some digitalId => Some (sub digitalId tradeId)
  | _, _ => None
  end.

Definition calculateMarkup (product : Product) : option number :=
  match s1_cost (set1 product), s2_cost (set2 product) with
  | Some tradeId, Some digitalId =>
      if eqb tradeId (ofZ 0) then None
      else Some (mul (div (sub digitalId tradeId) tradeId) (ofZ 100))
  | _, _ => None
  end.

Definition calculateProfit (st : State) (product : Product)
    (sellingPrice : option number) : option number :=
  match sellingPrice with
  | None => None
  | Some price =>
      match s1_cost (set1 product) with
      | None => None
      | Some costGbp =>
          match gbpToEur st (Some costGbp) with
          | None => None
          | Some costEur => Some (sub price costEur)
          end
      end
  end.

(** *** State updates *)

(** The state part of [fillAllIdentity]: the [forEach] over the products. *)
Definition fillAllIdentity (st : State) (productData : list Product)
    (selection : string) : State :=
  foldl (fun s product => updateIdentityFromDropdown s (sku product) selection)
    st productData.

(** The [change] listener of the rounding select. *)
Definition onRoundingChange (st : State) (value : string) : State :=
  {| exchangeRate := exchangeRate st;
     identitySelections := identitySelections st;
     identityOverrides := ∅;
     roundingValue :=
       match orNull (parseFloat value) with
       | Some r => r
       | None => ofZ 0
       end |}.

(** What [fetchExchangeRate] gets from the worker: no answer at all, or
    the endpoint's response. *)
Inductive RateFetch :=
| RateUnreachable
| RateAnswer (r : RateResponse).

Definition fetchExchangeRate (f : RateFetch) : option RateBody :=
  match f with
  | RateUnreachable => None
  | RateAnswer (RateError500 _) => None
  | RateAnswer (Rate200 body) => Some body
  end.

(** The state part of [updateExchangeRateDisplay]. *)
Definition updateExchangeRateDisplay (st : State) (data : option RateBody)
    : State :=
  match data with
  | Some body =>
      match rate body with
      | Some r =>
          if truthy r then
            {| exchangeRate := Some r;
               identitySelections := identitySelections st;
               identityOverrides := identityOverrides st;
               roundingValue := roundingValue st |}
          else st
      | None => st
      end
  | None => st
  end.

(** *** The change log *)

Definition MAX_LOG_ENTRIES : nat := 1000.

(** A stored entry: [{ timestamp, ...entry }], for entries that carry no
    timestamp of their own; [E] is the JSON form of an entry, which is what
    the store holds. *)
Record Stamped (E : Type) := { timestamp : string; entry : E }.
Arguments timestamp {E} _.
Arguments entry {E} _.

(** The storage slot of the log: never written, unreadable, or a list. *)
Inductive Stored (E : Type) :=
| Absent
| Corrupt
| Logs (l : list (Stamped E)).
Arguments Absent {E}.
Arguments Corrupt {E}.
Arguments Logs {E} _.

Definition getLogs {E} (stored : Stored E) : list (Stamped E) :=
  match stored with
  | Logs l => l
  | _ => []
  end.

(** [logs.unshift(x)]. *)
Definition unshift {A} (logs : list A) (x : A) : list A := x :: logs.

(** [saveLog] at the moment [now]: the new content of the storage slot. *)
Definition saveLog {E} (stored : Stored E) (now : string) (entries : list E)
    : Stored E :=
  let logs := getLogs stored in
  let logs :=
    foldl (fun logs e => unshift logs {| timestamp := now; entry := e |})
      logs entries in
  Logs (take MAX_LOG_ENTRIES logs).

(** *** The answer to a pushed batch *)

Record PushLog := {
  pl_sku : string;
  pl_costPrice : option (option number);
  pl_sellingPrice : option (option number);
  pl_success : bool;
  pl_error : option string
}.

Record PushOutcome := {
  successful : nat;
  failed : nat;
  logEntries : list PushLog;
  zohoUpdateTimestamps : gmap string string
}.

(** [result.error || null]. *)
Definition errorOrNull (e : option string) : option string :=
  match e with
  | Some s => if isEmpty s then None else Some s
  | None => None
  end.

(** What the push handler does with [data.results]: the counts, the log
    entries and the timestamps of the keys that succeeded. *)
Definition afterPush (itemsToUpdate : list Item) (results : list BatchResult)
    (now : string) (stamps : gmap string string) : PushOutcome :=
  {| successful := length (List.filter success results);
     failed := length (List.filter (fun r => negb (success r)) results);
     logEntries :=
       List.map (fun result =>
                   let item :=
                     List.find (fun i => String.eqb (it_sku i) (br_sku result))
                       itemsToUpdate in
                   {| pl_sku := br_sku result;
                      pl_costPrice := costPrice <$> item;
                      pl_sellingPrice := sellingPrice <$> item;
                      pl_success := success result;
                      pl_error := errorOrNull (br_error result) |})
         results;
     zohoUpdateTimestamps :=
       foldl (fun m result =>
                if success result && assignable (br_sku result)
                then <[br_sku result := now]> m else m)
         stamps results |}.

(** *** Cleaning the price input *)

Definition isDigitOrDot (c : ascii) : bool :=
  match digit_of c with
  | Some _ => true
  | None => Ascii.eqb c "."
  end.

(** [s.replace(/[^0-9.]/g, '')]. *)
Fixpoint keepDigitsAndDots (s : string) : string :=
  match s with
  | EmptyString => EmptyString
  | String c s' =>
      if isDigitOrDot c then String c (keepDigitsAndDots s')
      else keepDigitsAndDots s'
  end.

(** [s.split('.')]. *)
Fixpoint splitDot (s : string) : list string :=
  match s with
  | EmptyString => [EmptyString]
  | String c s' =>
      if Ascii.eqb c "." then EmptyString :: splitDot s'
      else match splitDot s' with
           | p :: ps => String c p :: ps
           | [] => [String c EmptyString]
           end
  end.

(** [parts.join('')]. *)
Definition joinEmpty (parts : list string) : string :=
  List.fold_right String.append EmptyString parts.

(** The cleaning step of the [input] listener. *)
Definition cleanPriceInput (raw : string) : string :=
  let value := keepDigitsAndDots raw in
  match splitDot value with
  | p0 :: p1 :: p2 :: rest => p0 +:+ "." +:+ joinEmpty (p1 :: p2 :: rest)
  | _ => value
  end.

(** The state part of the [input] listener for a price field. *)
Definition onIdentityInput (st : State) (k raw : string) : State :=
  updateIdentityFromInput st k (cleanPriceInput raw).

(** *** escapeHtml *)

(** [s.replace(/c/g, w)] for a single character [c]. *)
Fixpoint replaceChar (c : ascii) (w : string) (s : string) : string :=
  match s with
  | EmptyString => EmptyString
  | String x s' =>
      if Ascii.eqb x c then w +:+ replaceChar c w s'
      else String x (replaceChar c w s')
  end.

(** The double quote character. *)
Definition dquote : ascii := ascii_of_N 34.

Definition escapeHtml (text : string) : string :=
  if isEmpty text then ""
  else replaceChar dquote "&quot;"
         (replaceChar ">" "&gt;"
            (replaceChar "<" "&lt;" (replaceChar "&" "&amp;" text))).

End Script.

(* ===================================================================== *)
(** ** Properties of the read endpoints of the worker *)
(* ===================================================================== *)

Module WorkerFacts.
Import JsNum JsStr Sheets Notions ParserFacts CombineFacts Worker.

(** The first description record that carries the key [k]. *)
Definition firstDescription (k : string) (l : list DescriptionItem)
    : option DescriptionItem :=
  List.find (fun d => String.eqb (ds_sku d) k) l.

(** The sheet has no column with the given (lower-case) title. *)
Definition lacksColumn (title : string) (rows : list (list string)) : Prop :=
  findIndex (headerIs title) (hd [] rows) = -1.

(** Sample description grid: the key A twice, a row without key. *)
Definition descriptionGrid : list (list string) :=
  [ ["_timestamp"; "Product ID"; "SKU"; "Description"];
    ["t"; "101"; "A"; "for doors"];
    ["t"; "102"; ""; "orphan"];
    ["t"; "101"; "A"; "for gates"] ].

(** X1: the description parser returns, in row order, one record for each
    data row whose key cell is not empty and nothing else; rows are not
    deduplicated; every record has a non-empty key. *)
Theorem parseDescriptionSheet_keyed_rows (rows : list (list string)) :
  parseDescriptionSheet rows
  = List.map (descriptionRecord (hd [] rows))
      (List.filter (fun row => negb (String.eqb (rowKey (hd [] rows) row) ""))
         (tl rows))
  /\ (forall item, In item (parseDescriptionSheet rows) -> ds_sku item <> "").
Proof.
  assert (Heq : parseDescriptionSheet rows
    = List.map (descriptionRecord (hd [] rows))
        (List.filter (fun row => negb (String.eqb (rowKey (hd [] rows) row) ""))
           (tl rows))).
  { destruct rows as [| headers [| row1 dataRows]]; try reflexivity.
    unfold parseDescriptionSheet. cbn [hd tl].
    rewrite filter_map_swap. f_equal. apply filter_ext. intros row.
    cbn. now rewrite isEmpty_eqb. }
  split; [exact Heq |].
  intros item. rewrite Heq, in_map_iff. intros (row & <- & Hin).
  apply filter_In in Hin as [_ Hk]. cbn. unfold rowKey in Hk.
  intros Hempty. rewrite Hempty in Hk. discriminate.
Qed.

Lemma parseDescriptionSheet_keyed_rows_witness :
  ds_sku (descriptionRecord (hd [] descriptionGrid) ["t"; "101"; "A"; "for gates"])
  <> ""
  /\ List.map ds_productUses (parseDescriptionSheet descriptionGrid)
     = ["for doors"; "for gates"].
Proof.
  split; [| vm_compute; reflexivity].
  apply (proj2 (parseDescriptionSheet_keyed_rows descriptionGrid)).
  vm_compute. right. left. reflexivity.
Defined.

Lemma tradeKept_inv (t : TradeItem) :
  tradeKept t = true ->
  ti_sku t <> "" /\ forall c, ti_price t = Some c -> eqb c (ofZ (-1)) = false.
Proof.
  unfold tradeKept. rewrite andb_true_iff, negb_true_iff. intros [Hk Hs]. split.
  - intros He. now rewrite He in Hk.
  - intros c Hc. rewrite Hc in Hs. cbn in Hs. now apply negb_true_iff in Hs.
Qed.

Lemma digitalKept_inv (d : DigitalItem) :
  digitalKept d = true ->
  di_sku d <> "" /\ forall c, di_price d = Some c -> eqb c (ofZ (-1)) = false.
Proof.
  unfold digitalKept. rewrite andb_true_iff, negb_true_iff. intros [Hk Hs]. split.
  - intros He. now rewrite He in Hk.
  - intros c Hc. rewrite Hc in Hs. cbn in Hs. now apply negb_true_iff in Hs.
Qed.

Lemma parseTradeIdSheet_kept (rows : list (list string)) (t : TradeItem) :
  In t (parseTradeIdSheet rows) -> tradeKept t = true.
Proof.
  destruct rows as [| headers [| row1 dataRows]]; cbn [parseTradeIdSheet];
    try (intros []).
  intros H. now apply filter_In in H.
Qed.

Lemma parseDigitalIdSheet_kept (rows : list (list string)) (incl : bool)
    (d : DigitalItem) :
  In d (parseDigitalIdSheet rows incl) -> digitalKept d = true.
Proof.
  destruct rows as [| headers [| row1 dataRows]]; cbn [parseDigitalIdSheet];
    try (intros []).
  intros H. now apply filter_In in H.
Qed.

(** A served cost: null, or a finite number other than zero. *)
Definition servedCost (c : option number) : Prop :=
  match c with
  | None => True
  | Some (S754_finite _ _ _) => True
  | Some _ => False
  end.

Definition isInfinite (x : number) : bool :=
  match x with S754_infinity _ => true | _ => false end.

Lemma jsonNumber_truthy_cost (c : number) :
  truthy c = true ->
  servedCost (jsonNumber c)
  /\ (jsonNumber c = None <-> isInfinite c = true)
  /\ (forall y, jsonNumber c = Some y -> y = c).
Proof.
  destruct c as [sg | sg | | sg m e]; cbn; try discriminate; intros _.
  - repeat split; auto; discriminate.
  - repeat split; try discriminate. now intros y [= <-].
Qed.

(** The costs of the served records, for the properties below. *)
Lemma productsPayload_costs (tradeIdRows digitalIdRows : list (list string)) :
  NoDup (List.map sku (productsPayload tradeIdRows digitalIdRows))
  /\ forall p, In p (productsPayload tradeIdRows digitalIdRows) ->
       sku p <> ""
       /\ servedCost (s1_cost (set1 p)) /\ servedCost (s2_cost (set2 p))
       /\ exists c x,
            truthy c = true /\ truthy x = true
            /\ eqb c (ofZ (-1)) = false /\ eqb x (ofZ (-1)) = false
            /\ s1_cost (set1 p) = jsonNumber c
            /\ s2_cost (set2 p) = jsonNumber x.
Proof.
  unfold productsPayload. split.
  - rewrite List.map_map. cbn.
    destruct (combine_from
                (digitalIdMapOf (parseDigitalIdSheet digitalIdRows false))
                (parseTradeIdSheet tradeIdRows) ∅) as (_ & _ & _ & _ & Hnd & _).
    exact Hnd.
  - intros p Hp. apply in_map_iff in Hp as (q & <- & Hq).
    apply combineData_origin in Hq
      as (t & d & c & x & Ht & Hd & Hc & Hx & Htr & ->).
    pose proof (parseTradeIdSheet_price _ _ _ Ht Hc) as Htc.
    apply parseTradeIdSheet_kept, tradeKept_inv in Ht as [Hk Hs].
    apply parseDigitalIdSheet_kept, digitalKept_inv in Hd as [_ Hs'].
    destruct (jsonNumber_truthy_cost c Htc) as (Hc1 & _).
    destruct (jsonNumber_truthy_cost x Htr) as (Hx1 & _).
    cbn. rewrite Hc, Hx. cbn.
    split; [exact Hk |]. split; [exact Hc1 |]. split; [exact Hx1 |].
    exists c, x. repeat split; auto.
Qed.

(** X2: every record served by [/api/products] has a non-empty key, and no
    two records share a key; each of its two costs is the cost parsed from
    its sheet, a number other than 0, NaN and the sentinel -1, as
    [JSON.stringify] writes it: unchanged when it is finite, null when it
    is infinite.  So a served cost is null or a finite number other than 0
    and -1, and it is null exactly when the cost cell parsed to an infinite
    number. *)
Theorem productsPayload_invariant (tradeIdRows digitalIdRows : list (list string)) :
  NoDup (List.map sku (productsPayload tradeIdRows digitalIdRows))
  /\ forall p, In p (productsPayload tradeIdRows digitalIdRows) ->
       sku p <> ""
       /\ servedCost (s1_cost (set1 p)) /\ servedCost (s2_cost (set2 p))
       /\ exists c x,
            truthy c = true /\ truthy x = true
            /\ eqb c (ofZ (-1)) = false /\ eqb x (ofZ (-1)) = false
            /\ s1_cost (set1 p) = jsonNumber c
            /\ s2_cost (set2 p) = jsonNumber x
            /\ (s1_cost (set1 p) = None <-> isInfinite c = true)
            /\ (s2_cost (set2 p) = None <-> isInfinite x = true)
            /\ (forall y, s1_cost (set1 p) = Some y ->
                  y = c /\ eqb y (ofZ (-1)) = false)
            /\ (forall y, s2_cost (set2 p) = Some y ->
                  y = x /\ eqb y (ofZ (-1)) = false).
Proof.
  destruct (productsPayload_costs tradeIdRows digitalIdRows) as [Hnd Hall].
  split; [exact Hnd |]. intros p Hp.
  destruct (Hall p Hp) as (Hk & Hc1 & Hx1 & c & x & Htc & Htx & Hs & Hs' & Hc & Hx).
  destruct (jsonNumber_truthy_cost c Htc) as (_ & Hc2 & Hc3).
  destruct (jsonNumber_truthy_cost x Htx) as (_ & Hx2 & Hx3).
  split; [exact Hk |]. split; [exact Hc1 |]. split; [exact Hx1 |].
  exists c, x. rewrite Hc, Hx.
  repeat (split; [solve [auto | apply Hc2 | apply Hx2] |]).
  split.
  - intros y Hy. rewrite (Hc3 y Hy). auto.
  - intros y Hy. rewrite (Hx3 y Hy). auto.
Qed.

Lemma cell_lacking (row : list string) : cell row (-1) = None.
Proof. reflexivity. Qed.

Lemma no_members_nil {A} (l : list A) : (forall x, ~ In x l) -> l = [].
Proof.
  destruct l as [| a l]; [reflexivity |]. intros H. destruct (H a). now left.
Qed.

Lemma parsed_trade_record (rows : list (list string)) (t : TradeItem) :
  In t (parseTradeIdSheet rows) ->
  exists row, t = tradeRecord (hd [] rows) row.
Proof.
  rewrite parseTradeIdSheet_rows, in_map_iff. intros (row & <- & _). now exists row.
Qed.

Lemma parsed_digital_record (rows : list (list string)) (incl : bool)
    (d : DigitalItem) :
  In d (parseDigitalIdSheet rows incl) ->
  exists row, d = digitalRecord incl (hd [] rows) row.
Proof.
  rewrite parseDigitalIdSheet_rows, in_map_iff. intros (row & <- & _).
  now exists row.
Qed.

(** X3: when either sheet lacks its "sku" column or its "price" column,
    [/api/products] serves the empty list: no row can be keyed or priced,
    and nothing is thrown. *)
Theorem productsPayload_missing_column
    (tradeIdRows digitalIdRows : list (list string)) :
  lacksColumn "sku" tradeIdRows \/ lacksColumn "price" tradeIdRows
  \/ lacksColumn "sku" digitalIdRows \/ lacksColumn "price" digitalIdRows ->
  productsPayload tradeIdRows digitalIdRows = [].
Proof.
  intros Hlack. unfold productsPayload.
  replace (combineData (parseTradeIdSheet tradeIdRows)
             (parseDigitalIdSheet digitalIdRows false)) with (@nil Product);
    [reflexivity |].
  symmetry. apply no_members_nil. intros p Hp.
  apply combineData_origin in Hp
    as (t & d & c & x & Ht & Hd & Hc & Hx & _ & _).
  pose proof (parseTradeIdSheet_kept _ _ Ht) as Hkt.
  pose proof (parseDigitalIdSheet_kept _ _ _ Hd) as Hkd.
  apply parsed_trade_record in Ht as [row ->].
  apply parsed_digital_record in Hd as [row' ->].
  unfold lacksColumn in Hlack.
  destruct Hlack as [H | [H | [H | H]]].
  - apply tradeKept_inv in Hkt as [Hk _]. apply Hk.
    cbn. unfold cellOrEmpty. now rewrite H.
  - cbn in Hc. rewrite H in Hc. discriminate.
  - apply digitalKept_inv in Hkd as [Hk _]. apply Hk.
    cbn. unfold cellOrEmpty. now rewrite H.
  - cbn in Hx. unfold cellOrEmpty in Hx. rewrite H in Hx. discriminate.
Qed.

Lemma productsPayload_invariant_witness :
  sku (jsonProduct
         (mergedOf (tradeRecord tradeHeaders ["101"; "Card"; "10"; "A"; "5"])
            (digitalRecord false digitalHeaders
               ["t"; "i"; "Card"; "£12.00"; "A"; "d"; "u"]))) <> ""
  /\ List.map (fun p => (s1_cost (set1 p), s2_cost (set2 p)))
       (productsPayload
          [tradeHeaders; ["101"; "Card"; "10"; "A"; "5"];
                         ["102"; "Badge"; "1e999"; "B"; "7"]]
          [digitalHeaders; ["t"; "i"; "Card"; "£12.00"; "A"; "d"; "u"];
                           ["t"; "i"; "Badge"; "4"; "B"; "d"; "u"]])
     = [(Some (ofZ 10), Some (ofZ 12)); (None, Some (ofZ 4))].
Proof.
  split; [| vm_compute; reflexivity].
  apply (proj2 (productsPayload_invariant tradeGrid digitalGrid)).
  vm_compute. left. reflexivity.
Defined.

Lemma productsPayload_missing_column_witness :
  productsPayload [["Product ID"; "Price"]; ["101"; "10"]] digitalGrid = [].
Proof.
  apply productsPayload_missing_column. left. vm_compute. reflexivity.
Defined.

Lemma setUsesIfAbsent_fold_lookup (l : list DescriptionItem)
    (m : gmap string string) (k : string) :
  foldl setUsesIfAbsent m l !! k
  = match m !! k with
    | Some v => Some v
    | None => ds_productUses <$> firstDescription k l
    end.
Proof.
  revert m. induction l as [| a l IH]; intros m; cbn [foldl].
  - cbn. now destruct (m !! k).
  - rewrite IH. unfold setUsesIfAbsent, firstDescription. cbn [List.find].
    destruct (String.eqb_spec (ds_sku a) k) as [-> | Hne].
    + destruct (m !! k) eqn:Hk; [now rewrite Hk |].
      now rewrite lookup_insert_eq.
    + destruct (m !! ds_sku a) eqn:Ha; [reflexivity |].
      now rewrite lookup_insert_ne.
Qed.

(** X5: [/api/descriptions] serves one entry per parsed Digital Id record,
    in order and without deduplication; the product uses of an entry are
    those of the first description record with its key, and the empty
    string when there is none. *)
Theorem descriptionsPayload_first_uses
    (digitalIdRows descriptionRows : list (list string)) :
  descriptionsPayload digitalIdRows descriptionRows
  = List.map
      (fun item =>
         {| cd_sku := di_sku item;
            cd_name := di_name item;
            cd_description := di_description item;
            cd_productUses :=
              match firstDescription (di_sku item)
                      (parseDescriptionSheet descriptionRows) with
              | Some d => ds_productUses d
              | None => ""
              end |})
      (parseDigitalIdSheet digitalIdRows true)
  /\ length (descriptionsPayload digitalIdRows descriptionRows)
     = length (parseDigitalIdSheet digitalIdRows true)
  /\ List.map cd_sku (descriptionsPayload digitalIdRows descriptionRows)
     = List.map di_sku (parseDigitalIdSheet digitalIdRows true).
Proof.
  unfold descriptionsPayload. split; [| split].
  - apply map_ext. intros item. f_equal.
    rewrite setUsesIfAbsent_fold_lookup, lookup_empty.
    now destruct (firstDescription _ _).
  - apply length_map.
  - rewrite map_map. reflexivity.
Qed.

(** **** The key sets of [/api/debug/sku-diff] *)

Lemma setAdd_spec (s : list string) (k : string) :
  NoDup s -> NoDup (setAdd s k) /\ forall x, x ∈ setAdd s k <-> x ∈ s \/ x = k.
Proof.
  intros Hnd. unfold setAdd. case_bool_decide as Hin.
  - split; [exact Hnd |]. intros x. split; [auto |]. now intros [H | ->].
  - split.
    + apply NoDup_app. split; [exact Hnd |]. split; [| apply NoDup_singleton].
      intros x Hx Hk. apply list_elem_of_singleton in Hk as ->. contradiction.
    + intros x. rewrite elem_of_app, list_elem_of_singleton. reflexivity.
Qed.

Lemma setAdd_fold {A} (f : A -> string) (l : list A) :
  forall acc, NoDup acc ->
    NoDup (foldl (fun s x => setAdd s (f x)) acc l)
    /\ forall k, k ∈ foldl (fun s x => setAdd s (f x)) acc l
                 <-> k ∈ acc \/ In k (List.map f l).
Proof.
  induction l as [| a l IH]; intros acc Hnd; cbn [foldl List.map In].
  - split; [exact Hnd |]. intros k. tauto.
  - destruct (setAdd_spec acc (f a) Hnd) as [Hnd' Hin'].
    destruct (IH _ Hnd') as [Hnd'' Hin'']. split; [exact Hnd'' |].
    intros k. rewrite Hin'', Hin'. intuition congruence.
Qed.

Lemma filter_split_length {A} (f : A -> bool) (l : list A) :
  (length (List.filter f l) + length (List.filter (fun x => negb (f x)) l)
   = length l)%nat.
Proof.
  induction l as [| a l IH]; [reflexivity |]. cbn.
  destruct (f a); cbn; lia.
Qed.

Lemma unitRank_byte (x y : ascii) : byte x = byte y -> unitRank x = unitRank y.
Proof. unfold unitRank. now intros ->. Qed.

Lemma unitRank_inj (x y : ascii) : unitRank x = unitRank y -> byte x = byte y.
Proof.
  unfold unitRank.
  assert (0 <= byte x < 256 /\ 0 <= byte y < 256) as [Hx Hy].
  { unfold byte. pose proof (N_ascii_bounded x). pose proof (N_ascii_bounded y).
    lia. }
  destruct ((238 <=? byte x) && (byte x <=? 239)) eqn:Ex,
           ((238 <=? byte y) && (byte y <=? 239)) eqn:Ey; lia.
Qed.

Global Instance codeUnitLe_total : Total CodeUnitLe.
Proof.
  intros a. induction a as [| x a IH]; intros b; [now left |].
  destruct b as [| y b]; [now right |].
  unfold CodeUnitLe in *. cbn.
  destruct (byte x =? byte y) eqn:E.
  - apply Z.eqb_eq in E. rewrite (proj2 (Z.eqb_eq _ _) (eq_sym E)). apply IH.
  - apply Z.eqb_neq in E.
    assert (E' : (byte y =? byte x) = false) by (apply Z.eqb_neq; congruence).
    rewrite E'.
    assert (unitRank x <> unitRank y) by (intros H; now apply unitRank_inj in H).
    destruct (unitRank x <? unitRank y) eqn:L; [now left | right].
    apply Is_true_true, Z.ltb_lt. apply Z.ltb_ge in L. lia.
Qed.

Global Instance codeUnitLe_trans : Transitive CodeUnitLe.
Proof.
  intros a. induction a as [| x a IH]; intros b c; [intros; exact I |].
  destruct b as [| y b]; [intros [] |].
  destruct c as [| z c]; [intros _ [] |].
  unfold CodeUnitLe in *. cbn.
  destruct (byte x =? byte y) eqn:Exy, (byte y =? byte z) eqn:Eyz;
    rewrite ?Z.eqb_eq, ?Z.eqb_neq in *.
  - rewrite (proj2 (Z.eqb_eq _ _) (eq_trans Exy Eyz)). apply IH.
  - intros _ H. apply Is_true_true, Z.ltb_lt in H.
    assert (Exz : (byte x =? byte z) = false) by (apply Z.eqb_neq; congruence).
    rewrite Exz. apply Is_true_true, Z.ltb_lt.
    now rewrite (unitRank_byte x y Exy).
  - intros H _. apply Is_true_true, Z.ltb_lt in H.
    assert (Exz : (byte x =? byte z) = false) by (apply Z.eqb_neq; congruence).
    rewrite Exz. apply Is_true_true, Z.ltb_lt.
    now rewrite <- (unitRank_byte y z Eyz).
  - intros H1 H2. apply Is_true_true, Z.ltb_lt in H1, H2.
    assert (Exz : (byte x =? byte z) = false).
    { apply Z.eqb_neq. intros E. apply unitRank_byte in E. lia. }
    rewrite Exz. apply Is_true_true, Z.ltb_lt. lia.
Qed.

Lemma sort_spec (l : list string) :
  StronglySorted CodeUnitLe (sort l) /\ sort l ≡ₚ l.
Proof.
  split; [apply StronglySorted_merge_sort; apply _ | apply merge_sort_Permutation].
Qed.

Lemma NoDup_bfilter {A} (f : A -> bool) (l : list A) :
  NoDup l -> NoDup (List.filter f l).
Proof. rewrite !NoDup_ListNoDup. apply List.NoDup_filter. Qed.

Lemma filter_elem_of (f : string -> bool) (l : list string) (k : string) :
  k ∈ List.filter f l <-> k ∈ l /\ f k = true.
Proof. rewrite !list_elem_of_In. apply filter_In. Qed.

(** X4: the key diff counts distinct keys; each side's count is the number
    of matched keys plus the number of its unmatched keys; an unmatched
    list holds exactly the keys of its side that the other side lacks,
    each once, sorted by code units, and its [count] is its length. *)
Theorem skuDiffOf_partition
    (trade : list TradeItem) (digital : list DigitalItem) :
  let d := skuDiffOf trade digital in
  (matchedCount d + count (inTradeNotDigital d) = tradeIdCount d)%nat
  /\ (matchedCount d + count (inDigitalNotTrade d) = digitalIdCount d)%nat
  /\ count (inTradeNotDigital d) = length (skus (inTradeNotDigital d))
  /\ count (inDigitalNotTrade d) = length (skus (inDigitalNotTrade d))
  /\ (forall k, k ∈ skus (inTradeNotDigital d)
                <-> In k (List.map ti_sku trade)
                    /\ ~ In k (List.map di_sku digital))
  /\ (forall k, k ∈ skus (inDigitalNotTrade d)
                <-> In k (List.map di_sku digital)
                    /\ ~ In k (List.map ti_sku trade))
  /\ NoDup (skus (inTradeNotDigital d)) /\ NoDup (skus (inDigitalNotTrade d))
  /\ StronglySorted CodeUnitLe (skus (inTradeNotDigital d))
  /\ StronglySorted CodeUnitLe (skus (inDigitalNotTrade d)).
Proof.
  cbn zeta. unfold skuDiffOf. cbn [tradeIdCount digitalIdCount matchedCount
    inTradeNotDigital inDigitalNotTrade count skus].
  set (T := foldl (fun s item => setAdd s (ti_sku item)) [] trade).
  set (D := foldl (fun s item => setAdd s (di_sku item)) [] digital).
  destruct (setAdd_fold ti_sku trade [] (NoDup_nil_2)) as [HT HTin].
  destruct (setAdd_fold di_sku digital [] (NoDup_nil_2)) as [HD HDin].
  fold T in HT, HTin. fold D in HD, HDin.
  assert (HTk : forall k, k ∈ T <-> In k (List.map ti_sku trade)).
  { intros k. rewrite HTin. rewrite elem_of_nil. tauto. }
  assert (HDk : forall k, k ∈ D <-> In k (List.map di_sku digital)).
  { intros k. rewrite HDin. rewrite elem_of_nil. tauto. }
  assert (Hhas : forall s k, setHas s k = true <-> k ∈ s)
    by (intros s k; unfold setHas; apply bool_decide_eq_true).
  assert (Hnot : forall s k, negb (setHas s k) = true <-> k ∉ s).
  { intros s k. rewrite negb_true_iff. unfold setHas.
    apply bool_decide_eq_false. }
  destruct (sort_spec (List.filter (fun k => negb (setHas D k)) T)) as [HsT HpT].
  destruct (sort_spec (List.filter (fun k => negb (setHas T k)) D)) as [HsD HpD].
  split; [apply (filter_split_length (fun k => setHas D k) T) |].
  split.
  { rewrite <- (filter_split_length (fun k => setHas T k) D). f_equal.
    apply Permutation_length, NoDup_Permutation.
    - now apply NoDup_bfilter.
    - now apply NoDup_bfilter.
    - intros k. rewrite !filter_elem_of, !Hhas. tauto. }
  split; [now rewrite HpT |]. split; [now rewrite HpD |].
  split; [intros k; rewrite HpT, filter_elem_of, Hnot, HTk, HDk; tauto |].
  split; [intros k; rewrite HpD, filter_elem_of, Hnot, HTk, HDk; tauto |].
  split; [rewrite HpT; now apply NoDup_bfilter |].
  split; [rewrite HpD; now apply NoDup_bfilter |].
  split; assumption.
Qed.

Lemma skuDiffOf_partition_witness :
  skus (inTradeNotDigital
          (skuDiffOf [tradeOf "C" None; tradeOf "A" None; tradeOf "B" None;
                      tradeOf "A" None]
             [digitalOf "D" None; digitalOf "C" None; digitalOf "B" None]))
  = ["A"]
  /\ (matchedCount
        (skuDiffOf [tradeOf "C" None; tradeOf "A" None; tradeOf "B" None;
                    tradeOf "A" None]
           [digitalOf "D" None; digitalOf "C" None; digitalOf "B" None])
      + 1 = 3)%nat.
Proof.
  split; [vm_compute; reflexivity |].
  exact (proj1 (skuDiffOf_partition
                  [tradeOf "C" None; tradeOf "A" None; tradeOf "B" None;
                   tradeOf "A" None]
                  [digitalOf "D" None; digitalOf "C" None; digitalOf "B" None])).
Defined.

(** **** Basic authentication *)

(** [parts.join(':')]. *)
Fixpoint joinColon (parts : list string) : string :=
  match parts with
  | [] => ""
  | [p] => p
  | p :: ps => p +:+ ":" +:+ joinColon ps
  end.

Lemma splitColon_not_nil (s : string) : splitColon s <> [].
Proof.
  destruct s as [| c s]; cbn; [discriminate |].
  destruct (Ascii.eqb c ":"); [discriminate |].
  destruct (splitColon s); discriminate.
Qed.

Lemma joinColon_splitColon (s : string) : joinColon (splitColon s) = s.
Proof.
  induction s as [| c s IH]; [reflexivity |]. cbn [splitColon].
  destruct (Ascii.eqb_spec c ":") as [-> | Hc].
  - pose proof (splitColon_not_nil s) as Hne.
    destruct (splitColon s) as [| p ps]; [contradiction |].
    cbn [joinColon]. cbn. now rewrite <- IH.
  - pose proof (splitColon_not_nil s) as Hne.
    destruct (splitColon s) as [| p ps]; [contradiction |].
    destruct ps as [| q ps]; cbn in *; now rewrite <- IH.
Qed.

Lemma startsWith_app (p s : string) :
  startsWith p s = true -> s = p +:+ slice (String.length p) s.
Proof.
  revert s. induction p as [| a p IH]; intros s; [reflexivity |].
  destruct s as [| b s]; cbn; [discriminate |].
  rewrite andb_true_iff. intros [Hab Hp].
  apply Ascii.eqb_eq in Hab as ->.
  change (String b s = String b (p +:+ slice (String.length p) s)).
  f_equal. now apply IH.
Qed.

Lemma slice_app (p r : string) : slice (String.length p) (p +:+ r) = r.
Proof. induction p as [| a p IH]; [now destruct r | exact IH]. Qed.

Lemma startsWith_app_refl (p r : string) : startsWith p (p +:+ r) = true.
Proof.
  induction p as [| a p IH]; [reflexivity |].
  change (Ascii.eqb a a && startsWith p (p +:+ r) = true).
  now rewrite Ascii.eqb_refl, IH.
Qed.

(** The credentials [admin:1q2w3e4r], alone or followed by a colon and
    anything. *)
Definition goodCredentials (credentials : string) : Prop :=
  credentials = "admin:1q2w3e4r"
  \/ exists rest, credentials = "admin:1q2w3e4r:" +:+ rest.

Lemma splitColon_good (credentials : string) :
  (splitColon credentials !! 0%nat = Some BASIC_AUTH_USER
   /\ splitColon credentials !! 1%nat = Some BASIC_AUTH_PASS)
  <-> goodCredentials credentials.
Proof.
  split.
  - intros [Hu Hp]. pose proof (joinColon_splitColon credentials) as Hj.
    destruct (splitColon credentials) as [| u [| p ps]]; try discriminate.
    cbn in Hu, Hp. injection Hu as ->. injection Hp as ->.
    destruct ps as [| q ps].
    + left. now rewrite <- Hj.
    + right. exists (joinColon (q :: ps)). now rewrite <- Hj.
  - intros [-> | [rest ->]]; [split; reflexivity |].
    cbn. pose proof (splitColon_not_nil rest) as Hne.
    destruct (splitColon rest); [contradiction |]. split; reflexivity.
Qed.

(** X18: a request without [Authorization] header, or whose header does
    not start with "Basic ", is refused; a header "Basic " + base64 is
    accepted exactly when the decoded text is [admin:1q2w3e4r] or starts
    with [admin:1q2w3e4r:] (only the first two colon-separated fields are
    compared); when the base64 part does not decode, the check throws. *)
Theorem checkBasicAuth_accepts (header : string) :
  checkBasicAuth None = Some false
  /\ (startsWith "Basic " header = false ->
       checkBasicAuth (Some header) = Some false)
  /\ (checkBasicAuth (Some header) = Some true
       <-> exists b64 credentials,
             header = "Basic " +:+ b64
             /\ atob b64 = Some credentials
             /\ goodCredentials credentials)
  /\ (checkBasicAuth (Some header) = None
       <-> exists b64, header = "Basic " +:+ b64 /\ atob b64 = None).
Proof.
  split; [reflexivity |]. split.
  { intros H. unfold checkBasicAuth. rewrite H. now rewrite orb_true_r. }
  assert (Hpre : forall b64, startsWith "Basic " ("Basic " +:+ b64) = true)
    by (intros; apply startsWith_app_refl).
  assert (Hsl : forall b64, slice 6 ("Basic " +:+ b64) = b64)
    by (intros; apply (slice_app "Basic ")).
  split.
  - split.
    + unfold checkBasicAuth. destruct (isEmpty header); [discriminate |]. cbn [orb].
      destruct (startsWith "Basic " header) eqn:Hs; [| discriminate]. cbn [negb].
      apply startsWith_app in Hs. cbn [String.length] in Hs.
      destruct (atob (slice 6 header)) as [credentials |] eqn:Ha; [| discriminate].
      intros [= Hok]. apply andb_true_iff in Hok as [Hu Hp].
      apply bool_decide_eq_true in Hu, Hp.
      exists (slice 6 header), credentials.
      split; [exact Hs |]. split; [exact Ha |].
      now apply splitColon_good.
    + intros (b64 & credentials & -> & Ha & Hgood).
      unfold checkBasicAuth. cbn [isEmpty append orb].
      rewrite (Hpre b64). cbn [negb]. rewrite (Hsl b64), Ha.
      apply splitColon_good in Hgood as [Hu Hp]. rewrite Hu, Hp.
      now rewrite !bool_decide_eq_true_2.
  - split.
    + unfold checkBasicAuth. destruct (isEmpty header); [discriminate |]. cbn [orb].
      destruct (startsWith "Basic " header) eqn:Hs; [| discriminate]. cbn [negb].
      apply startsWith_app in Hs. cbn [String.length] in Hs.
      destruct (atob (slice 6 header)) eqn:Ha; [discriminate |].
      intros _. now exists (slice 6 header).
    + intros (b64 & -> & Ha). unfold checkBasicAuth. cbn [isEmpty append orb].
      rewrite (Hpre b64). cbn [negb]. now rewrite (Hsl b64), Ha.
Qed.

Lemma checkBasicAuth_accepts_witness :
  checkBasicAuth (Some "Basic YWRtaW46MXEydzNlNHI6eA==") = Some true
  /\ atob "YWRtaW46MXEydzNlNHI6eA==" = Some "admin:1q2w3e4r:x"
  /\ checkBasicAuth (Some "Bearer abc") = Some false
  /\ checkBasicAuth (Some "Basic YWRtaW4=") = Some false
  /\ checkBasicAuth (Some "Basic a") = None.
Proof.
  split.
  { apply (proj1 (proj2 (proj2 (checkBasicAuth_accepts
             "Basic YWRtaW46MXEydzNlNHI6eA==")))).
    exists "YWRtaW46MXEydzNlNHI6eA==", "admin:1q2w3e4r:x".
    split; [reflexivity |]. split; [vm_compute; reflexivity |].
    right. now exists "x". }
  repeat split; vm_compute; reflexivity.
Defined.

End WorkerFacts.

(* ===================================================================== *)
(** ** Properties of the single update, stock and rate endpoints *)
(* ===================================================================== *)

Module EndpointFacts.
Import JsNum JsStr Zoho Notions BatchFacts Endpoints.

(** The request for one item, as the single-update endpoint reads it. *)
Definition requestOf (i : Item) : UpdateRequest :=
  UpdateJson {| ub_sku := Some (it_sku i);
                ub_costPrice := costPrice i;
                ub_sellingPrice := sellingPrice i |}.

(** The last item of a stock listing that sets the stock of the key [k]. *)
Definition lastStock (k : string) (l : list StockItem) : option StockItem :=
  List.find (fun i => bool_decide (sk_sku i = Some k)
                      && bool_decide (stock_on_hand i <> None))
    (List.rev l).

(** An item that assigns [null] under the key [__proto__]. *)
Definition nullsPrototype (i : StockItem) : bool :=
  bool_decide (sk_sku i = Some "__proto__")
  && match stock_on_hand i with Some None => true | _ => false end.

(** A listing with the key [__proto__]: a stock, then [null], then a
    stock. *)
Definition protoListing : list StockItem :=
  [ {| sk_sku := Some "__proto__"; stock_on_hand := Some (Some (ofZ 4)) |};
    {| sk_sku := Some "__proto__"; stock_on_hand := Some None |};
    {| sk_sku := Some "__proto__"; stock_on_hand := Some (Some (ofZ 5)) |} ].

(** A rate that is absent, or a finite number other than zero. *)
Definition usableRate (r : option number) : Prop :=
  match r with
  | None => True
  | Some (S754_finite _ _ _) => True
  | Some _ => False
  end.

(** The first item of the sample batch. *)
Definition itemA : Item :=
  {| it_sku := "A"; costPrice := Some (ofZ 10); sellingPrice := Some (ofZ 12) |}.

(** A remote system that knows the key "A" but answers its update without
    the updated item. *)
Definition respondNoItem (h : list Call) (c : Call) : Reply :=
  match c with
  | UpdateCall _ _ _ _ =>
      Json {| error := None; access_token := None; code := Some 0;
              message := Some "updated"; items := None; item := None |}
  | _ => respondButB h c
  end.

Section Remote.
Variable respond : list Call -> Call -> Reply.

(** X6: the single-update endpoint never lets an exception escape; a
    request without key is refused before any remote call; an update is
    sent only after the lookup returned an item, and then to that item's id
    with the prices of the request; a 404 or 400 answer means no update was
    sent, a 200 answer means exactly one was. *)
Theorem zohoUpdate_calls (request : UpdateRequest) (h : list Call) :
  exists resp h',
    zohoUpdate respond request h = (inr resp, h')
    /\ (forall body, request = UpdateJson body ->
          truthyStr (ub_sku body) = false ->
          resp = UpdateBad400 "SKU is required" /\ h' = h)
    /\ (updates h' = updates h
        \/ exists body tok z h1 h2,
             request = UpdateJson body
             /\ zohoSearchItemBySku respond tok (default "" (ub_sku body)) h1
                = (inr (Some z), h2)
             /\ updates h'
                = updates h
                  ++ [(item_id z, ub_costPrice body, ub_sellingPrice body)])
    /\ (forall r, resp = Updated200 r ->
          updates h' = updates h ++ [(up_itemId r, up_costPrice r, up_sellingPrice r)]
          /\ lookups h' = lookups h ++ [up_sku r])
    /\ (forall e, resp = UpdateNotFound404 e \/ resp = UpdateBad400 e ->
          updates h' = updates h).
Proof.
  unfold zohoUpdate, tryCatch.
  destruct request as [msg | body].
  { cbn. eexists _, _. split; [reflexivity |].
    split; [intros ? [=] |]. split; [now left |].
    split; [intros r [=] | now intros e [[=] | [=]]]. }
  destruct (truthyStr (ub_sku body)) eqn:Hsku; cbn [negb].
  2:{ cbn. eexists _, _. split; [reflexivity |].
      split; [intros b [= <-] _; now split |]. split; [now left |].
      split; [intros r [=] | reflexivity]. }
  unfold bind at 1.
  pose proof (getZohoAccessToken_calls respond h) as Ht.
  destruct (getZohoAccessToken respond h) as [[msg | tok] h1]; cbn in Ht; subst h1.
  { eexists _, _. split; [reflexivity |].
    split; [intros b [= <-]; congruence |].
    assert (Hu : updates (h ++ [TokenCall]) = updates h)
      by (unfold updates; rewrite omap_app; cbn; now rewrite app_nil_r).
    split; [now left |].
    split; [intros r [=] | intros e _; exact Hu]. }
  unfold bind at 1.
  pose proof (zohoSearchItemBySku_calls respond tok (default "" (ub_sku body))
                (h ++ [TokenCall])) as Hs.
  destruct (zohoSearchItemBySku respond tok (default "" (ub_sku body))
              (h ++ [TokenCall])) as [[msg | [z |]] h2] eqn:Hsearch;
    cbn in Hs; subst h2.
  - eexists _, _. split; [reflexivity |].
    split; [intros b [= <-]; congruence |].
    assert (Hu : updates ((h ++ [TokenCall])
                          ++ [SearchCall tok (default "" (ub_sku body))])
                 = updates h)
      by (unfold updates; rewrite !omap_app; cbn; now rewrite !app_nil_r).
    split; [now left |].
    split; [intros r [=] | intros e _; exact Hu].
  - unfold bind at 1.
    pose proof (zohoUpdateItemPrices_calls respond tok (item_id z)
                  (ub_costPrice body) (ub_sellingPrice body)
                  ((h ++ [TokenCall])
                   ++ [SearchCall tok (default "" (ub_sku body))])) as Hu.
    assert (Hupd : updates (((h ++ [TokenCall])
                     ++ [SearchCall tok (default "" (ub_sku body))])
                     ++ [UpdateCall tok (item_id z) (ub_costPrice body)
                           (ub_sellingPrice body)])
                   = updates h
                     ++ [(item_id z, ub_costPrice body, ub_sellingPrice body)])
      by (unfold updates; rewrite !omap_app; cbn; now rewrite !app_nil_r).
    assert (Hlook : lookups (((h ++ [TokenCall])
                     ++ [SearchCall tok (default "" (ub_sku body))])
                     ++ [UpdateCall tok (item_id z) (ub_costPrice body)
                           (ub_sellingPrice body)])
                   = lookups h ++ [default "" (ub_sku body)])
      by (unfold lookups; rewrite !omap_app; cbn; now rewrite !app_nil_r).
    destruct (zohoUpdateItemPrices respond tok (item_id z) (ub_costPrice body)
                (ub_sellingPrice body)
                ((h ++ [TokenCall])
                 ++ [SearchCall tok (default "" (ub_sku body))]))
      as [[msg | [u |]] h3]; cbn in Hu; subst h3;
      (eexists _, _; split; [reflexivity |];
       split; [intros b [= <-]; congruence |];
       split; [right; exists body, tok, z, (h ++ [TokenCall]); eexists;
               split; [reflexivity |]; split; [exact Hsearch | exact Hupd] |]).
    + split; [intros r [=] | now intros e [[=] | [=]]].
    + split; [| now intros e [[=] | [=]]].
      intros r [= <-]. cbn. split; [exact Hupd | exact Hlook].
    + split; [intros r [=] | now intros e [[=] | [=]]].
  - eexists _, _. split; [reflexivity |].
    split; [intros b [= <-]; congruence |].
    assert (Hu : updates ((h ++ [TokenCall])
                          ++ [SearchCall tok (default "" (ub_sku body))])
                 = updates h)
      by (unfold updates; rewrite !omap_app; cbn; now rewrite !app_nil_r).
    split; [now left |].
    split; [intros r [=] | intros e _; exact Hu].
Qed.

Lemma truthyStr_nonempty (k : string) : k <> "" -> truthyStr (Some k) = true.
Proof. destruct k; [congruence | reflexivity]. Qed.

(** The single-update endpoint, read off the outcomes of its three calls. *)
Lemma zohoUpdate_eval (i : Item) (h : list Call) :
  it_sku i <> "" ->
  zohoUpdate respond (requestOf i) h
  = match getZohoAccessToken respond h with
    | (inl msg, h1) => (inr (UpdateError500 msg), h1)
    | (inr tok, h1) =>
        match zohoSearchItemBySku respond tok (it_sku i) h1 with
        | (inl msg, h2) => (inr (UpdateError500 msg), h2)
        | (inr None, h2) =>
            (inr (UpdateNotFound404 ("Item not found with SKU: " +:+ it_sku i)),
             h2)
        | (inr (Some z), h2) =>
            match zohoUpdateItemPrices respond tok (item_id z) (costPrice i)
                    (sellingPrice i) h2 with
            | (inl msg, h3) => (inr (UpdateError500 msg), h3)
            | (inr None, h3) => (inr (UpdateError500 nameOfUndefined), h3)
            | (inr (Some u), h3) =>
                (inr (Updated200
                        {| up_sku := it_sku i; up_itemId := item_id z;
                           up_itemName := name u;
                           up_costPrice := costPrice i;
                           up_sellingPrice := sellingPrice i |}), h3)
            end
        end
    end.
Proof.
  intros Hk. unfold zohoUpdate, requestOf, tryCatch.
  cbn [ub_sku ub_costPrice ub_sellingPrice default].
  rewrite (truthyStr_nonempty _ Hk). cbn [negb]. unfold bind, ret, throw, id.
  destruct (getZohoAccessToken respond h) as [[msg | tok] h1]; [reflexivity |].
  destruct (zohoSearchItemBySku respond tok (it_sku i) h1)
    as [[msg | [z |]] h2]; try reflexivity.
  destruct (zohoUpdateItemPrices respond tok (item_id z) (costPrice i)
              (sellingPrice i) h2) as [[msg | [u |]] h3]; reflexivity.
Qed.

(** A batch of one item, read off the outcomes of the same calls. *)
Lemma batchUpdate_one_eval (i : Item) (h : list Call) :
  batchUpdate respond (BodyJson (Some [i])) h
  = match getZohoAccessToken respond h with
    | (inl msg, h1) => (inr (ServerError500 msg), h1)
    | (inr tok, h1) =>
        (inr (Ok200 [fst (applyOne respond tok i h1)]),
         snd (applyOne respond tok i h1))
    end.
Proof.
  unfold batchUpdate, tryCatch. unfold bind at 1.
  destruct (getZohoAccessToken respond h) as [[msg | tok] h1]; [reflexivity |].
  unfold bind. rewrite forOf_propagate. rewrite propagate_cons. reflexivity.
Qed.

(** X7: for an item with a key, the single-update endpoint and a batch of
    that one item make the same remote calls; a 200 answer of the former
    goes with the result [success: true] of the latter, a 404 answer with
    the result "Item not found"; the converse fails in one case only: when
    the update reply carries no item, the batch reports success and the
    single endpoint answers 500 after the update was sent. *)
Theorem zohoUpdate_agrees_with_batch (i : Item) (h : list Call) :
  it_sku i <> "" ->
  snd (zohoUpdate respond (requestOf i) h)
  = snd (batchUpdate respond (BodyJson (Some [i])) h)
  /\ (forall r, fst (zohoUpdate respond (requestOf i) h) = inr (Updated200 r) ->
        fst (batchUpdate respond (BodyJson (Some [i])) h)
        = inr (Ok200 [succeeded (it_sku i)]))
  /\ (forall e, fst (zohoUpdate respond (requestOf i) h)
                = inr (UpdateNotFound404 e) ->
        fst (batchUpdate respond (BodyJson (Some [i])) h)
        = inr (Ok200 [failed (it_sku i) "Item not found"]))
  /\ (fst (batchUpdate respond (BodyJson (Some [i])) h)
      = inr (Ok200 [succeeded (it_sku i)]) ->
      (exists r, fst (zohoUpdate respond (requestOf i) h) = inr (Updated200 r))
      \/ fst (zohoUpdate respond (requestOf i) h)
         = inr (UpdateError500 nameOfUndefined)).
Proof.
  intros Hk. rewrite (zohoUpdate_eval i h Hk), batchUpdate_one_eval.
  destruct (getZohoAccessToken respond h) as [[msg | tok] h1].
  { cbn. repeat split; discriminate. }
  unfold applyOne.
  destruct (zohoSearchItemBySku respond tok (it_sku i) h1)
    as [[msg | [z |]] h2].
  - cbn. repeat split; discriminate.
  - destruct (zohoUpdateItemPrices respond tok (item_id z) (costPrice i)
                (sellingPrice i) h2) as [[msg | [u |]] h3]; cbn.
    + repeat split; discriminate.
    + repeat split; try discriminate. intros _. left. eauto.
    + repeat split; try discriminate. intros _. now right.
  - cbn. repeat split; discriminate.
Qed.

End Remote.

Lemma zohoUpdate_calls_witness :
  exists resp h',
    zohoUpdate respondButB (requestOf (itemA)) [] = (inr resp, h')
    /\ updates h' = [("id-A", Some (ofZ 10), Some (ofZ 12))].
Proof.
  destruct (zohoUpdate_calls respondButB (requestOf itemA) [])
    as (resp & h' & Heq & _ & _ & H200 & _).
  exists resp, h'. split; [exact Heq |].
  assert (Hrun : zohoUpdate respondButB (requestOf itemA) []
                 = (inr (Updated200
                           {| up_sku := "A"; up_itemId := "id-A";
                              up_itemName := "id-A";
                              up_costPrice := Some (ofZ 10);
                              up_sellingPrice := Some (ofZ 12) |}),
                    [TokenCall; SearchCall (Some "tok") "A";
                     UpdateCall (Some "tok") "id-A" (Some (ofZ 10))
                       (Some (ofZ 12))]))
    by (vm_compute; reflexivity).
  rewrite Hrun in Heq. injection Heq as <- <-.
  exact (proj1 (H200 _ eq_refl)).
Defined.

Lemma zohoUpdate_agrees_with_batch_witness :
  snd (zohoUpdate respondNoItem (requestOf itemA) [])
  = snd (batchUpdate respondNoItem (BodyJson (Some [itemA])) [])
  /\ fst (batchUpdate respondNoItem (BodyJson (Some [itemA])) [])
     = inr (Ok200 [succeeded "A"])
  /\ fst (zohoUpdate respondNoItem (requestOf itemA) [])
     = inr (UpdateError500 nameOfUndefined).
Proof.
  split; [| split; vm_compute; reflexivity].
  apply (proj1 (zohoUpdate_agrees_with_batch respondNoItem itemA []
                  ltac:(discriminate))).
Defined.

(** **** Stock levels *)

Lemma find_app_or {A} (f : A -> bool) (l1 l2 : list A) :
  List.find f (l1 ++ l2)
  = match List.find f l1 with
    | Some x => Some x
    | None => List.find f l2
    end.
Proof.
  induction l1 as [| a l1 IH]; [reflexivity |]. cbn.
  now destruct (f a).
Qed.

Lemma setStock_keeps_null (o : StockObject) (i : StockItem) :
  prototypeIsNull o = true -> prototypeIsNull (setStock o i) = true.
Proof.
  intros H. unfold setStock, assignStock.
  destruct (sk_sku i) as [k |]; [| exact H].
  destruct (stock_on_hand i) as [v |]; [| exact H].
  destruct (isEmpty k); [exact H |].
  rewrite H, andb_false_r.
  now destruct (ownProps o !! k).
Qed.

(** Under a key that reaches no setter, an assignment stores the value. *)
Lemma assignStock_lookup (o : StockObject) (k : string) (v : option number) :
  k <> "__proto__" \/ prototypeIsNull o = true ->
  ownProps (assignStock o k v) = <[k := v]> (ownProps o).
Proof.
  intros Hk. unfold assignStock.
  destruct (ownProps o !! k); [reflexivity |].
  destruct Hk as [Hk | Hk].
  - apply String.eqb_neq in Hk. now rewrite Hk.
  - now rewrite Hk, andb_false_r.
Qed.

Lemma assignStock_lookup_ne (o : StockObject) (k k' : string)
    (v : option number) :
  k' <> k -> ownProps (assignStock o k v) !! k' = ownProps o !! k'.
Proof.
  intros Hk. unfold assignStock.
  destruct (ownProps o !! k); cbn; [now rewrite lookup_insert_ne by congruence |].
  destruct (String.eqb k "__proto__" && negb (prototypeIsNull o)).
  - now destruct v.
  - cbn. now rewrite lookup_insert_ne by congruence.
Qed.

Lemma setStock_fold_lookup (l : list StockItem) (o : StockObject) (k : string) :
  k <> "" -> k <> "__proto__" \/ prototypeIsNull o = true ->
  ownProps (foldl setStock o l) !! k
  = match lastStock k l with
    | Some i => stock_on_hand i
    | None => ownProps o !! k
    end.
Proof.
  intros Hk Hok. revert o Hok.
  induction l as [| a l IH]; intros o Hok; [reflexivity |].
  cbn [foldl]. rewrite IH.
  2:{ destruct Hok as [Hok | Hok]; [now left | right].
      now apply setStock_keeps_null. }
  unfold lastStock. cbn [List.rev]. rewrite find_app_or.
  destruct (List.find _ (List.rev l)) as [i |]; [reflexivity |].
  cbn [List.find]. unfold setStock.
  destruct (sk_sku a) as [k' |] eqn:Hsku; cbn.
  2:{ rewrite bool_decide_eq_false_2 by discriminate. reflexivity. }
  destruct (stock_on_hand a) as [v |] eqn:Hst; cbn.
  2:{ rewrite andb_false_r. reflexivity. }
  rewrite andb_true_r.
  case_bool_decide as Heq.
  - injection Heq as ->. destruct k; [congruence |]. cbn [isEmpty].
    rewrite (assignStock_lookup o _ v Hok). now rewrite lookup_insert_eq.
  - destruct (isEmpty k'); [reflexivity |].
    apply assignStock_lookup_ne. congruence.
Qed.

Lemma setStock_fold_empty_key (l : list StockItem) (o : StockObject) :
  ownProps (foldl setStock o l) !! "" = ownProps o !! "".
Proof.
  revert o. induction l as [| a l IH]; intros o; [reflexivity |].
  cbn [foldl]. rewrite IH. unfold setStock.
  destruct (sk_sku a) as [k' |]; [| reflexivity].
  destruct (stock_on_hand a); [| reflexivity].
  destruct (isEmpty k') eqn:He; [reflexivity |].
  apply assignStock_lookup_ne. intros <-. discriminate.
Qed.

(** While no item assigns [null] under the key [__proto__], the object
    keeps its prototype and gets no property of that name. *)
Lemma setStock_fold_proto (l : list StockItem) (o : StockObject) :
  prototypeIsNull o = false -> ownProps o !! "__proto__" = None ->
  Forall (fun i => nullsPrototype i = false) l ->
  prototypeIsNull (foldl setStock o l) = false
  /\ ownProps (foldl setStock o l) !! "__proto__" = None.
Proof.
  intros Hp Ho Hall. revert o Hp Ho.
  induction Hall as [| a l Ha Hall IH]; intros o Hp Ho; [now split |].
  cbn [foldl]. apply IH.
  - unfold setStock, assignStock.
    destruct (sk_sku a) as [k |] eqn:Hsku; [| exact Hp].
    destruct (stock_on_hand a) as [v |] eqn:Hst; [| exact Hp].
    destruct (isEmpty k); [exact Hp |].
    destruct (ownProps o !! k); [exact Hp |].
    destruct (String.eqb k "__proto__") eqn:Hk; rewrite Hp; cbn; [| reflexivity].
    destruct v; [exact Hp |].
    apply String.eqb_eq in Hk. subst k.
    unfold nullsPrototype in Ha. rewrite Hsku, Hst in Ha.
    now rewrite bool_decide_eq_true_2 in Ha.
  - unfold setStock.
    destruct (sk_sku a) as [k |] eqn:Hsku; [| exact Ho].
    destruct (stock_on_hand a) as [v |] eqn:Hst; [| exact Ho].
    destruct (isEmpty k); [exact Ho |].
    destruct (String.eqb k "__proto__") eqn:Hk.
    + apply String.eqb_eq in Hk. subst k. unfold assignStock.
      rewrite Ho, Hp. cbn. now destruct v.
    + apply String.eqb_neq in Hk.
      rewrite assignStock_lookup_ne by congruence. exact Ho.
Qed.

(** X8: the stock object of [/api/zoho/stock] gives each key other than
    [__proto__] the stock of the last listed item that has this key and a
    [stock_on_hand] field (a later item overwrites an earlier one); items
    without key or without the field are skipped, and the empty key is
    never set.  The key [__proto__] is set only by items listed after the
    first item that carries this key with the stock [null] (that item sets
    the object's prototype to [null]), and then the last of them wins; with
    no such item the key is never set.  The response carries the own
    properties, a stock that is not a finite number written [null]. *)
Theorem stockOf_last_wins (l : list StockItem) (k : string) :
  (k <> "" -> k <> "__proto__" ->
     ownProps (stockOf l) !! k = lastStock k l ≫= stock_on_hand)
  /\ ownProps (stockOf l) !! "" = None
  /\ (Forall (fun i => nullsPrototype i = false) l ->
      ownProps (stockOf l) !! "__proto__" = None)
  /\ (forall pre i post,
        l = pre ++ i :: post ->
        Forall (fun j => nullsPrototype j = false) pre ->
        nullsPrototype i = true ->
        ownProps (stockOf l) !! "__proto__"
        = lastStock "__proto__" post ≫= stock_on_hand)
  /\ stockJson (stockOf l) !! k
     = (fun v => v ≫= jsonNumber) <$> (ownProps (stockOf l) !! k)
  /\ (forall tok data,
        id_code data = Some 0 ->
        zohoStock (inr tok) (fun _ => ItemsJson data)
        = Stock200 (stockJson (stockOf (default [] (id_items data))))).
Proof.
  split; [| split; [| split; [| split; [| split]]]].
  - intros Hk Hp. unfold stockOf. rewrite setStock_fold_lookup.
    + cbn. rewrite lookup_empty. now destruct (lastStock k l).
    + exact Hk.
    + now left.
  - unfold stockOf. rewrite setStock_fold_empty_key. apply lookup_empty.
  - intros Hall. now apply setStock_fold_proto.
  - intros pre i post -> Hpre Hi. unfold stockOf.
    rewrite foldl_app. cbn [foldl].
    destruct (setStock_fold_proto pre emptyObject eq_refl (lookup_empty _) Hpre)
      as [Hp Ho].
    set (o := foldl setStock emptyObject pre) in *.
    unfold nullsPrototype in Hi. apply andb_true_iff in Hi as [Hs Hn].
    apply bool_decide_eq_true in Hs.
    destruct (stock_on_hand i) as [[v |] |] eqn:Hst; try discriminate.
    assert (Hset : setStock o i
                   = {| ownProps := ownProps o; prototypeIsNull := true |}).
    { unfold setStock, assignStock. rewrite Hs, Hst. cbn [isEmpty].
      now rewrite Ho, Hp. }
    rewrite Hset, setStock_fold_lookup; [| discriminate | now right].
    cbn. rewrite Ho. now destruct (lastStock "__proto__" post).
  - unfold stockJson. apply lookup_fmap.
  - intros tok data Hc. unfold zohoStock. now rewrite Hc.
Qed.

Lemma stockOf_last_wins_witness :
  ownProps
    (stockOf [ {| sk_sku := Some "A"; stock_on_hand := Some (Some (ofZ 3)) |};
               {| sk_sku := Some "A"; stock_on_hand := Some (Some (ofZ 8)) |};
               {| sk_sku := Some "A"; stock_on_hand := None |} ]) !! "A"
  = Some (Some (ofZ 8))
  /\ ownProps (stockOf protoListing) !! "__proto__" = Some (Some (ofZ 5)).
Proof.
  split.
  - rewrite (proj1 (stockOf_last_wins _ "A")) by discriminate.
    vm_compute. reflexivity.
  - rewrite (proj1 (proj2 (proj2 (proj2 (stockOf_last_wins protoListing "A"))))
               [ {| sk_sku := Some "__proto__";
                    stock_on_hand := Some (Some (ofZ 4)) |} ]
               {| sk_sku := Some "__proto__"; stock_on_hand := Some None |}
               [ {| sk_sku := Some "__proto__";
                    stock_on_hand := Some (Some (ofZ 5)) |} ]
               eq_refl).
    + vm_compute. reflexivity.
    + repeat constructor.
    + reflexivity.
Defined.

(** **** The exchange rate *)

Lemma jsonNumber_usable (x : number) : usableRate (jsonNumber x) \/
  jsonNumber x = Some (S754_zero false).
Proof. destruct x; cbn; auto. Qed.

Lemma find_first_split {A} (f : A -> bool) (l : list A) (x : A) :
  List.find f l = Some x ->
  exists pre post, l = pre ++ x :: post /\ f x = true
                   /\ Forall (fun y => f y = false) pre.
Proof.
  induction l as [| a l IH]; [discriminate |]. cbn.
  destruct (f a) eqn:Ha.
  - intros [= ->]. exists [], l. repeat split; auto.
  - intros H. destruct (IH H) as (pre & post & -> & Hx & Hpre).
    exists (a :: pre), post. repeat split; auto.
Qed.

Lemma find_first {A} (f : A -> bool) (pre post : list A) (x : A) :
  Forall (fun y => f y = false) pre -> f x = true ->
  List.find f (pre ++ x :: post) = Some x.
Proof.
  intros Hpre Hx. induction Hpre as [| a pre Ha Hpre IH]; cbn.
  - now rewrite Hx.
  - now rewrite Ha.
Qed.

(** X9: when the feed is ok and has an observation whose [OBS] is not
    null, the rate endpoint answers (status 200) with the first such
    observation: its date, and its [OBS] read as a number, which is written
    [null] when it is not a finite number; it answers 200 in no other case:
    when every observation has a null [OBS] (or there is none), or when the
    feed is not ok, the answer is an error (status 500). *)
Theorem exchangeRateEndpoint_first_observation (data : list Observation) :
  (forall pre latest post,
     data = pre ++ latest :: post ->
     Forall (fun d => OBS d = ObsNull) pre ->
     OBS latest <> ObsNull ->
     exchangeRateEndpoint (FeedJson data)
     = Rate200 {| rate := jsonNumber (parseObs (OBS latest));
                  date := PERIOD latest;
                  pair := "EUR/GBP" |})
  /\ (forall body,
        exchangeRateEndpoint (FeedJson data) = Rate200 body ->
        exists pre latest post,
          data = pre ++ latest :: post
          /\ Forall (fun d => OBS d = ObsNull) pre
          /\ OBS latest <> ObsNull
          /\ date body = PERIOD latest
          /\ rate body = jsonNumber (parseObs (OBS latest))
          /\ rate body <> Some NaN /\ rate body <> Some Infinity)
  /\ ((exists d, In d data /\ OBS d <> ObsNull)
      <-> exists body, exchangeRateEndpoint (FeedJson data) = Rate200 body)
  /\ (Forall (fun d => OBS d = ObsNull) data ->
      exchangeRateEndpoint (FeedJson data) = RateError500 obsOfUndefined)
  /\ exchangeRateEndpoint FeedNotOk
     = RateError500 "Failed to fetch exchange rate".
Proof.
  assert (Hnull : forall d, notNullObs d = false <-> OBS d = ObsNull).
  { intros d. unfold notNullObs. destruct (OBS d); split; congruence. }
  assert (Hnot : forall d, notNullObs d = true <-> OBS d <> ObsNull).
  { intros d. unfold notNullObs. destruct (OBS d); split; congruence. }
  split; [| split; [| split; [| split; [| reflexivity]]]].
  - intros pre latest post -> Hpre Hl. unfold exchangeRateEndpoint.
    rewrite (find_first notNullObs pre post latest); [reflexivity | | now apply Hnot].
    eapply Forall_impl; [exact Hpre |]. intros d. apply Hnull.
  - intros body. unfold exchangeRateEndpoint.
    destruct (List.find notNullObs data) as [latest |] eqn:Hf; [| discriminate].
    intros [= <-]. apply find_first_split in Hf as (pre & post & -> & Hl & Hpre).
    exists pre, latest, post. cbn. split; [reflexivity |].
    split.
    { eapply Forall_impl; [exact Hpre |]. intros d. apply Hnull. }
    split; [now apply Hnot |].
    split; [reflexivity |]. split; [reflexivity |].
    split; now destruct (parseObs (OBS latest)).
  - unfold exchangeRateEndpoint. split.
    + intros (d & Hin & Hd).
      destruct (List.find notNullObs data) as [latest |] eqn:Hf; [eauto |].
      apply (find_none _ _ Hf) in Hin. apply Hnull in Hin. contradiction.
    + intros [body Hb].
      destruct (List.find notNullObs data) as [latest |] eqn:Hf; [| discriminate].
      apply find_some in Hf as [Hin Hl]. exists latest.
      split; [exact Hin | now apply Hnot].
  - intros Hall. unfold exchangeRateEndpoint.
    destruct (List.find notNullObs data) as [latest |] eqn:Hf; [| reflexivity].
    apply find_some in Hf as [Hin Hl]. rewrite Forall_forall in Hall.
    apply list_elem_of_In, Hall in Hin. apply Hnot in Hl. contradiction.
Qed.

Lemma exchangeRateEndpoint_first_observation_witness :
  exchangeRateEndpoint
    (FeedJson [ {| OBS := ObsNull; PERIOD := Some "2025-01-03" |};
                {| OBS := ObsText "0.8312"; PERIOD := Some "2025-01-02" |};
                {| OBS := ObsText "0.8290"; PERIOD := Some "2025-01-01" |} ])
  = Rate200 {| rate := jsonNumber (parseObs (ObsText "0.8312"));
               date := Some "2025-01-02"; pair := "EUR/GBP" |}
  /\ jsonNumber (parseObs (ObsText "0.8312")) = Some (parseFloat "0.8312")
  /\ exchangeRateEndpoint (FeedJson [ {| OBS := ObsNull; PERIOD := None |} ])
     = RateError500 obsOfUndefined.
Proof.
  split; [| split; [vm_compute; reflexivity |]].
  - apply (proj1 (exchangeRateEndpoint_first_observation
                    [ {| OBS := ObsNull; PERIOD := Some "2025-01-03" |};
                      {| OBS := ObsText "0.8312"; PERIOD := Some "2025-01-02" |};
                      {| OBS := ObsText "0.8290"; PERIOD := Some "2025-01-01" |} ])
             [ {| OBS := ObsNull; PERIOD := Some "2025-01-03" |} ]
             {| OBS := ObsText "0.8312"; PERIOD := Some "2025-01-02" |}
             [ {| OBS := ObsText "0.8290"; PERIOD := Some "2025-01-01" |} ]
             eq_refl).
    + repeat constructor.
    + discriminate.
  - apply (proj1 (proj2 (proj2 (proj2
             (exchangeRateEndpoint_first_observation
                [ {| OBS := ObsNull; PERIOD := None |} ]))))).
    repeat constructor.
Defined.

End EndpointFacts.

(* ===================================================================== *)
(** ** Properties of the browser script: diagnostics and page state *)
(* ===================================================================== *)

Module ScriptFacts.
Import JsNum JsStr Sheets JsObj Pricing Zoho Notions PricingFacts ParserFacts
  CombineFacts BatchFacts Worker Endpoints Script.

(** Every stored override is a number that is not negative. *)
Definition overridesValid (st : State) : Prop :=
  forall k v, identityOverrides st !! k = Some v ->
    isNaN v = false /\ leb (ofZ 0) v = true.

(** Neither map has a property of its own under the key [__proto__]. *)
Definition protoFree (st : State) : Prop :=
  identityOverrides st !! "__proto__" = None
  /\ identitySelections st !! "__proto__" = None.

(** The rate is absent or a number other than zero. *)
Definition rateValid (st : State) : Prop :=
  forall r, exchangeRate st = Some r -> truthy r = true.

(** One user or network event on the page. *)
Inductive Step : State -> State -> Prop :=
| StepInput st k raw : Step st (onIdentityInput st k raw)
| StepDropdown st k selection : Step st (updateIdentityFromDropdown st k selection)
| StepFillAll st productData selection :
    Step st (fillAllIdentity st productData selection)
| StepRounding st value : Step st (onRoundingChange st value)
| StepRate st f : Step st (updateExchangeRateDisplay st (fetchExchangeRate f)).

(** The states the page can reach from its initial state. *)
Inductive Reachable : State -> Prop :=
| ReachInit : Reachable initialState
| ReachStep st st' : Reachable st -> Step st st' -> Reachable st'.

(** The entry written for the moment [now]. *)
Definition stamp {E} (now : string) (e : E) : Stamped E :=
  {| timestamp := now; entry := e |}.

(** The replacement of one character by [escapeHtml]. *)
Definition escapeChar (c : ascii) : string :=
  if Ascii.eqb c "&" then "&amp;"
  else if Ascii.eqb c "<" then "&lt;"
  else if Ascii.eqb c ">" then "&gt;"
  else if Ascii.eqb c dquote then "&quot;"
  else String c EmptyString.

Fixpoint escapeEach (s : string) : string :=
  match s with
  | EmptyString => EmptyString
  | String c s' => escapeChar c +:+ escapeEach s'
  end.

Fixpoint occurs (c : ascii) (s : string) : bool :=
  match s with
  | EmptyString => false
  | String x s' => Ascii.eqb x c || occurs c s'
  end.

Fixpoint countDots (s : string) : nat :=
  match s with
  | EmptyString => O
  | String c s' => (if Ascii.eqb c "." then 1 else 0) + countDots s'
  end.

Fixpoint allDigitsOrDots (s : string) : bool :=
  match s with
  | EmptyString => true
  | String c s' => isDigitOrDot c && allDigitsOrDots s'
  end.

(** The decimal digits of a string, in order. *)
Fixpoint digitsOf (s : string) : string :=
  match s with
  | EmptyString => EmptyString
  | String c s' =>
      match digit_of c with
      | Some _ => String c (digitsOf s')
      | None => digitsOf s'
      end
  end.

Lemma eqb_zero (c : number) : eqb c (ofZ 0) = isZero c.
Proof. destruct c as [s | s | | s m e]; try reflexivity; now destruct s. Qed.

(** X10: the markup is null exactly when the diff is null or the primary
    cost is zero, and is otherwise [diff / primary cost * 100]; the diff is
    null exactly when a cost is missing; a record served by [/api/products]
    never has the primary cost zero, so its markup is null exactly when its
    diff is, that is when one of its costs was served as null. *)
Theorem calculateMarkup_of_diff (p : Product) :
  (calculateDiff p = None
   <-> s1_cost (set1 p) = None \/ s2_cost (set2 p) = None)
  /\ (calculateMarkup p = None
      <-> calculateDiff p = None
          \/ exists c, s1_cost (set1 p) = Some c /\ isZero c = true)
  /\ (forall c d, s1_cost (set1 p) = Some c -> isZero c = false ->
        calculateDiff p = Some d ->
        calculateMarkup p = Some (mul (div d c) (ofZ 100)))
  /\ (forall tradeIdRows digitalIdRows,
        In p (productsPayload tradeIdRows digitalIdRows) ->
        (calculateMarkup p = None <-> calculateDiff p = None)
        /\ (calculateMarkup p = None
            <-> s1_cost (set1 p) = None \/ s2_cost (set2 p) = None)).
Proof.
  unfold calculateDiff, calculateMarkup.
  split; [| split; [| split]].
  - destruct (s1_cost (set1 p)), (s2_cost (set2 p)); split; intros H;
      try discriminate; try tauto; destruct H; discriminate.
  - destruct (s1_cost (set1 p)) as [c |], (s2_cost (set2 p)) as [x |];
      try (split; [intros _; now left | reflexivity]).
    rewrite eqb_zero. destruct (isZero c) eqn:Hz.
    + split; [intros _; right; now exists c | reflexivity].
    + split; [discriminate |].
      intros [H | (c' & [= <-] & Hz')]; [discriminate | congruence].
  - intros c d Hc Hz. rewrite Hc. destruct (s2_cost (set2 p)); [| discriminate].
    intros [= <-]. now rewrite eqb_zero, Hz.
  - intros tradeIdRows digitalIdRows Hp.
    destruct (proj2 (WorkerFacts.productsPayload_costs tradeIdRows digitalIdRows)
                p Hp) as (_ & H1 & _).
    destruct (s1_cost (set1 p)) as [c |], (s2_cost (set2 p)) as [x |];
      try (split; split; now auto).
    rewrite eqb_zero. destruct c; cbn in H1; try contradiction.
    cbn [isZero]. split; split; try (intros H; discriminate H).
    intros [H | H]; discriminate H.
Qed.

Lemma calculateMarkup_of_diff_witness :
  calculateMarkup (productOf "A" (Some (ofZ 10)) (Some (ofZ 12)))
  = Some (mul (div (ofZ 2) (ofZ 10)) (ofZ 100))
  /\ calculateMarkup (productOf "A" (Some (ofZ 0)) (Some (ofZ 12))) = None.
Proof.
  split.
  - apply (proj1 (proj2 (proj2 (calculateMarkup_of_diff
             (productOf "A" (Some (ofZ 10)) (Some (ofZ 12))))))
             (ofZ 10) (ofZ 2)); vm_compute; reflexivity.
  - apply (proj2 (proj1 (proj2 (calculateMarkup_of_diff
             (productOf "A" (Some (ofZ 0)) (Some (ofZ 12))))))).
    right. exists (ofZ 0). split; reflexivity.
Defined.

(** X11: the profit is null exactly when the selling price is null, the
    primary cost is null, or the rate is missing, zero or not a number, and
    is otherwise [sellingPrice - cost / rate]. *)
Theorem calculateProfit_null (st : State) (p : Product)
    (sellingPrice : option number) :
  (calculateProfit st p sellingPrice = None
   <-> sellingPrice = None \/ s1_cost (set1 p) = None
       \/ exchangeRate st = None
       \/ exists r, exchangeRate st = Some r /\ truthy r = false)
  /\ (forall price c r,
        sellingPrice = Some price -> s1_cost (set1 p) = Some c ->
        exchangeRate st = Some r -> truthy r = true ->
        calculateProfit st p sellingPrice = Some (sub price (div c r))).
Proof.
  unfold calculateProfit, gbpToEur. split.
  - destruct sellingPrice as [price |]; [| split; [intros _; now left | reflexivity]].
    destruct (s1_cost (set1 p)) as [c |];
      [| split; [intros _; right; now left | reflexivity]].
    destruct (exchangeRate st) as [r |];
      [| split; [intros _; right; right; now left | reflexivity]].
    destruct (truthy r) eqn:Hr.
    + split; [discriminate |].
      intros [H | [H | [H | (r' & [= <-] & H)]]]; congruence.
    + split; [intros _; right; right; right; now exists r | reflexivity].
  - intros price c r -> -> -> ->. reflexivity.
Qed.

Lemma calculateProfit_null_witness :
  calculateProfit (stateOf (Some (lit "1.25")) (ofZ 0))
    (productOf "A" (Some (ofZ 10)) (Some (ofZ 12))) (Some (ofZ 9))
  = Some (ofZ 1).
Proof.
  rewrite (proj2 (calculateProfit_null (stateOf (Some (lit "1.25")) (ofZ 0))
                    (productOf "A" (Some (ofZ 10)) (Some (ofZ 12)))
                    (Some (ofZ 9)))
             (ofZ 9) (ofZ 10) (lit "1.25") eq_refl eq_refl eq_refl eq_refl).
  vm_compute. reflexivity.
Defined.

(** **** The page state *)

Lemma calculateIdentityPrice_ext (st st' : State) (p : Product) (sel : string) :
  exchangeRate st' = exchangeRate st -> roundingValue st' = roundingValue st ->
  calculateIdentityPrice st' p sel = calculateIdentityPrice st p sel.
Proof.
  intros Hr Hv. unfold calculateIdentityPrice, applyRounding, gbpToEur.
  now rewrite Hr, Hv.
Qed.

Lemma getIdentityPrice_ext (st st' : State) (k : string) (p : Product) :
  exchangeRate st' = exchangeRate st -> roundingValue st' = roundingValue st ->
  identityOverrides st' !! k = identityOverrides st !! k ->
  identitySelections st' !! k = identitySelections st !! k ->
  getIdentityPrice st' k p = getIdentityPrice st k p.
Proof.
  intros Hr Hv Ho Hs. unfold getIdentityPrice, objGet. rewrite Ho, Hs.
  destruct (identityOverrides st !! k); [reflexivity |].
  destruct (inherits k); [reflexivity |].
  destruct (identitySelections st !! k);
    now rewrite (calculateIdentityPrice_ext st st').
Qed.

Lemma inherits_not_proto (k : string) : inherits k = false -> k <> "__proto__".
Proof. intros H ->. discriminate. Qed.

(** X12: after a rule is chosen in the dropdown of a key, the price
    reported for that key is the price computed under the chosen rule,
    whatever override the key had, unless the key names a member of
    [Object.prototype] (as "constructor" or "__proto__"): then that member
    is reported; the prices of all other keys are unchanged. *)
Theorem updateIdentityFromDropdown_clears
    (st : State) (k selection : string) (p : Product) :
  (inherits k = false ->
     getIdentityPrice (updateIdentityFromDropdown st k selection) k p
     = Price (calculateIdentityPrice st p selection))
  /\ (inherits k = true ->
       getIdentityPrice (updateIdentityFromDropdown st k selection) k p
       = Member k)
  /\ (forall k', k' <> k ->
        getIdentityPrice (updateIdentityFromDropdown st k selection) k' p
        = getIdentityPrice st k' p).
Proof.
  split; [| split].
  - intros Hi. rewrite getIdentityPrice_computed; [| apply lookup_delete_eq | exact Hi].
    cbn [identitySelections updateIdentityFromDropdown].
    rewrite objSet_lookup by now apply inherits_not_proto. cbn.
    f_equal; now apply calculateIdentityPrice_ext.
  - intros Hi. apply getIdentityPrice_inherited; [apply lookup_delete_eq | exact Hi].
  - intros k' Hne. apply getIdentityPrice_ext; try reflexivity; cbn.
    + apply lookup_delete_ne. congruence.
    + now apply objSet_lookup_ne.
Qed.

Lemma fillAllIdentity_fields (productData : list Product) (selection : string) :
  forall st,
    exchangeRate (fillAllIdentity st productData selection) = exchangeRate st
    /\ roundingValue (fillAllIdentity st productData selection)
       = roundingValue st
    /\ forall k,
         (In k (List.map sku productData) ->
            (k <> "__proto__" ->
               identitySelections (fillAllIdentity st productData selection) !! k
               = Some selection)
            /\ identityOverrides (fillAllIdentity st productData selection) !! k
               = None)
         /\ (~ In k (List.map sku productData) ->
              identitySelections (fillAllIdentity st productData selection) !! k
              = identitySelections st !! k
              /\ identityOverrides (fillAllIdentity st productData selection) !! k
                 = identityOverrides st !! k).
Proof.
  unfold fillAllIdentity.
  induction productData as [| q l IH]; intros st; cbn [foldl List.map In].
  - repeat split; tauto.
  - destruct (IH (updateIdentityFromDropdown st (sku q) selection))
      as (Hr & Hv & Hk).
    split; [exact Hr |]. split; [exact Hv |]. intros k.
    destruct (Hk k) as [Hin Hout].
    destruct (in_dec String.string_dec k (List.map sku l)) as [Hl | Hl].
    + split; [intros _; now apply Hin | intros Hn; tauto].
    + destruct (Hout Hl) as [Hs Ho]. rewrite Hs, Ho. cbn. split.
      * intros [-> | H]; [| contradiction].
        split; [intros Hp; now apply objSet_lookup | apply lookup_delete_eq].
      * intros Hn. split.
        -- apply objSet_lookup_ne. intros E. apply Hn. left. now symmetry.
        -- apply lookup_delete_ne. tauto.
Qed.

(** X13: after "fill all" with a rule, every key of the product list has
    no override left and reports the price computed under that rule,
    unless it names a member of [Object.prototype]: then that member is
    reported; any key outside the product list reports what it reported
    before. *)
Theorem fillAllIdentity_prices
    (st : State) (productData : list Product) (selection k : string)
    (p : Product) :
  (In k (List.map sku productData) -> inherits k = false ->
     getIdentityPrice (fillAllIdentity st productData selection) k p
     = Price (calculateIdentityPrice st p selection))
  /\ (In k (List.map sku productData) -> inherits k = true ->
       getIdentityPrice (fillAllIdentity st productData selection) k p
       = Member k)
  /\ (~ In k (List.map sku productData) ->
       getIdentityPrice (fillAllIdentity st productData selection) k p
       = getIdentityPrice st k p).
Proof.
  destruct (fillAllIdentity_fields productData selection st) as (Hr & Hv & Hk).
  destruct (Hk k) as [Hin Hout]. split; [| split].
  - intros H Hi. destruct (Hin H) as [Hs Ho].
    rewrite getIdentityPrice_computed by assumption.
    rewrite Hs by now apply inherits_not_proto. cbn.
    f_equal; now apply calculateIdentityPrice_ext.
  - intros H Hi. destruct (Hin H) as [_ Ho].
    now apply getIdentityPrice_inherited.
  - intros H. destruct (Hout H) as [Hs Ho].
    now apply getIdentityPrice_ext.
Qed.

Lemma fillAllIdentity_prices_witness :
  getIdentityPrice
    (fillAllIdentity
       (updateIdentityFromInput (stateOf (Some (lit "1.2")) (ofZ 0)) "A" "7")
       [productOf "A" (Some (ofZ 10)) (Some (ofZ 12))] "digitalId")
    "A" (productOf "A" (Some (ofZ 10)) (Some (ofZ 12)))
  = Price (Some (ofZ 10))
  /\ getIdentityPrice
       (fillAllIdentity (stateOf (Some (lit "1.2")) (ofZ 0))
          [productOf "constructor" (Some (ofZ 10)) (Some (ofZ 12))] "digitalId")
       "constructor" (productOf "constructor" (Some (ofZ 10)) (Some (ofZ 12)))
     = Member "constructor".
Proof.
  split.
  - rewrite (proj1 (fillAllIdentity_prices _ _ _ "A" _));
      [vm_compute; reflexivity | left; reflexivity | reflexivity].
  - apply (proj1 (proj2 (fillAllIdentity_prices _ _ _ "constructor" _)));
      [left; reflexivity | reflexivity].
Defined.

Lemma orNull_not_NaN (x : number) (r : number) :
  orNull x = Some r -> isNaN r = false.
Proof.
  unfold orNull. destruct (truthy x) eqn:E; [| discriminate].
  intros [= <-]. now destruct x.
Qed.

(** X14: after the rounding increment is changed no override is left, so
    every key reports its computed price under the new increment, unless
    it names a member of [Object.prototype], which the new, empty overrides
    object inherits as well: then that member is reported; the new
    increment is never NaN, and an unreadable or zero choice turns rounding
    off. *)
Theorem onRoundingChange_recomputes (st : State) (value k : string)
    (p : Product) :
  (inherits k = false ->
     getIdentityPrice (onRoundingChange st value) k p
     = Price (calculateIdentityPrice (onRoundingChange st value) p
                (default "" (identitySelections st !! k))))
  /\ (inherits k = true ->
       getIdentityPrice (onRoundingChange st value) k p = Member k)
  /\ isNaN (roundingValue (onRoundingChange st value)) = false
  /\ (truthy (parseFloat value) = false ->
       forall price, applyRounding (onRoundingChange st value) price = price).
Proof.
  split; [| split; [| split]].
  - intros Hi. rewrite getIdentityPrice_computed;
      [reflexivity | apply lookup_empty | exact Hi].
  - intros Hi. apply getIdentityPrice_inherited; [apply lookup_empty | exact Hi].
  - unfold onRoundingChange. cbn.
    destruct (orNull (parseFloat value)) as [r |] eqn:E; [| reflexivity].
    now apply orNull_not_NaN in E.
  - intros Hf. unfold applyRounding, onRoundingChange, orNull. cbn. rewrite Hf.
    intros [price |]; reflexivity.
Qed.

Lemma onRoundingChange_recomputes_witness :
  applyRounding (onRoundingChange (stateOf None (lit "0.5")) "none")
    (Some (lit "10.23")) = Some (lit "10.23")
  /\ getIdentityPrice
       (onRoundingChange
          (updateIdentityFromInput (stateOf None (lit "0.5")) "toString" "3")
          "0.25")
       "toString" (productOf "toString" None None)
     = Member "toString".
Proof.
  split.
  - apply (proj2 (proj2 (proj2 (onRoundingChange_recomputes
             (stateOf None (lit "0.5")) "none" "A" (productOf "A" None None))))).
    vm_compute. reflexivity.
  - apply (proj1 (proj2 (onRoundingChange_recomputes _ "0.25" "toString" _))).
    reflexivity.
Defined.

Lemma updateIdentityFromInput_valid (st : State) (k value : string) :
  overridesValid st -> overridesValid (updateIdentityFromInput st k value).
Proof.
  intros Hv. unfold updateIdentityFromInput.
  destruct (negb (isNaN (parseFloat value)) && leb (ofZ 0) (parseFloat value))
    eqn:Hok.
  - apply andb_true_iff in Hok as [Hn Hl]. apply negb_true_iff in Hn.
    intros k' v. cbn. unfold objSet.
    destruct (String.eqb k "__proto__"); [apply Hv |].
    rewrite lookup_insert.
    case_decide; [intros [= <-]; now split | apply Hv].
  - destruct (isEmpty value); [| exact Hv].
    intros k' v. cbn. unfold objDelete. rewrite lookup_delete.
    case_decide; [discriminate | apply Hv].
Qed.

Lemma updateIdentityFromDropdown_valid (st : State) (k selection : string) :
  overridesValid st -> overridesValid (updateIdentityFromDropdown st k selection).
Proof.
  intros Hv k' v. cbn. unfold objDelete. rewrite lookup_delete.
  case_decide; [discriminate | apply Hv].
Qed.

Lemma updateIdentityFromInput_rate (st : State) (k value : string) :
  exchangeRate (updateIdentityFromInput st k value) = exchangeRate st.
Proof.
  unfold updateIdentityFromInput.
  destruct (_ && _); [reflexivity |]. now destruct (isEmpty value).
Qed.

Lemma delete_keeps_proto {V} (own : gmap string V) (k : string) :
  own !! "__proto__" = None -> objDelete own k !! "__proto__" = None.
Proof.
  intros H. unfold objDelete. rewrite lookup_delete. now case_decide.
Qed.

Lemma updateIdentityFromInput_protoFree (st : State) (k value : string) :
  protoFree st -> protoFree (updateIdentityFromInput st k value).
Proof.
  intros [Ho Hs]. unfold updateIdentityFromInput.
  destruct (_ && _); [split; [now apply objSet_keeps_proto | exact Hs] |].
  destruct (isEmpty value); [| now split].
  split; [now apply delete_keeps_proto | exact Hs].
Qed.

Lemma updateIdentityFromDropdown_protoFree (st : State) (k selection : string) :
  protoFree st -> protoFree (updateIdentityFromDropdown st k selection).
Proof.
  intros [Ho Hs]. split; cbn.
  - now apply delete_keeps_proto.
  - now apply objSet_keeps_proto.
Qed.

Lemma step_keeps_valid (st st' : State) :
  Step st st' ->
  (overridesValid st -> overridesValid st')
  /\ (rateValid st -> rateValid st')
  /\ (protoFree st -> protoFree st').
Proof.
  intros HS. destruct HS as [st k raw | st k sel | st l sel | st value | st f].
  - split; [apply updateIdentityFromInput_valid |]. split.
    + unfold rateValid, onIdentityInput. now rewrite updateIdentityFromInput_rate.
    + apply updateIdentityFromInput_protoFree.
  - split; [apply updateIdentityFromDropdown_valid |].
    split; [auto | apply updateIdentityFromDropdown_protoFree].
  - split; [| split].
    + unfold fillAllIdentity. revert st.
      induction l as [| q l IH]; intros st Hv; [exact Hv |].
      cbn [foldl]. apply IH. now apply updateIdentityFromDropdown_valid.
    + unfold rateValid.
      now rewrite (proj1 (fillAllIdentity_fields l sel st)).
    + unfold fillAllIdentity. revert st.
      induction l as [| q l IH]; intros st Hv; [exact Hv |].
      cbn [foldl]. apply IH. now apply updateIdentityFromDropdown_protoFree.
  - split; [intros _ k v; cbn; now rewrite lookup_empty |].
    split; [auto |]. intros [_ Hs]. split; [apply lookup_empty | exact Hs].
  - unfold updateExchangeRateDisplay.
    destruct (fetchExchangeRate f) as [body |]; [| auto].
    destruct (rate body) as [r |]; [| auto].
    destruct (truthy r) eqn:Hr; [| auto].
    split; [auto |]. split; [| auto]. intros _ r'. cbn. now intros [= <-].
Qed.

(** X15: in every state the page can reach, each stored override is a
    number that is not negative, no override or selection is stored under
    the key [__proto__], and the rate is absent or a number other than
    zero; hence every report is a stored override, which is never negative
    or NaN, or the member of [Object.prototype] that the key names, or the
    computed price; the key [__proto__] always reports the prototype
    object; and the conversion returns null only when the amount or the
    rate is absent. *)
Theorem reachable_state_valid (st : State) :
  Reachable st ->
  overridesValid st /\ rateValid st /\ protoFree st
  /\ (forall k p v, identityOverrides st !! k = Some v ->
        getIdentityPrice st k p = Price (Some v)
        /\ isNaN v = false /\ leb (ofZ 0) v = true)
  /\ (forall k p,
        (exists v, identityOverrides st !! k = Some v
                   /\ getIdentityPrice st k p = Price (Some v)
                   /\ isNaN v = false /\ leb (ofZ 0) v = true)
        \/ (identityOverrides st !! k = None /\ inherits k = true
            /\ getIdentityPrice st k p = Member k)
        \/ (identityOverrides st !! k = None /\ inherits k = false
            /\ getIdentityPrice st k p
               = Price (calculateIdentityPrice st p
                          (default "" (identitySelections st !! k)))))
  /\ (forall p, getIdentityPrice st "__proto__" p = Member "__proto__")
  /\ (forall a, gbpToEur st (Some a) = None <-> exchangeRate st = None).
Proof.
  intros HR.
  assert (Hinv : overridesValid st /\ rateValid st /\ protoFree st).
  { induction HR as [| st st' HR IH HS].
    - split; [intros k v; cbn; now rewrite lookup_empty |].
      split; [intros r; discriminate | split; apply lookup_empty].
    - destruct IH as (Ho & Hr & Hp).
      destruct (step_keeps_valid st st' HS) as (H1 & H2 & H3). auto. }
  destruct Hinv as (Ho & Hr & Hp).
  split; [exact Ho |]. split; [exact Hr |]. split; [exact Hp |].
  split; [| split; [| split]].
  - intros k p v Hk. split; [now apply getIdentityPrice_override |].
    now apply (Ho k v).
  - intros k p. destruct (identityOverrides st !! k) as [v |] eqn:Hk.
    + left. exists v. split; [reflexivity |].
      split; [now apply getIdentityPrice_override | now apply (Ho k v)].
    + right. destruct (inherits k) eqn:Hi; [left | right].
      * split; [reflexivity |]. split; [reflexivity |].
        now apply getIdentityPrice_inherited.
      * split; [reflexivity |]. split; [reflexivity |].
        now apply getIdentityPrice_computed.
  - intros p. apply getIdentityPrice_inherited; [apply Hp | reflexivity].
  - intros a. unfold gbpToEur. unfold rateValid in Hr.
    destruct (exchangeRate st) as [r |]; [| tauto].
    rewrite (Hr r eq_refl). split; discriminate.
Qed.

Lemma reachable_state_valid_witness :
  overridesValid
    (onIdentityInput
       (updateIdentityFromDropdown initialState "A" "+20") "A" "-4.5x")
  /\ getIdentityPrice
       (onIdentityInput initialState "__proto__" "5") "__proto__"
       (productOf "__proto__" (Some (ofZ 10)) (Some (ofZ 12)))
     = Member "__proto__".
Proof.
  split.
  - apply reachable_state_valid.
    eapply ReachStep; [| apply StepInput].
    eapply ReachStep; [apply ReachInit | apply StepDropdown].
  - apply (proj1 (proj2 (proj2 (proj2 (proj2 (proj2
             (reachable_state_valid
                (onIdentityInput initialState "__proto__" "5")
                (ReachStep _ _ ReachInit
                   (StepInput initialState "__proto__" "5"))))))))).
Defined.

Lemma updateIdentityFromDropdown_clears_witness :
  getIdentityPrice
    (updateIdentityFromDropdown
       (updateIdentityFromInput
          (updateIdentityFromInput (stateOf (Some (lit "1.2")) (ofZ 0)) "A" "7")
          "B" "3")
       "A" "digitalId")
    "B" (productOf "B" (Some (ofZ 1)) (Some (ofZ 2)))
  = Price (Some (ofZ 3))
  /\ getIdentityPrice
       (updateIdentityFromDropdown
          (updateIdentityFromInput (stateOf (Some (lit "1.2")) (ofZ 0)) "A" "7")
          "A" "digitalId")
       "A" (productOf "A" (Some (ofZ 10)) (Some (ofZ 12)))
     = Price (Some (ofZ 10)).
Proof.
  split.
  - rewrite (proj2 (proj2 (updateIdentityFromDropdown_clears _ "A" "digitalId" _))
               "B") by discriminate.
    vm_compute. reflexivity.
  - rewrite (proj1 (updateIdentityFromDropdown_clears _ "A" "digitalId" _))
      by reflexivity.
    vm_compute. reflexivity.
Defined.

Lemma foldl_unshift {E} (now : string) (entries : list E) :
  forall logs : list (Stamped E),
    foldl (fun logs e => unshift logs {| timestamp := now; entry := e |})
      logs entries
    = List.rev (List.map (stamp now) entries) ++ logs.
Proof.
  induction entries as [| e l IH]; intros logs; [reflexivity |].
  cbn [foldl List.map List.rev]. rewrite IH. unfold unshift, stamp.
  now rewrite <- app_assoc.
Qed.

(** X16: saving log entries puts them, stamped with the current time,
    before all older entries, the last entry of the batch first, and keeps
    the first 1000 entries of the result; an absent or unreadable store
    counts as empty; so the log never exceeds 1000 entries and, for a
    non-empty batch, always starts with the batch's last entry. *)
Theorem saveLog_newest_first {E} (stored : Stored E) (now : string)
    (entries : list E) :
  saveLog stored now entries
  = Logs (take MAX_LOG_ENTRIES
            (List.rev (List.map (stamp now) entries) ++ getLogs stored))
  /\ (length (getLogs (saveLog stored now entries)) <= MAX_LOG_ENTRIES)%nat
  /\ length (getLogs (saveLog stored now entries))
     = Nat.min MAX_LOG_ENTRIES (length entries + length (getLogs stored))
  /\ (forall e, last entries = Some e ->
        head (getLogs (saveLog stored now entries)) = Some (stamp now e))
  /\ ((length entries + length (getLogs stored) <= MAX_LOG_ENTRIES)%nat ->
      List.map entry (getLogs (saveLog stored now entries))
      = List.rev entries ++ List.map entry (getLogs stored)).
Proof.
  assert (Heq : saveLog stored now entries
    = Logs (take MAX_LOG_ENTRIES
              (List.rev (List.map (stamp now) entries) ++ getLogs stored))).
  { unfold saveLog. now rewrite foldl_unshift. }
  rewrite Heq. cbn [getLogs].
  assert (Hlen : length (List.rev (List.map (stamp now) entries) ++ getLogs stored)
                 = (length entries + length (getLogs stored))%nat).
  { now rewrite length_app, length_rev, length_map. }
  split; [reflexivity |]. split; [rewrite length_take; lia |].
  split; [rewrite length_take, Hlen; reflexivity |]. split.
  - intros e He. apply last_Some in He as [l' ->].
    rewrite map_app, rev_app_distr. reflexivity.
  - intros Hfit. rewrite take_ge by (rewrite Hlen; exact Hfit).
    rewrite map_app, map_rev, map_map. cbn. now rewrite map_id.
Qed.

Lemma saveLog_newest_first_witness :
  head (getLogs (saveLog (Logs [stamp "t0" "old"]) "t1" ["a"; "b"]))
  = Some (stamp "t1" "b")
  /\ saveLog Corrupt "t1" ["a"; "b"] = Logs [stamp "t1" "b"; stamp "t1" "a"].
Proof.
  split; [| vm_compute; reflexivity].
  apply (proj1 (proj2 (proj2 (proj2
           (saveLog_newest_first (Logs [stamp "t0" "old"]) "t1" ["a"; "b"]))))).
  reflexivity.
Defined.

(** **** The answer to a pushed batch *)

Lemma stamps_fold_lookup (now : string) (results : list BatchResult) :
  forall (m : gmap string string) (k : string),
    foldl (fun m result =>
             if success result && assignable (br_sku result)
             then <[br_sku result := now]> m else m)
      m results !! k
    = if existsb (fun r => success r && assignable (br_sku r)
                           && String.eqb (br_sku r) k) results
      then Some now else m !! k.
Proof.
  induction results as [| r l IH]; intros m k; [reflexivity |].
  cbn [foldl existsb]. rewrite IH.
  destruct (existsb _ l); [now rewrite orb_true_r |]. rewrite orb_false_r.
  destruct (success r && assignable (br_sku r)); [| reflexivity]. cbn.
  destruct (String.eqb_spec (br_sku r) k) as [-> | Hne].
  - now rewrite lookup_insert_eq.
  - now rewrite lookup_insert_ne.
Qed.

Lemma filter_split_length_results (results : list BatchResult) :
  (length (List.filter success results)
   + length (List.filter (fun r => negb (success r)) results)
   = length results)%nat.
Proof.
  induction results as [| r l IH]; [reflexivity |]. cbn.
  destruct (success r); cbn; lia.
Qed.

Lemma batchUpdate_ABC_run :
  batchUpdate respondButB (BodyJson (Some batchABC)) []
  = (inr (Ok200 [succeeded "A"; Notions.failed "B" "You are not authorized";
                 succeeded "C"]),
     [TokenCall;
      SearchCall (Some "tok") "A";
      UpdateCall (Some "tok") "id-A" (Some (ofZ 10)) (Some (ofZ 12));
      SearchCall (Some "tok") "B";
      SearchCall (Some "tok") "C";
      UpdateCall (Some "tok") "id-C" (Some (ofZ 30)) (Some (ofZ 36))]).
Proof. vm_compute. reflexivity. Qed.

Section Remote.
Variable respond : list Call -> Call -> Reply.

Lemma batchUpdate_Ok_results (items : list Item) (h h' : list Call)
    (results : list BatchResult) :
  batchUpdate respond (BodyJson (Some items)) h = (inr (Ok200 results), h') ->
  length results = length items
  /\ List.map br_sku results = List.map it_sku items.
Proof.
  unfold batchUpdate, tryCatch. destruct items as [| i l]; [discriminate |].
  unfold bind at 1.
  destruct (getZohoAccessToken respond h) as [[msg | tok] h1]; [discriminate |].
  unfold bind. rewrite forOf_propagate. unfold ret.
  pose proof (propagate_length respond tok (i :: l) h1) as Hlen.
  pose proof (propagate_keys respond tok (i :: l) h1) as Hkeys.
  destruct (propagate respond tok (i :: l) h1) as [rs h2].
  intros [= <- _]. now split.
Qed.

(** X17: when the batch endpoint answers with results, the page counts
    every item once, as successful or as failed, writes one log entry per
    item in item order, and stamps the current time on exactly the keys
    that have a successful result (the key [__proto__] apart, which an
    assignment cannot set); the stamps of all other keys stay. *)
Theorem afterPush_accounts (items : list Item) (h h' : list Call)
    (results : list BatchResult) (now : string) (stamps : gmap string string) :
  batchUpdate respond (BodyJson (Some items)) h = (inr (Ok200 results), h') ->
  (successful (afterPush items results now stamps)
   + failed (afterPush items results now stamps) = length items)%nat
  /\ List.map pl_sku (logEntries (afterPush items results now stamps))
     = List.map it_sku items
  /\ (forall k,
        zohoUpdateTimestamps (afterPush items results now stamps) !! k
        = if existsb (fun r => success r && assignable (br_sku r)
                               && String.eqb (br_sku r) k) results
          then Some now else stamps !! k).
Proof.
  intros Hok. apply batchUpdate_Ok_results in Hok as [Hlen Hkeys].
  unfold afterPush. cbn. split; [| split].
  - rewrite <- Hlen. apply filter_split_length_results.
  - rewrite map_map. cbn. exact Hkeys.
  - intros k. apply stamps_fold_lookup.
Qed.

End Remote.

Lemma afterPush_accounts_witness :
  (successful (afterPush batchABC
                 [succeeded "A"; Notions.failed "B" "You are not authorized";
                  succeeded "C"] "t1" ∅)
   + failed (afterPush batchABC
               [succeeded "A"; Notions.failed "B" "You are not authorized";
                succeeded "C"] "t1" ∅) = 3)%nat.
Proof.
  exact (proj1 (afterPush_accounts respondButB batchABC [] _ _ "t1" ∅
                  batchUpdate_ABC_run)).
Defined.

(** **** Refreshing the rate *)

(** The page state after the rate was fetched from the worker, the worker
    having received [feed]. *)
Definition refreshRate (st : State) (feed : FeedReply) : State :=
  updateExchangeRateDisplay st
    (fetchExchangeRate (RateAnswer (exchangeRateEndpoint feed))).

Lemma jsonNumber_truthy (x r : number) :
  jsonNumber x = Some r -> truthy r = true ->
  r = x /\ exists s m e, x = S754_finite s m e.
Proof.
  destruct x as [s | s | | s m e]; cbn; try discriminate.
  - intros [= <-]. discriminate.
  - intros [= <-] _. split; [reflexivity | now exists s, m, e].
Qed.

(** X21: a refresh of the rate either leaves the page's rate as it was or
    sets it to the [OBS] of the first observation with a non-null [OBS],
    and it does the latter only when that value is a finite number other
    than zero; when the endpoint answers with an error the whole state is
    unchanged; selections, overrides and rounding are never touched. *)
Theorem refreshRate_sets_first_observation (st : State) (feed : FeedReply) :
  (exchangeRate (refreshRate st feed) = exchangeRate st
   \/ exists data latest s m e,
        feed = FeedJson data
        /\ List.find notNullObs data = Some latest
        /\ parseObs (OBS latest) = S754_finite s m e
        /\ exchangeRate (refreshRate st feed) = Some (S754_finite s m e))
  /\ (forall err, exchangeRateEndpoint feed = RateError500 err ->
        refreshRate st feed = st)
  /\ identitySelections (refreshRate st feed) = identitySelections st
  /\ identityOverrides (refreshRate st feed) = identityOverrides st
  /\ roundingValue (refreshRate st feed) = roundingValue st.
Proof.
  unfold refreshRate, updateExchangeRateDisplay, fetchExchangeRate.
  destruct (exchangeRateEndpoint feed) as [body | err] eqn:Hend.
  2:{ split; [now left | repeat split]. }
  destruct (rate body) as [r |] eqn:Hrate.
  2:{ split; [now left |]. split; [intros err [=] | repeat split]. }
  destruct (truthy r) eqn:Hr.
  2:{ split; [now left |]. split; [intros err [=] | repeat split]. }
  cbn. split; [| split; [intros err [=] | repeat split]].
  right. unfold exchangeRateEndpoint in Hend.
  destruct feed as [msg | | data]; try discriminate.
  destruct (List.find notNullObs data) as [latest |] eqn:Hf; [| discriminate].
  injection Hend as <-. cbn in Hrate.
  destruct (jsonNumber_truthy _ _ Hrate Hr) as [-> (s & m & e & Hx)].
  exists data, latest, s, m, e. rewrite Hx. repeat split; auto.
Qed.

Lemma refreshRate_sets_first_observation_witness :
  refreshRate (stateOf (Some (lit "0.83")) (ofZ 0))
    (FeedJson [ {| OBS := ObsText "n/a"; PERIOD := Some "2025-01-02" |} ])
  = stateOf (Some (lit "0.83")) (ofZ 0)
  /\ refreshRate (stateOf (Some (lit "0.83")) (ofZ 0)) FeedNotOk
     = stateOf (Some (lit "0.83")) (ofZ 0).
Proof.
  split; [vm_compute; reflexivity |].
  apply (proj1 (proj2 (refreshRate_sets_first_observation
                         (stateOf (Some (lit "0.83")) (ofZ 0)) FeedNotOk))
           "Failed to fetch exchange rate").
  reflexivity.
Defined.

(** **** Cleaning the price input *)

Lemma countDots_app (a b : string) :
  countDots (a +:+ b) = (countDots a + countDots b)%nat.
Proof.
  induction a as [| c a IH]; [reflexivity |].
  change (countDots (String c (a +:+ b))
          = (countDots (String c a) + countDots b)%nat).
  cbn. rewrite IH. lia.
Qed.

Lemma allDigitsOrDots_app (a b : string) :
  allDigitsOrDots (a +:+ b) = allDigitsOrDots a && allDigitsOrDots b.
Proof.
  induction a as [| c a IH]; [reflexivity |].
  change (allDigitsOrDots (String c (a +:+ b))
          = allDigitsOrDots (String c a) && allDigitsOrDots b).
  cbn. rewrite IH. now rewrite andb_assoc.
Qed.

Lemma digitsOf_app (a b : string) :
  digitsOf (a +:+ b) = digitsOf a +:+ digitsOf b.
Proof.
  induction a as [| c a IH]; [reflexivity |].
  change (digitsOf (String c (a +:+ b)) = digitsOf (String c a) +:+ digitsOf b).
  cbn. rewrite IH. now destruct (digit_of c).
Qed.

Lemma keepDigitsAndDots_all (s : string) :
  allDigitsOrDots (keepDigitsAndDots s) = true.
Proof.
  induction s as [| c s IH]; [reflexivity |]. cbn.
  destruct (isDigitOrDot c) eqn:E; [cbn; now rewrite E | exact IH].
Qed.

Lemma keepDigitsAndDots_id (s : string) :
  allDigitsOrDots s = true -> keepDigitsAndDots s = s.
Proof.
  induction s as [| c s IH]; [reflexivity |]. cbn.
  rewrite andb_true_iff. intros [-> H]. now rewrite IH.
Qed.

Lemma dot_is_no_digit (c : ascii) : Ascii.eqb c "." = true -> digit_of c = None.
Proof. intros H. apply Ascii.eqb_eq in H as ->. reflexivity. Qed.

Lemma keepDigitsAndDots_digits (s : string) :
  digitsOf (keepDigitsAndDots s) = digitsOf s.
Proof.
  induction s as [| c s IH]; [reflexivity |]. cbn. unfold isDigitOrDot.
  destruct (digit_of c) eqn:E; cbn; [now rewrite E, IH |].
  destruct (Ascii.eqb c "."); [cbn; now rewrite E |]. exact IH.
Qed.

(** The parts of a split: how many, what they hold, what they add up to. *)
Lemma splitDot_parts (s : string) :
  length (splitDot s) = S (countDots s)
  /\ Forall (fun p => countDots p = O) (splitDot s)
  /\ digitsOf (joinEmpty (splitDot s)) = digitsOf s
  /\ (allDigitsOrDots s = true ->
      allDigitsOrDots (joinEmpty (splitDot s)) = true).
Proof.
  induction s as [| c s (Hlen & Hdots & Hdig & Hall)].
  - repeat split; auto. repeat constructor.
  - cbn [splitDot countDots].
    destruct (Ascii.eqb c ".") eqn:Ec.
    + split; [cbn; now rewrite Hlen |].
      split; [constructor; [reflexivity | exact Hdots] |].
      split.
      * cbn. rewrite (dot_is_no_digit c Ec). exact Hdig.
      * cbn. rewrite andb_true_iff. intros [_ H]. now apply Hall.
    + destruct (splitDot s) as [| p ps]; [discriminate |].
      apply Forall_cons in Hdots as [Hp Hps].
      split; [exact Hlen |].
      split; [constructor; [cbn; now rewrite Ec, Hp | exact Hps] |].
      assert (Hj : joinEmpty (String c p :: ps) = String c (joinEmpty (p :: ps)))
        by reflexivity.
      rewrite Hj. cbn [digitsOf allDigitsOrDots]. split.
      * now rewrite Hdig.
      * rewrite andb_true_iff. intros [-> H]. now apply Hall.
Qed.

Lemma joinEmpty_no_dots (parts : list string) :
  Forall (fun p => countDots p = O) parts -> countDots (joinEmpty parts) = O.
Proof.
  induction 1 as [| p ps Hp _ IH]; [reflexivity |].
  change (joinEmpty (p :: ps)) with (p +:+ joinEmpty ps).
  now rewrite countDots_app, Hp, IH.
Qed.

Lemma cleanPriceInput_spec (raw : string) :
  allDigitsOrDots (cleanPriceInput raw) = true
  /\ (countDots (cleanPriceInput raw) <= 1)%nat
  /\ digitsOf (cleanPriceInput raw) = digitsOf raw.
Proof.
  unfold cleanPriceInput.
  pose proof (keepDigitsAndDots_all raw) as Hall.
  pose proof (keepDigitsAndDots_digits raw) as Hdig.
  destruct (splitDot_parts (keepDigitsAndDots raw)) as (Hlen & Hdots & Hd & Ha).
  specialize (Ha Hall).
  destruct (splitDot (keepDigitsAndDots raw)) as [| p0 [| p1 [| p2 rest]]].
  - discriminate.
  - split; [exact Hall |]. split; [cbn in Hlen; lia | exact Hdig].
  - split; [exact Hall |]. split; [cbn in Hlen; lia | exact Hdig].
  - apply Forall_cons in Hdots as [H0 Hrest].
    change (joinEmpty (p0 :: p1 :: p2 :: rest))
      with (p0 +:+ joinEmpty (p1 :: p2 :: rest)) in Hd, Ha.
    rewrite allDigitsOrDots_app, andb_true_iff in Ha. destruct Ha as [Ha0 Ha1].
    rewrite digitsOf_app in Hd.
    split; [| split].
    + rewrite !allDigitsOrDots_app, Ha0, Ha1. reflexivity.
    + rewrite !countDots_app, H0, (joinEmpty_no_dots _ Hrest). cbn. lia.
    + rewrite !digitsOf_app. rewrite <- Hdig, <- Hd. reflexivity.
Qed.

(** X19: whatever is typed into a price field, the cleaned text holds only
    digits and dots, at most one dot, and the digits of the typed text in
    their order; cleaning a cleaned text changes nothing. *)
Theorem cleanPriceInput_shape (raw : string) :
  allDigitsOrDots (cleanPriceInput raw) = true
  /\ (countDots (cleanPriceInput raw) <= 1)%nat
  /\ digitsOf (cleanPriceInput raw) = digitsOf raw
  /\ cleanPriceInput (cleanPriceInput raw) = cleanPriceInput raw.
Proof.
  destruct (cleanPriceInput_spec raw) as (Hall & Hdots & Hdig).
  split; [exact Hall |]. split; [exact Hdots |]. split; [exact Hdig |].
  unfold cleanPriceInput at 1. rewrite (keepDigitsAndDots_id _ Hall).
  destruct (splitDot_parts (cleanPriceInput raw)) as (Hlen & _).
  destruct (splitDot (cleanPriceInput raw)) as [| p0 [| p1 [| p2 rest]]];
    try reflexivity.
  cbn in Hlen. lia.
Qed.

(** **** escapeHtml *)

Lemma append_assoc (a b c : string) : (a +:+ b) +:+ c = a +:+ (b +:+ c).
Proof.
  induction a as [| x a IH]; [reflexivity |].
  change (String x ((a +:+ b) +:+ c) = String x (a +:+ (b +:+ c))).
  now rewrite IH.
Qed.

Lemma replaceChar_app (c : ascii) (w a b : string) :
  replaceChar c w (a +:+ b) = replaceChar c w a +:+ replaceChar c w b.
Proof.
  induction a as [| x a IH]; [reflexivity |].
  change (replaceChar c w (String x (a +:+ b))
          = replaceChar c w (String x a) +:+ replaceChar c w b).
  cbn. rewrite IH. destruct (Ascii.eqb x c); [| reflexivity].
  now rewrite append_assoc.
Qed.

Lemma occurs_app (c : ascii) (a b : string) :
  occurs c (a +:+ b) = occurs c a || occurs c b.
Proof.
  induction a as [| x a IH]; [reflexivity |].
  change (occurs c (String x (a +:+ b)) = occurs c (String x a) || occurs c b).
  cbn. rewrite IH. now rewrite orb_assoc.
Qed.

Lemma escape_step (x : ascii) (t : string) :
  replaceChar dquote "&quot;"
    (replaceChar ">" "&gt;"
       (replaceChar "<" "&lt;" (replaceChar "&" "&amp;" (String x t))))
  = escapeChar x
    +:+ replaceChar dquote "&quot;"
          (replaceChar ">" "&gt;"
             (replaceChar "<" "&lt;" (replaceChar "&" "&amp;" t))).
Proof.
  unfold escapeChar. cbn [replaceChar].
  destruct (Ascii.eqb_spec x "&") as [-> | Hamp].
  { now rewrite !replaceChar_app. }
  cbn [replaceChar]. destruct (Ascii.eqb_spec x "<") as [-> | Hlt].
  { now rewrite !replaceChar_app. }
  cbn [replaceChar]. destruct (Ascii.eqb_spec x ">") as [-> | Hgt].
  { now rewrite !replaceChar_app. }
  cbn [replaceChar]. now destruct (Ascii.eqb_spec x dquote) as [-> | Hq].
Qed.

Lemma escapeChar_clean (x : ascii) :
  occurs "<" (escapeChar x) = false /\ occurs ">" (escapeChar x) = false
  /\ occurs dquote (escapeChar x) = false.
Proof.
  unfold escapeChar.
  destruct (Ascii.eqb_spec x "&"); [repeat split |].
  destruct (Ascii.eqb_spec x "<") as [| Hlt]; [repeat split |].
  destruct (Ascii.eqb_spec x ">") as [| Hgt]; [repeat split |].
  destruct (Ascii.eqb_spec x dquote) as [| Hq]; [repeat split |].
  cbn. rewrite !orb_false_r.
  repeat split; now apply Ascii.eqb_neq.
Qed.

(** X20: [escapeHtml] replaces each of [&], [<], [>] and the double quote
    by its entity, once and independently of the neighbours (an ampersand
    written by a replacement is not escaped again); the result holds no
    [<], no [>] and no double quote, and a text without the four characters
    is returned unchanged. *)
Theorem escapeHtml_each (text : string) :
  escapeHtml text = escapeEach text
  /\ occurs "<" (escapeHtml text) = false
  /\ occurs ">" (escapeHtml text) = false
  /\ occurs dquote (escapeHtml text) = false
  /\ (occurs "&" text = false -> occurs "<" text = false ->
      occurs ">" text = false -> occurs dquote text = false ->
      escapeHtml text = text).
Proof.
  assert (Heq : escapeHtml text = escapeEach text).
  { unfold escapeHtml. destruct text as [| x t]; [reflexivity |].
    cbn [isEmpty]. revert x. induction t as [| y t IH]; intros x.
    - rewrite escape_step. cbn. reflexivity.
    - rewrite escape_step. cbn [escapeEach]. now rewrite IH. }
  rewrite Heq. split; [reflexivity |].
  assert (Hclean : occurs "<" (escapeEach text) = false
                   /\ occurs ">" (escapeEach text) = false
                   /\ occurs dquote (escapeEach text) = false).
  { clear Heq. induction text as [| x t (H1 & H2 & H3)]; [repeat split |].
    cbn [escapeEach]. rewrite !occurs_app, H1, H2, H3.
    destruct (escapeChar_clean x) as (-> & -> & ->). repeat split. }
  destruct Hclean as (H1 & H2 & H3).
  repeat (split; [assumption |]).
  clear. induction text as [| x t IH]; [reflexivity |].
  cbn [occurs escapeEach]. rewrite !orb_false_iff.
  intros [Ha Ha'] [Hl Hl'] [Hg Hg'] [Hq Hq'].
  unfold escapeChar. rewrite Ha, Hl, Hg, Hq. cbn. now rewrite IH.
Qed.

Lemma escapeHtml_each_witness :
  escapeHtml "Tom & <b>" = "Tom &amp; &lt;b&gt;"
  /\ escapeHtml "plain text" = "plain text".
Proof.
  split; [vm_compute; reflexivity |].
  apply (proj2 (proj2 (proj2 (proj2 (escapeHtml_each "plain text")))));
    reflexivity.
Defined.

End ScriptFacts.
